(** * GearGuard: the role-permission matrix and the routes it guards

    A shallow embedding of [backend/server.js] (the Express API) and of
    [frontend/src/permissions.js], with the hosted store the API talks
    to written out as an explicit state.  Each route is a function from
    the incoming request and the store to the response sent and the
    store left behind. *)

From Stdlib Require Import ZArith Ascii.
From stdpp Require Import base option list gmap strings sorting pretty.

Local Open Scope Z_scope.

(** ** The JavaScript fragment the sources rely on *)

Module Js.

(** Values that can sit in a [role] field or in a JSON body.  The
    code only asks whether such a value is truthy and whether it is
    [===] to a string, so objects, arrays and functions are collapsed
    to [Object], and [Number n] stands for any number other than [NaN]
    (only its being zero matters). *)
Inductive value : Type :=
| Undefined
| Null
| Boolean (b : bool)
| Number (n : Z)
| NaN
| Str (s : string)
| Object.

#[global] Instance value_eq_dec : EqDecision value.
Proof. solve_decision. Defined.

(** ToBoolean. *)
Definition truthy (v : value) : bool :=
  match v with
  | Undefined | Null | NaN => false
  | Boolean b => b
  | Number n => negb (n =? 0)
  | Str s => negb (String.eqb s "")
  | Object => true
  end.

(** [v === 'lit'] against a string literal. *)
Definition strict_eq_str (v : value) (lit : string) : bool :=
  match v with
  | Str s => String.eqb s lit
  | _ => false
  end.

(** [arr.includes(v)] on an array of string literals (SameValueZero). *)
Definition includes (arr : list string) (v : value) : bool :=
  match v with
  | Str s => bool_decide (s ∈ arr)
  | _ => false
  end.

(** [v || null]. *)
Definition or_null (v : value) : value := if truthy v then v else Null.

(** [s.toLowerCase()] on the ASCII letters, and [hay.includes(needle)]. *)
Definition lower_ascii (c : Ascii.ascii) : Ascii.ascii :=
  let n := Ascii.nat_of_ascii c in
  if ((65 <=? n) && (n <=? 90))%nat then Ascii.ascii_of_nat (n + 32) else c.

Fixpoint toLowerCase (s : string) : string :=
  match s with
  | EmptyString => EmptyString
  | String c s' => String (lower_ascii c) (toLowerCase s')
  end.

Fixpoint str_includes (needle hay : string) : bool :=
  String.prefix needle hay ||
  match hay with
  | EmptyString => false
  | String _ hay' => str_includes needle hay'
  end.

(** How an evaluation ends: with a value, or with a thrown error. *)
Inductive error : Type := TypeError.

Inductive completion (A : Type) : Type :=
| Return (a : A)
| Throw (e : error).
Arguments Return {A} a.
Arguments Throw {A} e.

(** The string-keyed properties every object literal inherits from
    [Object.prototype].  All of them hold a function, except
    [__proto__], which reads as the prototype object itself: each is
    truthy and none is an array. *)
Definition object_prototype_keys : list string :=
  [ "constructor"; "__defineGetter__"; "__defineSetter__";
    "hasOwnProperty"; "__lookupGetter__"; "__lookupSetter__";
    "isPrototypeOf"; "propertyIsEnumerable"; "toString"; "valueOf";
    "__proto__"; "toLocaleString" ].

(** What [obj[key]] reads on an object literal whose own properties are
    arrays of strings: the own property if there is one, else what the
    prototype has under that key, else [undefined]. *)
Inductive property : Type :=
| Own (arr : list string)
| Inherited
| Missing.

Definition get (obj : gmap string (list string)) (key : string) : property :=
  match obj !! key with
  | Some arr => Own arr
  | None =>
      if bool_decide (key ∈ object_prototype_keys) then Inherited else Missing
  end.

(** *** [parseInt(string)], without a radix

    A string is read as UTF-8, so a character beyond ASCII is a
    sequence of two or three bytes. *)

Definition code (c : Ascii.ascii) : Z := Z.of_N (Ascii.N_of_ascii c).

(** WhiteSpace and LineTerminator: TAB, LF, VT, FF, CR and SP in one
    byte; U+00A0 in two; U+1680, U+2000 to U+200A, U+2028, U+2029,
    U+202F, U+205F, U+3000 and U+FEFF in three. *)
Definition white_space1 (a : Z) : bool :=
  ((9 <=? a) && (a <=? 13)) || (a =? 32).

Definition white_space2 (a b : Z) : bool :=
  (a =? 194) && (b =? 160).

Definition white_space3 (a b c : Z) : bool :=
  ((a =? 225) && (b =? 154) && (c =? 128))
  || ((a =? 226) && (b =? 128)
      && (((128 <=? c) && (c <=? 138)) || (c =? 168) || (c =? 169) || (c =? 175)))
  || ((a =? 226) && (b =? 129) && (c =? 159))
  || ((a =? 227) && (b =? 128) && (c =? 128))
  || ((a =? 239) && (b =? 187) && (c =? 191)).

(** [TrimString(s, start)]. *)
Fixpoint trimStart (s : string) : string :=
  match s with
  | String a s1 =>
      if white_space1 (code a) then trimStart s1
      else
        match s1 with
        | String b s2 =>
            if white_space2 (code a) (code b) then trimStart s2
            else
              match s2 with
              | String c s3 =>
                  if white_space3 (code a) (code b) (code c) then trimStart s3 else s
              | EmptyString => s
              end
        | EmptyString => s
        end
  | EmptyString => s
  end.

(** The value of a character as a digit of the radix, if it is one:
    [0-9], then [a-z] or [A-Z] for ten and more. *)
Definition digit (radix : Z) (c : Ascii.ascii) : option Z :=
  let a := code c in
  match (if (48 <=? a) && (a <=? 57) then Some (a - 48)
         else if (97 <=? a) && (a <=? 122) then Some (a - 87)
         else if (65 <=? a) && (a <=? 90) then Some (a - 55)
         else None) with
  | Some v => if v <? radix then Some v else None
  | None => None
  end.

(** The longest prefix of [s] made of digits of the radix, read as a
    numeral; [seen] is what was read so far, [None] while no digit was. *)
Fixpoint digits (radix : Z) (s : string) (seen : option Z) : option Z :=
  match s with
  | String c s' =>
      match digit radix c with
      | Some d => digits radix s' (Some (default 0 seen * radix + d))
      | None => seen
      end
  | EmptyString => seen
  end.

(** The Number value of a natural number: the nearest double, a tie
    going to the even significand; [None] is Infinity, which starts at
    [2^1024 - 2^970]. *)
Definition double_of (m : Z) : option Z :=
  let bits := Z.log2 m + 1 in
  let rounded :=
    if bits <=? 53 then m
    else
      let shift := bits - 53 in
      let q := Z.shiftr m shift in
      let r := Z.land m (Z.ones shift) in
      let half := Z.shiftl 1 (shift - 1) in
      Z.shiftl (if (half <? r) || ((r =? half) && Z.odd q) then q + 1 else q) shift in
  if rounded <? 2 ^ 1024 then Some rounded else None.

(** What [parseInt] returns.  [Finite 0] also stands for [-0], which
    is written [0] when it is sent. *)
Inductive parsed : Type :=
| Finite (n : Z)
| Infinite (negative : bool)
| NotANumber.

Definition sign_of (s : string) : bool :=
  match s with
  | String c _ => Ascii.eqb c "-"
  | EmptyString => false
  end.

Definition strip_sign (s : string) : string :=
  match s with
  | String c rest => if Ascii.eqb c "+" || Ascii.eqb c "-" then rest else s
  | EmptyString => s
  end.

(** The radix and what is left of the string: sixteen after [0x] or
    [0X], which is taken off, and ten otherwise. *)
Definition strip_prefix (s : string) : Z * string :=
  match s with
  | String z (String x rest) =>
      if Ascii.eqb z "0" && (Ascii.eqb x "x" || Ascii.eqb x "X")
      then (16, rest) else (10, s)
  | _ => (10, s)
  end.

Definition parseInt (input : string) : parsed :=
  let s := trimStart input in
  let negative := sign_of s in
  let '(radix, s) := strip_prefix (strip_sign s) in
  match digits radix s None with
  | None => NotANumber
  | Some mathInt =>
      match double_of mathInt with
      | Some n => Finite (if negative then - n else n)
      | None => Infinite negative
      end
  end.

(** What [JSON.stringify] makes of it in a request body: NaN and the
    infinities are written [null]. *)
Definition json_number (p : parsed) : option Z :=
  match p with
  | Finite n => Some n
  | _ => None
  end.

End Js.

Import Js (Return, Throw).

(** ** Actors *)

(** The object both tiers hand to [hasPermission]: the signed-in user
    merged with the [role] and [name] of its profile row.  A [null] or
    [undefined] actor is [None]. *)
Record UserProfile : Type := mkUserProfile {
  id : string;
  role : Js.value;
  name : Js.value
}.

Definition roleOf (r : string) (uid : string) : UserProfile :=
  {| id := uid; role := Js.Str r; name := Js.Null |}.

(** ** The hosted store

    The API keeps no data of its own: every route talks to the hosted
    Postgres service through a client object.  The service is not part
    of the repository; it is written out here as far as the routes rely
    on it: the tables they touch, with the columns they read or write
    (columns that are only passed through are left out), and calls that
    end with [{ data, error }], where [inl message] is the error branch
    and [inr data] the data branch.  A call the service accepts acts on
    every row that matches its filters; a call it turns down changes
    nothing. *)

Module Supabase.

(** The two client objects of [server.js]: [supabase] (anon key) and
    [supabaseAdmin] (service-role key, when configured). *)
Inductive client : Type := anon | service_role.

Inductive verb : Type := SELECT | INSERT | UPDATE | SIGNUP.

Record AuthUser : Type := mkAuthUser {
  au_id : string;
  au_email : string;
  email_confirmed_at : bool;
  user_metadata_name : Js.value;
  user_metadata_role : Js.value
}.

Record ProfileRow : Type := mkProfileRow {
  p_id : string;
  p_name : Js.value;
  p_role : Js.value
}.

Record EquipmentRow : Type := mkEquipmentRow {
  e_id : Z;
  e_name : Js.value;
  used_by_type : string;
  used_by_user_id : option string;
  used_by_department_id : option Z;
  e_created_at : Z
}.

Record RequestRow : Type := mkRequestRow {
  r_id : Z;
  subject : string;
  created_by_user_id : option string;
  technician_id : option string;
  stage : string;
  blocked : bool;
  r_created_at : Z
}.

(** [request_id] is what the route sends for the column: a number, or
    [null]. *)
Record StageHistoryRow : Type := mkStageHistoryRow {
  request_id : option Z;
  from_stage : option string;
  to_stage : option string;
  changed_by_user_id : string
}.

Record NoteRow : Type := mkNoteRow {
  n_id : Z;
  n_request_id : option Z;
  note : Js.value;
  n_created_by_user_id : string
}.

(** [refuses c v t] is the error message the service answers when it
    turns down verb [v] on table [t] for client [c] (a row-level
    security policy, a constraint, an outage); [None] when it goes
    through.  [sessions] maps an access token to the id of the user it
    was issued to.  [next_id] and [next_uuid] are the keys the service
    hands out to the next inserted row and the next account; [now] is
    its clock. *)
Record state : Type := mkState {
  sessions : gmap string string;
  users : list AuthUser;
  profiles : list ProfileRow;
  equipment : list EquipmentRow;
  maintenance_requests : list RequestRow;
  request_stage_history : list StageHistoryRow;
  request_notes : list NoteRow;
  refuses : client → verb → string → option string;
  next_id : Z;
  next_uuid : string;
  now : Z
}.

Definition with_users (f : list AuthUser → list AuthUser) (db : state) : state :=
  mkState (sessions db) (f (users db)) (profiles db) (equipment db)
    (maintenance_requests db) (request_stage_history db) (request_notes db)
    (refuses db) (next_id db) (next_uuid db) (now db).

Definition with_profiles (f : list ProfileRow → list ProfileRow) (db : state) : state :=
  mkState (sessions db) (users db) (f (profiles db)) (equipment db)
    (maintenance_requests db) (request_stage_history db) (request_notes db)
    (refuses db) (next_id db) (next_uuid db) (now db).

Definition with_equipment (f : list EquipmentRow → list EquipmentRow) (db : state) : state :=
  mkState (sessions db) (users db) (profiles db) (f (equipment db))
    (maintenance_requests db) (request_stage_history db) (request_notes db)
    (refuses db) (next_id db) (next_uuid db) (now db).

Definition with_maintenance_requests (f : list RequestRow → list RequestRow)
    (db : state) : state :=
  mkState (sessions db) (users db) (profiles db) (equipment db)
    (f (maintenance_requests db)) (request_stage_history db) (request_notes db)
    (refuses db) (next_id db) (next_uuid db) (now db).

Definition with_request_stage_history
    (f : list StageHistoryRow → list StageHistoryRow) (db : state) : state :=
  mkState (sessions db) (users db) (profiles db) (equipment db)
    (maintenance_requests db) (f (request_stage_history db)) (request_notes db)
    (refuses db) (next_id db) (next_uuid db) (now db).

Definition with_request_notes (f : list NoteRow → list NoteRow) (db : state) : state :=
  mkState (sessions db) (users db) (profiles db) (equipment db)
    (maintenance_requests db) (request_stage_history db) (f (request_notes db))
    (refuses db) (next_id db) (next_uuid db) (now db).

Definition bump_id (db : state) : state :=
  mkState (sessions db) (users db) (profiles db) (equipment db)
    (maintenance_requests db) (request_stage_history db) (request_notes db)
    (refuses db) (next_id db + 1) (next_uuid db) (now db).

Definition bump_uuid (db : state) : state :=
  mkState (sessions db) (users db) (profiles db) (equipment db)
    (maintenance_requests db) (request_stage_history db) (request_notes db)
    (refuses db) (next_id db) (next_uuid db +:+ "'") (now db).

(** The answer of one call: the refusal if there is one, else [ok]. *)
Definition answer {A : Type} (db : state) (c : client) (v : verb) (t : string)
    (ok : A) : string + A :=
  match refuses db c v t with
  | Some message => inl message
  | None => inr ok
  end.

(** [.single()]: exactly one row, or an error. *)
Definition single_error : string :=
  "JSON object requested, multiple (or no) rows returned".

Definition single {A : Type} (rows : string + list A) : string + A :=
  match rows with
  | inl message => inl message
  | inr [row] => inr row
  | inr _ => inl single_error
  end.

(** [.eq(column, value)] on [maintenance_requests]. *)
Inductive request_filter : Type :=
| eq_id (v : Z)
| eq_technician_id (v : string)
| eq_created_by_user_id (v : string).

Definition matches (r : RequestRow) (f : request_filter) : bool :=
  match f with
  | eq_id v => bool_decide (r_id r = v)
  | eq_technician_id v => bool_decide (technician_id r = Some v)
  | eq_created_by_user_id v => bool_decide (created_by_user_id r = Some v)
  end.

Definition matches_all (query : list request_filter) (r : RequestRow) : bool :=
  forallb (matches r) query.

(** [.order('created_at', { ascending: false })]. *)
Definition not_older {A : Type} (created_at : A → Z) : relation A :=
  λ a b, created_at b ≤ created_at a.

#[global] Instance not_older_dec {A : Type} (created_at : A → Z) :
  RelDecision (not_older created_at).
Proof. intros a b. unfold not_older. apply _. Defined.

Definition newest_first {A : Type} (created_at : A → Z) (rows : list A) : list A :=
  merge_sort (not_older created_at) rows.

(** The object the embedded [profiles(id, name)] join brings along,
    [null] when the row points at no profile. *)
Definition joined_profile (db : state) (uid : option string)
  : option (string * Js.value) :=
  match uid with
  | None => None
  | Some u =>
      match List.find (λ p, bool_decide (p_id p = u)) (profiles db) with
      | Some p => Some (p_id p, p_name p)
      | None => None
      end
  end.

(** The name the embedded [profiles(id, name)] join brings along. *)
Definition joined_name (db : state) (uid : option string) : Js.value :=
  match uid with
  | None => Js.Undefined
  | Some u =>
      match List.find (λ p, bool_decide (p_id p = u)) (profiles db) with
      | Some p => p_name p
      | None => Js.Undefined
      end
  end.

(** *** Writes

    Each write returns the service's answer and the store it leaves.
    A refused write leaves the store as it was. *)

Definition insert_equipment (c : client) (row : Z → Z → EquipmentRow) (db : state)
  : (string + EquipmentRow) * state :=
  match refuses db c INSERT "equipment" with
  | Some message => (inl message, db)
  | None =>
      let new := row (next_id db) (now db) in
      (inr new, bump_id (with_equipment (λ rows, rows ++ [new]) db))
  end.

Definition insert_request_notes (c : client) (row : Z → NoteRow) (db : state)
  : (string + NoteRow) * state :=
  match refuses db c INSERT "request_notes" with
  | Some message => (inl message, db)
  | None =>
      let new := row (next_id db) in
      (inr new, bump_id (with_request_notes (λ rows, rows ++ [new]) db))
  end.

Definition insert_request_stage_history (c : client) (new : StageHistoryRow)
    (db : state) : (string + StageHistoryRow) * state :=
  match refuses db c INSERT "request_stage_history" with
  | Some message => (inl message, db)
  | None => (inr new, with_request_stage_history (λ rows, rows ++ [new]) db)
  end.

(** [.update(patch).eq(..).select().single()]: the service applies the
    patch only when exactly one row matches; otherwise it answers the
    [single] error and changes nothing. *)
Definition update_maintenance_requests_single (c : client)
    (query : list request_filter) (patch : RequestRow → RequestRow) (db : state)
  : (string + RequestRow) * state :=
  match refuses db c UPDATE "maintenance_requests" with
  | Some message => (inl message, db)
  | None =>
      match List.filter (matches_all query) (maintenance_requests db) with
      | [row] =>
          (inr (patch row),
           with_maintenance_requests
             (List.map (λ r, if matches_all query r then patch r else r)) db)
      | _ => (inl single_error, db)
      end
  end.

(** [.from('profiles').update({ role }).eq('id', uid)]: no [single],
    so matching no row is not an error. *)
Definition update_profiles_role (c : client) (uid : string) (new_role : Js.value)
    (db : state) : option string * state :=
  match refuses db c UPDATE "profiles" with
  | Some message => (Some message, db)
  | None =>
      (None,
       with_profiles
         (List.map (λ p, if bool_decide (p_id p = uid)
                         then mkProfileRow (p_id p) (p_name p) new_role else p)) db)
  end.

(** [auth.signUp]: a new account, and through the database trigger a
    profile row for it.  The trigger gives the row the column default
    for [role], which the route's own warning names: EMPLOYEE. *)
Definition auth_signUp (email : string) (meta_name meta_role : Js.value) (db : state)
  : (string + AuthUser) * state :=
  match refuses db anon SIGNUP "auth.users" with
  | Some message => (inl message, db)
  | None =>
      if existsb (λ u, String.eqb (au_email u) email) (users db)
      then (inl "User already registered", db)
      else
        let user := mkAuthUser (next_uuid db) email false meta_name meta_role in
        (inr user,
         bump_uuid
           (with_profiles
              (λ rows, rows ++ [mkProfileRow (next_uuid db) meta_name (Js.Str "EMPLOYEE")])
              (with_users (λ l, l ++ [user]) db)))
  end.

(** [auth.admin.listUsers()] and [auth.admin.updateUserById(uid,
    { email_confirm: true })], both through the service-role client.
    Called without arguments, [listUsers] answers with the first page
    only, 50 accounts by default.  [users] keeps the accounts in the
    order in which the service lists them, so that page is its first
    50. *)
Definition listUsers_perPage : nat := 50.

Definition auth_admin_listUsers (db : state) : string + list AuthUser :=
  answer db service_role SELECT "auth.users" (take listUsers_perPage (users db)).

Definition auth_admin_confirm (uid : string) (db : state) : option string * state :=
  match refuses db service_role UPDATE "auth.users" with
  | Some message => (Some message, db)
  | None =>
      (None,
       with_users
         (List.map (λ u, if bool_decide (au_id u = uid)
                         then mkAuthUser (au_id u) (au_email u) true
                                (user_metadata_name u) (user_metadata_role u)
                         else u)) db)
  end.

End Supabase.

(** ** Requests and responses *)

(** The fields of [req.body] the routes below read.  An absent field
    is [None] (or [Js.Undefined] where any JSON value is accepted). *)
Record Body : Type := mkBody {
  b_stage : option string;
  b_blocked : option bool;
  b_note : Js.value;
  b_name : Js.value;
  b_email : string;
  b_role : Js.value;
  b_used_by_type : option string;
  b_used_by_user_id : option string;
  b_used_by_department_id : option Z
}.

(** [authorization] is [req.headers.authorization]; [params_id] is the
    row key that [req.params.id] names, the path segment being its
    decimal numeral ([path_id] below); [userProfile] and [canViewAll]
    are the two fields the middleware adds to [req]. *)
Record Req : Type := mkReq {
  authorization : option string;
  params_id : Z;
  body : Body;
  userProfile : option UserProfile;
  canViewAll : option bool
}.

(** [req.params.id], the string. *)
Definition path_id (req : Req) : string := pretty (params_id req).

Definition set_userProfile (u : UserProfile) (req : Req) : Req :=
  mkReq (authorization req) (params_id req) (body req) (Some u) (canViewAll req).

Definition set_canViewAll (b : bool) (req : Req) : Req :=
  mkReq (authorization req) (params_id req) (body req) (userProfile req) (Some b).

(** A listed request: the display fields the route computes from the
    joined profiles, next to the row itself ([...req]).  The spread
    comes last, so a key the row has as well ends up with the row's
    value: [technician] is the embedded profile that the select put
    under that alias, not the name computed from it.  [employee] is no
    key of the row and stays as computed. *)
Record FormattedRequest : Type := mkFormattedRequest {
  fr_employee : Js.value;
  fr_technician : option (string * Js.value);
  fr_row : Supabase.RequestRow
}.

Record FormattedEquipment : Type := mkFormattedEquipment {
  fe_employee : Js.value;
  fe_row : Supabase.EquipmentRow
}.

Inductive data : Type :=
| request_row (r : Supabase.RequestRow)
| note_row (n : Supabase.NoteRow)
| equipment_row (e : Supabase.EquipmentRow)
| request_list (l : list FormattedRequest)
| equipment_list (l : list FormattedEquipment).

(** The JSON documents the routes answer with. *)
Inductive json : Type :=
| message_only (message : string)
| message_data (message : string) (d : data)
| data_only (d : data)
| message_email (message : string) (email : string).

Record Response : Type := mkResponse {
  status : Z;
  sent : json
}.

(** How one call ends: with the response a guard or the handler sent,
    or, when an [async] guard throws outside any [try], with no
    response from the route (what the client then sees is up to
    Express, not to this file). *)
Inductive outcome : Type :=
| responded (r : Response)
| unanswered (e : Js.error).

(** ** [backend/server.js]: the permission matrix *)

Module Backend.

Definition permissions : gmap string (list string) :=
  list_to_map
    [ ("view_all_requests", ["ADMIN"; "MANAGER"]);
      ("view_own_requests", ["ADMIN"; "MANAGER"; "TECHNICIAN"; "EMPLOYEE"]);
      ("create_request", ["ADMIN"; "MANAGER"; "EMPLOYEE"]);
      ("update_request_stage", ["ADMIN"; "MANAGER"; "TECHNICIAN"]);
      ("delete_request", ["ADMIN"; "MANAGER"]);
      ("add_notes", ["ADMIN"; "MANAGER"; "EMPLOYEE"]);
      ("add_instructions", ["ADMIN"; "MANAGER"]);
      ("add_worksheet", ["ADMIN"]);
      ("manage_equipment", ["ADMIN"; "MANAGER"]);
      ("manage_workcenters", ["ADMIN"; "MANAGER"]);
      ("manage_teams", ["ADMIN"; "MANAGER"]);
      ("change_user_roles", ["ADMIN"]) ].

(** [function hasPermission(userProfile, action)].  The last line,
    [allowedRoles ? allowedRoles.includes(role) : false], calls
    [includes] on whatever truthy value the property read produced:
    on an inherited function that call is a [TypeError]. *)
Definition hasPermission (userProfile : option UserProfile) (action : string)
  : Js.completion bool :=
  match userProfile with
  | None => Return false
  | Some u =>
      if negb (Js.truthy (role u)) then Return false
      else if Js.strict_eq_str (role u) "ADMIN" then Return true
      else
        match Js.get permissions action with
        | Js.Own allowedRoles => Return (Js.includes allowedRoles (role u))
        | Js.Inherited => Throw Js.TypeError
        | Js.Missing => Return false
        end
  end.

(** *** Resolving the actor *)

Fixpoint drop (n : nat) (s : string) : string :=
  match n, s with
  | S n', String _ s' => drop n' s'
  | _, _ => s
  end.

(** The part of [s] before the first occurrence of [sep]. *)
Fixpoint before (sep s : string) : string :=
  if String.prefix sep s then ""
  else match s with
       | EmptyString => ""
       | String c s' => String c (before sep s')
       end.

(** [authHeader.split('Bearer ')[1]] for a header that starts with
    ['Bearer ']: what follows the first separator, up to the next. *)
Definition bearer_token (authHeader : string) : string :=
  before "Bearer " (drop 7 authHeader).

(** [supabase.auth.getUser(token)]. *)
Definition auth_getUser (db : Supabase.state) (token : string)
  : option Supabase.AuthUser :=
  uid ← Supabase.sessions db !! token;
  List.find (λ u, bool_decide (Supabase.au_id u = uid)) (Supabase.users db).

Definition getUserFromRequest (req : Req) (db : Supabase.state)
  : option Supabase.AuthUser :=
  match authorization req with
  | None => None
  | Some authHeader =>
      if negb (String.prefix "Bearer " authHeader) then None
      else auth_getUser db (bearer_token authHeader)
  end.

Definition getUserProfile (req : Req) (db : Supabase.state) : option UserProfile :=
  match getUserFromRequest req db with
  | None => None
  | Some user =>
      let rows :=
        List.filter (λ p, bool_decide (Supabase.p_id p = Supabase.au_id user))
          (Supabase.profiles db) in
      match Supabase.single
              (Supabase.answer db Supabase.anon Supabase.SELECT "profiles" rows) with
      | inl _ => None
      | inr profile =>
          Some {| id := Supabase.au_id user;
                  role := Supabase.p_role profile;
                  name := Supabase.p_name profile |}
      end
  end.

(** *** Middleware *)

Inductive passed : Type :=
| next (req : Req)
| stopped (r : Response)
| thrown (e : Js.error).

Definition Middleware : Type := Req → Supabase.state → passed.

Definition res_status_json (code : Z) (j : json) : Response :=
  {| status := code; sent := j |}.

Definition requirePermission (action : string) : Middleware :=
  λ req db,
    match getUserProfile req db with
    | None => stopped (res_status_json 401 (message_only "Not authenticated"))
    | Some profile =>
        match hasPermission (Some profile) action with
        | Throw e => thrown e
        | Return false =>
            stopped (res_status_json 403
              (message_only "You don't have permission to perform this action"))
        | Return true => next (set_userProfile profile req)
        end
    end.

Definition requireRequestAccess : Middleware :=
  λ req db,
    match getUserProfile req db with
    | None => stopped (res_status_json 401 (message_only "Not authenticated"))
    | Some profile =>
        match hasPermission (Some profile) "view_all_requests" with
        | Throw e => thrown e
        | Return true => next (set_canViewAll true (set_userProfile profile req))
        | Return false =>
            match hasPermission (Some profile) "view_own_requests" with
            | Throw e => thrown e
            | Return true => next (set_canViewAll false (set_userProfile profile req))
            | Return false =>
                stopped (res_status_json 403
                  (message_only "You don't have permission to view requests"))
            end
        end
    end.

(** *** Route handlers

    A handler body runs against the store and either goes on with a
    value or has already answered ([return res.status(..).json(..)]). *)
Definition Handler (A : Type) : Type :=
  Supabase.state → (Response + A) * Supabase.state.

#[global] Instance handler_ret : MRet Handler :=
  λ A a db, (inr a, db).

#[global] Instance handler_bind : MBind Handler :=
  λ A B f m db,
    match m db with
    | (inl r, db') => (inl r, db')
    | (inr a, db') => f a db'
    end.

Definition answer_with {A : Type} (r : Response) : Handler A :=
  λ db, (inl r, db).

Definition res_json (j : json) : Handler Response :=
  mret (res_status_json 200 j).

(** A read that leaves the store as it is. *)
Definition query {A : Type} (f : Supabase.state → A) : Handler A :=
  λ db, (inr (f db), db).

(** A write: the store's answer and the store it leaves. *)
Definition command {A : Type} (f : Supabase.state → A * Supabase.state) : Handler A :=
  λ db, let '(a, db') := f db in (inr a, db').

Definition run (h : Handler Response) (db : Supabase.state)
  : Response * Supabase.state :=
  match h db with
  | (inl r, db') => (r, db')
  | (inr r, db') => (r, db')
  end.

(** [app.METHOD(path, ...guards, handler)]. *)
Fixpoint route (guards : list Middleware) (handler : Req → Handler Response)
    (req : Req) (db : Supabase.state) : outcome * Supabase.state :=
  match guards with
  | [] => let '(r, db') := run (handler req) db in (responded r, db')
  | guard :: rest =>
      match guard req db with
      | next req' => route rest handler req' db
      | stopped r => (responded r, db)
      | thrown e => (unanswered e, db)
      end
  end.

Definition caught (message : string) : Response :=
  res_status_json 500 (message_only message).

Definition no_userProfile : string :=
  "Cannot read properties of undefined (reading 'role')".

(** *** Equipment *)

Definition format_equipment (joined : Supabase.EquipmentRow * Js.value)
  : FormattedEquipment :=
  let '(eq, used_by_user_name) := joined in
  {| fe_employee :=
       if String.eqb (Supabase.used_by_type eq) "EMPLOYEE"
       then used_by_user_name else Js.Null;
     fe_row := eq |}.

Definition get_api_equipment (req : Req) : Handler Response :=
  result ← query (λ db,
    Supabase.answer db Supabase.anon Supabase.SELECT "equipment"
      ((λ e, (e, Supabase.joined_name db (Supabase.used_by_user_id e)))
         <$> Supabase.newest_first Supabase.e_created_at (Supabase.equipment db)));
  match result with
  | inl message => answer_with (res_status_json 400 (message_only message))
  | inr equipment =>
      res_json (data_only (equipment_list (format_equipment <$> equipment)))
  end.

(** [x || null] on an optional string and on an optional number. *)
Definition nonempty (o : option string) : option string :=
  match o with
  | Some s => if String.eqb s "" then None else Some s
  | None => None
  end.

Definition nonzero (o : option Z) : option Z :=
  match o with
  | Some n => if n =? 0 then None else Some n
  | None => None
  end.

Definition post_api_equipment (req : Req) : Handler Response :=
  let usedByType := default "EMPLOYEE" (nonempty (b_used_by_type (body req))) in
  let usedByUserId := nonempty (b_used_by_user_id (body req)) in
  let usedByDepartmentId := nonzero (b_used_by_department_id (body req)) in
  if String.eqb usedByType "EMPLOYEE" && negb (bool_decide (is_Some usedByUserId))
  then answer_with (res_status_json 400
         (message_only "Employee is required when 'Used By' is Employee"))
  else if String.eqb usedByType "DEPARTMENT"
          && negb (bool_decide (is_Some usedByDepartmentId))
  then answer_with (res_status_json 400
         (message_only "Department is required when 'Used By' is Department"))
  else
    result ← command (Supabase.insert_equipment Supabase.anon (λ new_id created,
      {| Supabase.e_id := new_id;
         Supabase.e_name := b_name (body req);
         Supabase.used_by_type := usedByType;
         Supabase.used_by_user_id :=
           if String.eqb usedByType "EMPLOYEE" then usedByUserId else None;
         Supabase.used_by_department_id :=
           if String.eqb usedByType "DEPARTMENT" then usedByDepartmentId else None;
         Supabase.e_created_at := created |}));
    match result with
    | inl message => answer_with (res_status_json 400 (message_only message))
    | inr row => res_json (message_data "Equipment created" (equipment_row row))
    end.

(** *** Maintenance requests *)

Definition select_requests (q : list Supabase.request_filter) (db : Supabase.state)
  : string + list Supabase.RequestRow :=
  Supabase.answer db Supabase.anon Supabase.SELECT "maintenance_requests"
    (List.filter (Supabase.matches_all q) (Supabase.maintenance_requests db)).

Definition format_request
    (joined : Supabase.RequestRow * Js.value * option (string * Js.value))
  : FormattedRequest :=
  let '(r, created_by_name, technician) := joined in
  {| fr_employee := Js.or_null created_by_name;
     fr_technician := technician;
     fr_row := r |}.

(** The query [GET /api/requests] builds before it awaits it. *)
Definition requests_query (req : Req) : Js.completion (list Supabase.request_filter) :=
  if negb (default false (canViewAll req)) then
    match userProfile req with
    | None => Throw Js.TypeError
    | Some profile =>
        if Js.strict_eq_str (role profile) "TECHNICIAN"
        then Return [Supabase.eq_technician_id (id profile)]
        else if Js.strict_eq_str (role profile) "EMPLOYEE"
        then Return [Supabase.eq_created_by_user_id (id profile)]
        else Return []
    end
  else Return [].

Definition get_api_requests (req : Req) : Handler Response :=
  match requests_query req with
  | Throw _ => answer_with (caught no_userProfile)
  | Return q =>
      result ← query (λ db,
        match select_requests q db with
        | inl message => inl message
        | inr rows =>
            inr ((λ r, (r, Supabase.joined_name db (Supabase.created_by_user_id r),
                           Supabase.joined_profile db (Supabase.technician_id r)))
                   <$> Supabase.newest_first Supabase.r_created_at rows)
        end);
      match result with
      | inl message => answer_with (res_status_json 400 (message_only message))
      | inr requests =>
          res_json (data_only (request_list (format_request <$> requests)))
      end
  end.

(** [.from('maintenance_requests').select(..).eq('id', id).single()]. *)
Definition select_request_by_id (key : Z) (db : Supabase.state)
  : string + Supabase.RequestRow :=
  Supabase.single (select_requests [Supabase.eq_id key] db).

(** [{ stage: req.body.stage, blocked: req.body.blocked }]: a field
    that is [undefined] is not part of the JSON sent, so its column
    stays as it is. *)
Definition stage_patch (b : Body) (r : Supabase.RequestRow) : Supabase.RequestRow :=
  Supabase.mkRequestRow (Supabase.r_id r) (Supabase.subject r)
    (Supabase.created_by_user_id r) (Supabase.technician_id r)
    (default (Supabase.stage r) (b_stage b))
    (default (Supabase.blocked r) (b_blocked b))
    (Supabase.r_created_at r).

(** [current?.stage || null]. *)
Definition stage_or_null (current : string + Supabase.RequestRow) : option string :=
  match current with
  | inr r => nonempty (Some (Supabase.stage r))
  | inl _ => None
  end.

Definition put_api_requests_id_stage (req : Req) : Handler Response :=
  let key := params_id req in
  match userProfile req with
  | None => answer_with (caught no_userProfile)
  | Some profile =>
      (if Js.strict_eq_str (role profile) "TECHNICIAN" then
         request ← query (select_request_by_id key);
         match request with
         | inr r =>
             if bool_decide (Supabase.technician_id r = Some (id profile))
             then mret tt
             else answer_with (res_status_json 403
                    (message_only "You can only update requests assigned to you"))
         | inl _ =>
             answer_with (res_status_json 403
               (message_only "You can only update requests assigned to you"))
         end
       else mret tt) ;;
      current ← query (select_request_by_id key);
      updated ← command (Supabase.update_maintenance_requests_single Supabase.anon
                           [Supabase.eq_id key] (stage_patch (body req)));
      match updated with
      | inl message => answer_with (res_status_json 400 (message_only message))
      | inr row =>
          command (Supabase.insert_request_stage_history Supabase.anon
            {| Supabase.request_id := Js.json_number (Js.parseInt (path_id req));
               Supabase.from_stage := stage_or_null current;
               Supabase.to_stage := b_stage (body req);
               Supabase.changed_by_user_id := id profile |}) ;;
          res_json (message_data "Stage updated" (request_row row))
      end
  end.

Definition post_api_requests_id_notes (req : Req) : Handler Response :=
  let key := params_id req in
  match userProfile req with
  | None => answer_with (caught no_userProfile)
  | Some profile =>
      (if Js.strict_eq_str (role profile) "EMPLOYEE" then
         request ← query (select_request_by_id key);
         match request with
         | inr r =>
             if bool_decide (Supabase.created_by_user_id r = Some (id profile))
             then mret tt
             else answer_with (res_status_json 403
                    (message_only "You can only add notes to your own requests"))
         | inl _ =>
             answer_with (res_status_json 403
               (message_only "You can only add notes to your own requests"))
         end
       else mret tt) ;;
      inserted ← command (Supabase.insert_request_notes Supabase.anon (λ new_id,
        {| Supabase.n_id := new_id;
           Supabase.n_request_id := Js.json_number (Js.parseInt (path_id req));
           Supabase.note := b_note (body req);
           Supabase.n_created_by_user_id := id profile |}));
      match inserted with
      | inl message => answer_with (res_status_json 400 (message_only message))
      | inr row => res_json (message_data "Note added" (note_row row))
      end
  end.

(** *** Sign-up *)

Definition validRoles : list string := ["ADMIN"; "MANAGER"; "TECHNICIAN"; "EMPLOYEE"].

(** [validRoles.includes(role) ? role : 'EMPLOYEE']. *)
Definition userRole (requested : Js.value) : Js.value :=
  if Js.includes validRoles requested then requested else Js.Str "EMPLOYEE".

Definition already_registered (message : string) : bool :=
  negb (String.eqb message "") &&
  (Js.str_includes "already registered" (Js.toLowerCase message)
   || Js.str_includes "user already registered" (Js.toLowerCase message)).

(** [supabaseAdmin] says whether the service-role client exists
    (whether [SUPABASE_SERVICE_ROLE_KEY] is set). *)
Definition post_api_auth_signup (supabaseAdmin : bool) (req : Req) : Handler Response :=
  let email := b_email (body req) in
  let role_ := userRole (b_role (body req)) in
  signed ← command (Supabase.auth_signUp email (b_name (body req)) role_);
  match signed with
  | inl message =>
      if already_registered message then
        (if supabaseAdmin then
           listed ← query Supabase.auth_admin_listUsers;
           match listed with
           | inr users =>
               match List.find (λ u, String.eqb (Supabase.au_email u) email) users with
               | Some user =>
                   if negb (Supabase.email_confirmed_at user) then
                     command (Supabase.auth_admin_confirm (Supabase.au_id user)) ;;
                     answer_with (res_status_json 400 (message_only
                       "User already exists. Your account has been activated. Please try logging in."))
                   else mret tt
               | None => mret tt
               end
           | inl _ => mret tt
           end
         else mret tt) ;;
        answer_with (res_status_json 400
          (message_only "User already exists. Please try logging in instead."))
      else answer_with (res_status_json 400 (message_only message))
  | inr user =>
      (if supabaseAdmin then
         profileError ← command (Supabase.update_profiles_role Supabase.service_role
                                   (Supabase.au_id user) role_);
         match profileError with
         | Some _ =>
             answer_with (res_status_json 500 (message_only
               "User created but failed to set role. Please contact support."))
         | None => mret tt
         end
       else
         command (Supabase.update_profiles_role Supabase.anon
                    (Supabase.au_id user) role_) ;;
         mret tt) ;;
      (if supabaseAdmin && negb (Supabase.email_confirmed_at user) then
         command (Supabase.auth_admin_confirm (Supabase.au_id user)) ;; mret tt
       else mret tt) ;;
      res_json (message_email "Signup successful! You can now log in."
                  (Supabase.au_email user))
  end.

(** *** The routing table *)

Definition Route : Type := Req → Supabase.state → outcome * Supabase.state.

Definition GET_api_equipment : Route := route [] get_api_equipment.
Definition POST_api_equipment : Route :=
  route [requirePermission "manage_equipment"] post_api_equipment.
Definition GET_api_requests : Route := route [requireRequestAccess] get_api_requests.
Definition PUT_api_requests_id_stage : Route :=
  route [requirePermission "update_request_stage"] put_api_requests_id_stage.
Definition POST_api_requests_id_notes : Route :=
  route [requirePermission "add_notes"] post_api_requests_id_notes.
Definition POST_api_auth_signup (supabaseAdmin : bool) : Route :=
  route [] (post_api_auth_signup supabaseAdmin).

(** The routes above that are registered behind a guard. *)
Definition guarded_routes : list Route :=
  [ POST_api_equipment; GET_api_requests;
    PUT_api_requests_id_stage; POST_api_requests_id_notes ].

Definition unauthenticated : Response :=
  res_status_json 401 (message_only "Not authenticated").

End Backend.

(** ** [frontend/src/permissions.js] *)

Module Frontend.

Definition permissions : gmap string (list string) :=
  list_to_map
    [ ("view_all_requests", ["ADMIN"; "MANAGER"]);
      ("view_own_requests", ["ADMIN"; "MANAGER"; "TECHNICIAN"; "EMPLOYEE"]);
      ("create_request", ["ADMIN"; "MANAGER"; "EMPLOYEE"]);
      ("update_request_stage", ["ADMIN"; "MANAGER"; "TECHNICIAN"]);
      ("delete_request", ["ADMIN"; "MANAGER"]);
      ("add_notes", ["ADMIN"; "MANAGER"; "EMPLOYEE"]);
      ("add_instructions", ["ADMIN"; "MANAGER"]);
      ("add_worksheet", ["ADMIN"]);
      ("manage_equipment", ["ADMIN"; "MANAGER"]);
      ("manage_workcenters", ["ADMIN"; "MANAGER"]);
      ("manage_teams", ["ADMIN"; "MANAGER"]);
      ("change_user_roles", ["ADMIN"]) ].

Definition hasPermission (user : option UserProfile) (action : string)
  : Js.completion bool :=
  match user with
  | None => Return false
  | Some u =>
      if negb (Js.truthy (role u)) then Return false
      else if Js.strict_eq_str (role u) "ADMIN" then Return true
      else
        match Js.get permissions action with
        | Js.Own allowedRoles => Return (Js.includes allowedRoles (role u))
        | Js.Inherited => Throw Js.TypeError
        | Js.Missing => Return false
        end
  end.

Definition canViewAllRequests (user : option UserProfile) :=
  hasPermission user "view_all_requests".
Definition canManageEquipment (user : option UserProfile) :=
  hasPermission user "manage_equipment".
Definition canManageWorkcenters (user : option UserProfile) :=
  hasPermission user "manage_workcenters".
Definition canManageTeams (user : option UserProfile) :=
  hasPermission user "manage_teams".
Definition canChangeUserRoles (user : option UserProfile) :=
  hasPermission user "change_user_roles".

End Frontend.

(** ** A small deployment to run the routes on *)

Module Sample.

Import Supabase.

Definition account (uid : string) (r : string) : AuthUser * ProfileRow :=
  (mkAuthUser uid (uid +:+ "@gearguard.test") true (Js.Str uid) (Js.Str r),
   mkProfileRow uid (Js.Str uid) (Js.Str r)).

Definition accounts : list (AuthUser * ProfileRow) :=
  [ account "a1" "ADMIN"; account "m1" "MANAGER";
    account "t1" "TECHNICIAN"; account "t2" "TECHNICIAN";
    account "e1" "EMPLOYEE"; account "e2" "EMPLOYEE";
    account "g1" "GUEST" ].

Definition requests : list RequestRow :=
  [ mkRequestRow 1 "Conveyor belt slips" (Some "e1") (Some "t1") "NEW_REQUEST" false 10;
    mkRequestRow 2 "Press leaks oil" (Some "e2") (Some "t2") "IN_PROGRESS" false 20;
    mkRequestRow 3 "Lathe will not start" (Some "e1") None "NEW_REQUEST" false 30 ].

Definition machines : list EquipmentRow :=
  [ mkEquipmentRow 7 (Js.Str "Lathe") "EMPLOYEE" (Some "e1") None 5 ].

Definition grants_all : client → verb → string → option string := λ _ _ _, None.

(** The service turns down inserts into the stage history. *)
Definition history_closed : client → verb → string → option string :=
  λ _ v t,
    match v with
    | INSERT =>
        if String.eqb t "request_stage_history"
        then Some "new row violates row-level security policy"
        else None
    | _ => None
    end.

Definition store_with (policy : client → verb → string → option string) : state :=
  {| sessions := list_to_map ((λ a, ("token-" +:+ au_id a.1, au_id a.1)) <$> accounts);
     users := fst <$> accounts;
     profiles := snd <$> accounts;
     equipment := machines;
     maintenance_requests := requests;
     request_stage_history := [];
     request_notes := [];
     refuses := policy;
     next_id := 100;
     next_uuid := "u100";
     now := 50 |}.

Definition store : state := store_with grants_all.

Definition empty_body : Body :=
  mkBody None None Js.Undefined Js.Undefined "" Js.Undefined None None None.

Definition stage_body (s : string) : Body :=
  mkBody (Some s) (Some false) Js.Undefined Js.Undefined "" Js.Undefined None None None.

Definition note_body (text : string) : Body :=
  mkBody None None (Js.Str text) Js.Undefined "" Js.Undefined None None None.

Definition signup_body (email : string) (r : Js.value) : Body :=
  mkBody None None Js.Undefined (Js.Str "Newcomer") email r None None None.

(** A call by the holder of the token of account [uid]. *)
Definition call_as (uid : string) (key : Z) (b : Body) : Req :=
  mkReq (Some ("Bearer token-" +:+ uid)) key b None None.

Definition anonymous_call (key : Z) (b : Body) : Req :=
  mkReq None key b None None.

End Sample.

(** ** [backend/server.js]: further routes *)

Module Wider.

Import Backend.

(** *** Filing a request *)

(** What [req.body.scheduled_at] holds once the body is parsed: any
    JSON value, or nothing ([Js.Undefined]).  An array is kept apart
    from the other objects ([Js.Object]), because it has an [includes]
    method and they have none. *)
Inductive Scheduled : Type :=
| value_of (v : Js.value)
| array_of (items : list Js.value).

(** The fields of [req.body] that [POST /api/requests] reads and the
    row model carries, with [scheduled_at], which the route rewrites
    before it stores it. *)
Record NewRequest : Type := mkNewRequest {
  nr_subject : string;
  nr_created_by_user_id : option string;
  nr_technician_id : option string;
  nr_stage : option string;
  nr_blocked : option bool;
  nr_scheduled_at : Scheduled
}.

(** [s.replace(from, to)] with one-character strings: the first
    occurrence only. *)
Fixpoint replace_first (from to : Ascii.ascii) (s : string) : string :=
  match s with
  | EmptyString => EmptyString
  | String c s' =>
      if Ascii.eqb c from then String to s'
      else String c (replace_first from to s')
  end.

(** [let scheduledAt = req.body.scheduled_at;
     if (scheduledAt && !scheduledAt.includes('T'))
       scheduledAt = scheduledAt.replace(' ', 'T') + 'Z';]
    and then [scheduledAt || null]. *)
Definition scheduledAt (given : option string) : option string :=
  nonempty
    match given with
    | Some s =>
        if negb (String.eqb s "") && negb (Js.str_includes "T" s)
        then Some (replace_first " " "T" s +:+ "Z")
        else Some s
    | None => None
    end.

Definition includes_is_not_a_function : string :=
  "scheduledAt.includes is not a function".

Definition replace_is_not_a_function : string :=
  "scheduledAt.replace is not a function".

(** The same two steps on whatever the body holds; [inl] is the message
    of the TypeError thrown on the way.  A falsy value skips the [if]
    and is stored as [null].  A string goes through [scheduledAt].  Any
    other truthy value is asked for [includes]: a number, [true] and an
    object have none; an array has, and is kept as it is when ['T'] is
    one of its items, and asked for [replace], which it has not,
    otherwise. *)
Definition scheduled_at_column (given : Scheduled) : string + Scheduled :=
  match given with
  | value_of (Js.Str s) =>
      inr (value_of match scheduledAt (Some s) with
                    | Some rewritten => Js.Str rewritten
                    | None => Js.Null
                    end)
  | value_of v =>
      if Js.truthy v then inl includes_is_not_a_function else inr (value_of Js.Null)
  | array_of items =>
      if existsb (λ v, Js.strict_eq_str v "T") items
      then inr (array_of items)
      else inl replace_is_not_a_function
  end.

Definition insert_maintenance_requests (c : Supabase.client)
    (row : Z → Z → Supabase.RequestRow) (db : Supabase.state)
  : (string + Supabase.RequestRow) * Supabase.state :=
  match Supabase.refuses db c Supabase.INSERT "maintenance_requests" with
  | Some message => (inl message, db)
  | None =>
      let new := row (Supabase.next_id db) (Supabase.now db) in
      (inr new,
       Supabase.bump_id (Supabase.with_maintenance_requests (λ rows, rows ++ [new]) db))
  end.

Definition no_userProfile_id : string :=
  "Cannot read properties of undefined (reading 'id')".

(** [req.body.created_by_user_id || req.userProfile.id]: the caller's
    id is read only when the body names nobody. *)
Definition creator (fields : NewRequest) (req : Req) : Js.completion string :=
  match nonempty (nr_created_by_user_id fields) with
  | Some named => Return named
  | None =>
      match userProfile req with
      | Some profile => Return (id profile)
      | None => Throw Js.TypeError
      end
  end.

(** The rewrite of [scheduled_at] comes first, and a TypeError in it
    is caught like any other: 500, before anything is written.  What it
    yields goes into a column the row model does not carry. *)
Definition post_api_requests (fields : NewRequest) (req : Req) : Handler Response :=
  match scheduled_at_column (nr_scheduled_at fields) with
  | inl message => answer_with (caught message)
  | inr _ =>
      match creator fields req with
      | Throw _ => answer_with (caught no_userProfile_id)
      | Return created_by =>
          result ← command (insert_maintenance_requests Supabase.anon (λ new_id created,
            {| Supabase.r_id := new_id;
               Supabase.subject := nr_subject fields;
               Supabase.created_by_user_id := Some created_by;
               Supabase.technician_id := nonempty (nr_technician_id fields);
               Supabase.stage := default "NEW_REQUEST" (nonempty (nr_stage fields));
               Supabase.blocked := default false (nr_blocked fields);
               Supabase.r_created_at := created |}));
          match result with
          | inl message => answer_with (res_status_json 400 (message_only message))
          | inr row => res_json (message_data "Request created" (request_row row))
          end
      end
  end.

Definition POST_api_requests (fields : NewRequest) : Route :=
  route [requirePermission "create_request"] (post_api_requests fields).

(** *** Routes that need more of the service

    Two more tables, the DELETE verb, and answers that carry rows of
    other kinds.  [core] is the store of the routes above. *)

Record InstructionRow : Type := mkInstructionRow {
  i_id : Z;
  i_request_id : option Z;
  instruction : Js.value;
  i_created_by_user_id : string
}.

Record WorksheetRow : Type := mkWorksheetRow {
  w_id : Z;
  w_request_id : option Z;
  comment : Js.value;
  w_created_by_user_id : string
}.

Record store : Type := mkStore {
  core : Supabase.state;
  request_instructions : list InstructionRow;
  request_worksheet_comments : list WorksheetRow;
  refuses_delete : Supabase.client → string → option string
}.

Definition with_core (f : Supabase.state → Supabase.state) (db : store) : store :=
  mkStore (f (core db)) (request_instructions db) (request_worksheet_comments db)
    (refuses_delete db).

Inductive document : Type :=
| narrow (j : json)
| message_profile (message : string) (p : Supabase.ProfileRow)
| message_instruction (message : string) (i : InstructionRow)
| message_worksheet (message : string) (w : WorksheetRow).

Record Reply : Type := mkReply {
  code : Z;
  carried : document
}.

Definition widen (r : Response) : Reply :=
  {| code := status r; carried := narrow (sent r) |}.

Inductive ended : Type :=
| replied (r : Reply)
| failed (e : Js.error).

Definition WHandler (A : Type) : Type := store → (Reply + A) * store.

#[global] Instance whandler_ret : MRet WHandler :=
  λ A a db, (inr a, db).

#[global] Instance whandler_bind : MBind WHandler :=
  λ A B f m db,
    match m db with
    | (inl r, db') => (inl r, db')
    | (inr a, db') => f a db'
    end.

Definition reply_with {A : Type} (c : Z) (d : document) : WHandler A :=
  λ db, (inl (mkReply c d), db).

Definition reply_json (d : document) : WHandler Reply :=
  mret (mkReply 200 d).

(** A call on one of the tables of [core]. *)
Definition on_core {A : Type} (f : Supabase.state → A * Supabase.state) : WHandler A :=
  λ db, let '(a, c') := f (core db) in (inr a, with_core (λ _, c') db).

Definition call {A : Type} (f : store → A * store) : WHandler A :=
  λ db, let '(a, db') := f db in (inr a, db').

Definition wrun (h : WHandler Reply) (db : store) : Reply * store :=
  match h db with
  | (inl r, db') => (r, db')
  | (inr r, db') => (r, db')
  end.

Fixpoint wroute (guards : list Middleware) (handler : Req → WHandler Reply)
    (req : Req) (db : store) : ended * store :=
  match guards with
  | [] => let '(r, db') := wrun (handler req) db in (replied r, db')
  | guard :: rest =>
      match guard req (core db) with
      | next req' => wroute rest handler req' db
      | stopped r => (replied (widen r), db)
      | thrown e => (failed e, db)
      end
  end.

(** *** Changing a user's role *)

(** [.from('profiles').update({ role }).eq('id', uid).select().single()]. *)
Definition update_profiles_single (c : Supabase.client) (uid : string)
    (new_role : Js.value) (db : Supabase.state)
  : (string + Supabase.ProfileRow) * Supabase.state :=
  match Supabase.refuses db c Supabase.UPDATE "profiles" with
  | Some message => (inl message, db)
  | None =>
      match List.filter (λ p, bool_decide (Supabase.p_id p = uid)) (Supabase.profiles db) with
      | [row] =>
          (inr (Supabase.mkProfileRow (Supabase.p_id row) (Supabase.p_name row) new_role),
           Supabase.with_profiles
             (List.map (λ p, if bool_decide (Supabase.p_id p = uid)
                             then Supabase.mkProfileRow (Supabase.p_id p) (Supabase.p_name p)
                                    new_role
                             else p)) db)
      | _ => (inl Supabase.single_error, db)
      end
  end.

(** [userId] is [req.params.id], here the id of an account. *)
Definition put_api_users_id_role (userId : string) (req : Req) : WHandler Reply :=
  let requested := b_role (body req) in
  if negb (Js.includes validRoles requested)
  then reply_with 400 (narrow (message_only
         "Invalid role. Must be one of: ADMIN, MANAGER, TECHNICIAN, EMPLOYEE"))
  else
    updated ← on_core (update_profiles_single Supabase.anon userId requested);
    match updated with
    | inl message => reply_with 400 (narrow (message_only message))
    | inr row => reply_json (message_profile "User role updated" row)
    end.

Definition PUT_api_users_id_role (userId : string) : Req → store → ended * store :=
  wroute [requirePermission "change_user_roles"] (put_api_users_id_role userId).

(** *** Deleting a request *)

(** [.from('maintenance_requests').delete().eq('id', key)]: every row
    under the key goes; finding none is not an error. *)
Definition delete_maintenance_requests (c : Supabase.client) (key : Z) (db : store)
  : option string * store :=
  match refuses_delete db c "maintenance_requests" with
  | Some message => (Some message, db)
  | None =>
      (None,
       with_core
         (Supabase.with_maintenance_requests
            (List.filter (λ r, negb (bool_decide (Supabase.r_id r = key))))) db)
  end.

Definition delete_api_requests_id (req : Req) : WHandler Reply :=
  error ← call (delete_maintenance_requests Supabase.anon (params_id req));
  match error with
  | Some message => reply_with 400 (narrow (message_only message))
  | None => reply_json (narrow (message_only "Request deleted"))
  end.

Definition DELETE_api_requests_id : Req → store → ended * store :=
  wroute [requirePermission "delete_request"] delete_api_requests_id.

(** *** Instructions and worksheet comments *)

Definition insert_request_instructions (c : Supabase.client)
    (row : Z → InstructionRow) (db : store) : (string + InstructionRow) * store :=
  match Supabase.refuses (core db) c Supabase.INSERT "request_instructions" with
  | Some message => (inl message, db)
  | None =>
      let new := row (Supabase.next_id (core db)) in
      (inr new,
       mkStore (Supabase.bump_id (core db)) (request_instructions db ++ [new])
         (request_worksheet_comments db) (refuses_delete db))
  end.

Definition insert_request_worksheet_comments (c : Supabase.client)
    (row : Z → WorksheetRow) (db : store) : (string + WorksheetRow) * store :=
  match Supabase.refuses (core db) c Supabase.INSERT "request_worksheet_comments" with
  | Some message => (inl message, db)
  | None =>
      let new := row (Supabase.next_id (core db)) in
      (inr new,
       mkStore (Supabase.bump_id (core db)) (request_instructions db)
         (request_worksheet_comments db ++ [new]) (refuses_delete db))
  end.

(** [path] is [req.params.id], any string, and [text] is
    [req.body.instruction].  The route hands the path to [parseInt] and
    to nothing else. *)
Definition post_api_requests_id_instructions (path : string) (text : Js.value)
    (req : Req) : WHandler Reply :=
  match userProfile req with
  | None => reply_with 500 (narrow (message_only no_userProfile_id))
  | Some profile =>
      inserted ← call (insert_request_instructions Supabase.anon (λ new_id,
        {| i_id := new_id;
           i_request_id := Js.json_number (Js.parseInt path);
           instruction := text;
           i_created_by_user_id := id profile |}));
      match inserted with
      | inl message => reply_with 400 (narrow (message_only message))
      | inr row => reply_json (message_instruction "Instruction added" row)
      end
  end.

(** [path] is [req.params.id], any string, and [text] is
    [req.body.comment]. *)
Definition post_api_requests_id_worksheet (path : string) (text : Js.value)
    (req : Req) : WHandler Reply :=
  match userProfile req with
  | None => reply_with 500 (narrow (message_only no_userProfile_id))
  | Some profile =>
      inserted ← call (insert_request_worksheet_comments Supabase.anon (λ new_id,
        {| w_id := new_id;
           w_request_id := Js.json_number (Js.parseInt path);
           comment := text;
           w_created_by_user_id := id profile |}));
      match inserted with
      | inl message => reply_with 400 (narrow (message_only message))
      | inr row => reply_json (message_worksheet "Worksheet comment added" row)
      end
  end.

Definition POST_api_requests_id_instructions (path : string) (text : Js.value)
  : Req → store → ended * store :=
  wroute [requirePermission "add_instructions"]
    (post_api_requests_id_instructions path text).

Definition POST_api_requests_id_worksheet (path : string) (text : Js.value)
  : Req → store → ended * store :=
  wroute [requirePermission "add_worksheet"]
    (post_api_requests_id_worksheet path text).

End Wider.

(** ** [frontend/src/pages/Teams.jsx]: the member check boxes *)

Module TeamsPage.

(** The state of the "new team" form. *)
Record Form : Type := mkForm {
  f_name : string;
  company : string;
  member_ids : list string
}.

(** [handleMemberToggle(userId)], as the function it hands to
    [setForm]: a selected id is taken out (every occurrence), an
    unselected one goes to the end. *)
Definition handleMemberToggle (userId : string) (prev : Form) : Form :=
  let memberIds := member_ids prev in
  let isSelected := bool_decide (userId ∈ memberIds) in
  mkForm (f_name prev) (company prev)
    (if isSelected
     then List.filter (λ i, negb (String.eqb i userId)) memberIds
     else memberIds ++ [userId]).

End TeamsPage.

(** ** The small deployment, for the further routes *)

Module Scenario.

Definition store : Wider.store :=
  Wider.mkStore Sample.store [] [] (λ _ _, None).

Definition filed_by_caller : Wider.NewRequest :=
  Wider.mkNewRequest "Drill overheats" None None None None
    (Wider.value_of (Js.Str "2025-03-01 08:30")).

Definition filed_for (uid : string) : Wider.NewRequest :=
  Wider.mkNewRequest "Drill overheats" (Some uid) None None None
    (Wider.value_of Js.Undefined).

Definition role_body (r : Js.value) : Body :=
  mkBody None None Js.Undefined Js.Undefined "" r None None None.

(** An account that signed up and has not confirmed its address. *)
Definition pending : Supabase.AuthUser :=
  Supabase.mkAuthUser "p1" "pat@gearguard.test" false (Js.Str "Pat") (Js.Str "EMPLOYEE").

Definition store_with_pending : Supabase.state :=
  Supabase.with_users (λ l, l ++ [pending]) Sample.store.

(** The same, with so many accounts listed before the pending one that
    it is the 51st. *)
Definition bystander (n : nat) : Supabase.AuthUser :=
  Supabase.mkAuthUser ("b" +:+ pretty n) ("b" +:+ pretty n +:+ "@gearguard.test") true
    (Js.Str "Bystander") (Js.Str "EMPLOYEE").

Definition crowded_store : Supabase.state :=
  Supabase.with_users (λ l, l ++ (bystander <$> seq 0 43) ++ [pending]) Sample.store.

End Scenario.

(** ** Vocabulary for the statements below *)

Definition forbidden (message : string) : Response :=
  Backend.res_status_json 403 (message_only message).

(** The ownership test of the stage route, and of the notes route, as
    the handlers make it. *)
Definition may_change_stage (u : UserProfile) (key : Z) (db : Supabase.state) : bool :=
  if Js.strict_eq_str (role u) "TECHNICIAN" then
    match Backend.select_request_by_id key db with
    | inr r => bool_decide (Supabase.technician_id r = Some (id u))
    | inl _ => false
    end
  else true.

Definition may_add_note (u : UserProfile) (key : Z) (db : Supabase.state) : bool :=
  if Js.strict_eq_str (role u) "EMPLOYEE" then
    match Backend.select_request_by_id key db with
    | inr r => bool_decide (Supabase.created_by_user_id r = Some (id u))
    | inl _ => false
    end
  else true.

(** The rows a response to [GET /api/requests] lists. *)
Definition listed (o : outcome) : option (list Supabase.RequestRow) :=
  match o with
  | responded {| status := code; sent := data_only (request_list l) |} =>
      if code =? 200 then Some (fr_row <$> l) else None
  | _ => None
  end.

(** The store a successful sign-up leaves, step by step. *)
Definition after_signup (supabaseAdmin : bool) (req : Req) (db : Supabase.state)
  : Supabase.state :=
  let granted := Backend.userRole (b_role (body req)) in
  let db1 := (Supabase.auth_signUp (b_email (body req)) (b_name (body req)) granted db).2 in
  let db2 := (Supabase.update_profiles_role
                (if supabaseAdmin then Supabase.service_role else Supabase.anon)
                (Supabase.next_uuid db) granted db1).2 in
  if supabaseAdmin then (Supabase.auth_admin_confirm (Supabase.next_uuid db) db2).2
  else db2.

(** What identifies an account: its id, its address and the role in its
    metadata. *)
Definition identity_of (u : Supabase.AuthUser) : string * string * Js.value :=
  (Supabase.au_id u, Supabase.au_email u, Supabase.user_metadata_role u).

(** The columns of a request that a stage change does not write. *)
Definition kept_columns (r : Supabase.RequestRow)
  : Z * string * option string * option string * Z :=
  (Supabase.r_id r, Supabase.subject r, Supabase.created_by_user_id r,
   Supabase.technician_id r, Supabase.r_created_at r).

(** A profile row after the role of [uid] was set to [new_role]. *)
Definition with_role (uid : string) (new_role : Js.value) (p : Supabase.ProfileRow)
  : Supabase.ProfileRow :=
  if bool_decide (Supabase.p_id p = uid)
  then Supabase.mkProfileRow (Supabase.p_id p) (Supabase.p_name p) new_role
  else p.

(** Unfolds the handler monad down to pairs and sums. *)
Ltac run_handler :=
  cbv [Backend.run mbind Backend.handler_bind mret Backend.handler_ret Backend.query
         Backend.command Backend.answer_with Backend.res_json].

(** * Properties *)

(** ** The permission matrix *)

Section Matrix.

Import Backend.

Lemma permissions_agree : Frontend.permissions = Backend.permissions.
Proof. reflexivity. Qed.

Lemma strict_eq_str_true (v : Js.value) (lit : string) :
  Js.strict_eq_str v lit = true ↔ v = Js.Str lit.
Proof.
  destruct v; simpl; try (split; [discriminate | congruence]).
  rewrite String.eqb_eq. split; congruence.
Qed.

Lemma includes_true (arr : list string) (v : Js.value) :
  Js.includes arr v = true ↔ ∃ s, v = Js.Str s ∧ s ∈ arr.
Proof.
  destruct v; simpl;
    try (split; [discriminate | intros (s & Hs & _); discriminate]).
  rewrite bool_decide_eq_true. split.
  - intros Hin. eauto.
  - intros (s' & Hs & Hin). congruence.
Qed.

(** A role that is a non-empty string other than ADMIN goes through
    the table. *)
Lemma hasPermission_table (u : UserProfile) (action : string) :
  Js.truthy (role u) = true →
  role u ≠ Js.Str "ADMIN" →
  hasPermission (Some u) action =
    match Js.get permissions action with
    | Js.Own allowedRoles => Return (Js.includes allowedRoles (role u))
    | Js.Inherited => Throw Js.TypeError
    | Js.Missing => Return false
    end.
Proof.
  intros Htruthy Hadmin. unfold hasPermission. rewrite Htruthy. simpl.
  destruct (Js.strict_eq_str (role u) "ADMIN") eqn:E; [|reflexivity].
  apply strict_eq_str_true in E. contradiction.
Qed.

(** An actor whose role is missing, [null], empty or otherwise falsy
    is refused whatever the action. *)
Lemma hasPermission_no_role (u : UserProfile) (action : string) :
  Js.truthy (role u) = false → hasPermission (Some u) action = Return false.
Proof. intros H. unfold hasPermission. rewrite H. reflexivity. Qed.

(** The part of the table contract the code keeps: an action with an
    entry is decided by membership, and an action that is neither in
    the table nor a name objects inherit is refused. *)
Lemma hasPermission_listed (u : UserProfile) (action : string) (allowed : list string) :
  role u ≠ Js.Str "ADMIN" →
  permissions !! action = Some allowed →
  hasPermission (Some u) action = Return (Js.includes allowed (role u)).
Proof.
  intros Hadmin Hlookup.
  destruct (Js.truthy (role u)) eqn:Htruthy.
  - rewrite hasPermission_table by assumption.
    unfold Js.get. rewrite Hlookup. reflexivity.
  - rewrite hasPermission_no_role by assumption.
    destruct (role u) as [| |b|n| |s|]; simpl in *; try reflexivity; try discriminate.
    apply negb_false_iff, String.eqb_eq in Htruthy. subst s.
    symmetry. f_equal. apply bool_decide_eq_false. intros Hin.
    apply (elem_of_map_to_list' permissions (action, allowed)) in Hlookup as Hentry.
    revert Hentry Hin. clear. intros Hentry.
    assert (Hall : Forall (λ kv : string * list string, "" ∉ kv.2)
                     (map_to_list permissions)).
    { vm_compute. repeat constructor; intros Hin;
        repeat (apply elem_of_cons in Hin as [Hin | Hin]; [discriminate|]);
        by apply elem_of_nil in Hin. }
    rewrite Forall_forall in Hall. exact (Hall _ Hentry).
Qed.

Lemma hasPermission_unlisted (u : UserProfile) (action : string) :
  role u ≠ Js.Str "ADMIN" →
  permissions !! action = None →
  action ∉ Js.object_prototype_keys →
  hasPermission (Some u) action = Return false.
Proof.
  intros Hadmin Hlookup Hproto.
  destruct (Js.truthy (role u)) eqn:Htruthy.
  - rewrite hasPermission_table by assumption.
    unfold Js.get. rewrite Hlookup.
    rewrite bool_decide_eq_false_2 by assumption. reflexivity.
  - by apply hasPermission_no_role.
Qed.

End Matrix.

(** C1. Whatever the action, also one the table does not list or one
    whose lookup would not give an array, [hasPermission] answers [true]
    for an actor whose role is ADMIN, in the backend and in the frontend:
    the ADMIN test comes before the table is read. *)
Theorem admin_passes_every_action (u : UserProfile) (action : string) :
  role u = Js.Str "ADMIN" →
  Backend.hasPermission (Some u) action = Return true
  ∧ Frontend.hasPermission (Some u) action = Return true.
Proof.
  intros Hrole.
  unfold Backend.hasPermission, Frontend.hasPermission.
  rewrite Hrole. simpl. split; reflexivity.
Qed.

Lemma admin_passes_every_action_witness :
  Js.get Backend.permissions "constructor" = Js.Inherited
  ∧ Backend.hasPermission (Some (roleOf "ADMIN" "a1")) "constructor" = Return true
  ∧ Frontend.hasPermission (Some (roleOf "ADMIN" "a1")) "constructor" = Return true.
Proof.
  split; [vm_compute; reflexivity |].
  apply (admin_passes_every_action (roleOf "ADMIN" "a1") "constructor").
  reflexivity.
Defined.

(** C2. The table lookup also finds the names every object inherits:
    for a MANAGER and the action [constructor], which has no entry in
    the table, [hasPermission] does not return [false], it throws, in
    both tiers.  (What does hold is [hasPermission_listed] and
    [hasPermission_unlisted] above; EMPLOYEE is refused [add_worksheet]
    and MANAGER is allowed [delete_request].) *)
Theorem unlisted_inherited_action_throws :
  Backend.permissions !! "constructor" = None
  ∧ Backend.hasPermission (Some (roleOf "MANAGER" "m1")) "constructor" = Throw Js.TypeError
  ∧ Frontend.hasPermission (Some (roleOf "MANAGER" "m1")) "constructor" = Throw Js.TypeError
  ∧ Backend.hasPermission (Some (roleOf "EMPLOYEE" "e1")) "add_worksheet" = Return false
  ∧ Backend.hasPermission (Some (roleOf "MANAGER" "m1")) "delete_request" = Return true.
Proof. repeat split; vm_compute; reflexivity. Qed.

(** C9. The frontend and the backend [hasPermission] are the same
    function: on every actor (absent, without a role, with an unknown
    role) and every action name they end the same way, so whenever one
    returns a boolean the other returns that boolean. *)
Theorem frontend_backend_agree (actor : option UserProfile) (action : string) :
  Frontend.hasPermission actor action = Backend.hasPermission actor action
  ∧ ∀ b : bool,
      Frontend.hasPermission actor action = Return b
      ↔ Backend.hasPermission actor action = Return b.
Proof.
  assert (H : Frontend.hasPermission actor action = Backend.hasPermission actor action).
  { unfold Frontend.hasPermission, Backend.hasPermission.
    rewrite permissions_agree. reflexivity. }
  split; [exact H |]. intros b. rewrite H. reflexivity.
Qed.

(** ** Guards and routes *)

Section Guards.

Import Backend.

Variables (req : Req) (db : Supabase.state).

Lemma route_unguarded (handler : Req → Handler Response) :
  route [] handler req db =
    let '(r, db') := run (handler req) db in (responded r, db').
Proof. reflexivity. Qed.

Lemma route_one (guard : Middleware) (handler : Req → Handler Response) :
  route [guard] handler req db =
    match guard req db with
    | next req' => let '(r, db') := run (handler req') db in (responded r, db')
    | stopped r => (responded r, db)
    | thrown e => (unanswered e, db)
    end.
Proof. reflexivity. Qed.

Lemma requirePermission_unresolved (action : string) :
  getUserProfile req db = None →
  requirePermission action req db = stopped unauthenticated.
Proof. intros H. unfold requirePermission. rewrite H. reflexivity. Qed.

Lemma requirePermission_resolved (action : string) (u : UserProfile) :
  getUserProfile req db = Some u →
  requirePermission action req db =
    match hasPermission (Some u) action with
    | Throw e => thrown e
    | Return false =>
        stopped (forbidden "You don't have permission to perform this action")
    | Return true => next (set_userProfile u req)
    end.
Proof. intros H. unfold requirePermission. rewrite H. reflexivity. Qed.

Lemma requireRequestAccess_unresolved :
  getUserProfile req db = None →
  requireRequestAccess req db = stopped unauthenticated.
Proof. intros H. unfold requireRequestAccess. rewrite H. reflexivity. Qed.

Lemma requireRequestAccess_resolved (u : UserProfile) :
  getUserProfile req db = Some u →
  requireRequestAccess req db =
    match hasPermission (Some u) "view_all_requests" with
    | Throw e => thrown e
    | Return true => next (set_canViewAll true (set_userProfile u req))
    | Return false =>
        match hasPermission (Some u) "view_own_requests" with
        | Throw e => thrown e
        | Return true => next (set_canViewAll false (set_userProfile u req))
        | Return false =>
            stopped (forbidden "You don't have permission to view requests")
        end
    end.
Proof. intros H. unfold requireRequestAccess. rewrite H. reflexivity. Qed.

(** A guarded route answers a caller it cannot resolve with 401 and
    leaves the store alone. *)
Lemma guarded_unresolved (op : Route) :
  op ∈ guarded_routes →
  getUserProfile req db = None →
  op req db = (responded unauthenticated, db).
Proof.
  intros Hop Hnone. unfold guarded_routes in Hop.
  repeat (apply elem_of_cons in Hop as [-> | Hop]);
    [ .. | by apply elem_of_nil in Hop ];
    unfold POST_api_equipment, GET_api_requests, PUT_api_requests_id_stage,
      POST_api_requests_id_notes;
    rewrite route_one;
    rewrite ?requirePermission_unresolved, ?requireRequestAccess_unresolved
      by assumption;
    reflexivity.
Qed.

End Guards.

(** Who holds which of the two visibility actions, by role. *)
Lemma view_all_by_role (u : UserProfile) :
  Backend.hasPermission (Some u) "view_all_requests"
  = Return (Js.includes ["ADMIN"; "MANAGER"] (role u)).
Proof.
  destruct (decide (role u = Js.Str "ADMIN")) as [Hadmin | Hadmin].
  - unfold Backend.hasPermission. rewrite Hadmin. reflexivity.
  - apply hasPermission_listed; [assumption | vm_compute; reflexivity].
Qed.

Lemma view_own_by_role (u : UserProfile) :
  Backend.hasPermission (Some u) "view_own_requests"
  = Return (Js.includes ["ADMIN"; "MANAGER"; "TECHNICIAN"; "EMPLOYEE"] (role u)).
Proof.
  destruct (decide (role u = Js.Str "ADMIN")) as [Hadmin | Hadmin].
  - unfold Backend.hasPermission. rewrite Hadmin. reflexivity.
  - apply hasPermission_listed; [assumption | vm_compute; reflexivity].
Qed.

Lemma own_scope_roles (u : UserProfile) :
  Backend.hasPermission (Some u) "view_all_requests" = Return false →
  Backend.hasPermission (Some u) "view_own_requests" = Return true →
  role u = Js.Str "TECHNICIAN" ∨ role u = Js.Str "EMPLOYEE".
Proof.
  rewrite view_all_by_role, view_own_by_role. intros Hall Hown.
  injection Hall as Hall. injection Hown as Hown.
  apply includes_true in Hown as (s & Hs & Hin).
  rewrite Hs in Hall. simpl in Hall. apply bool_decide_eq_false in Hall.
  rewrite Hs.
  repeat (apply elem_of_cons in Hin as [-> | Hin]);
    [ exfalso; apply Hall; set_solver
    | exfalso; apply Hall; set_solver
    | by left | by right | by apply elem_of_nil in Hin ].
Qed.

(** ** What the handlers compute *)

Section Handlers.

Import Backend.

Variables (req : Req) (db : Supabase.state).

Lemma put_stage_run (u : UserProfile) :
  userProfile req = Some u →
  run (put_api_requests_id_stage req) db =
    if may_change_stage u (params_id req) db then
      match Supabase.update_maintenance_requests_single Supabase.anon
              [Supabase.eq_id (params_id req)] (stage_patch (body req)) db with
      | (inl message, db1) => (res_status_json 400 (message_only message), db1)
      | (inr row, db1) =>
          (res_status_json 200 (message_data "Stage updated" (request_row row)),
           (Supabase.insert_request_stage_history Supabase.anon
              {| Supabase.request_id := Js.json_number (Js.parseInt (path_id req));
                 Supabase.from_stage :=
                   stage_or_null (select_request_by_id (params_id req) db);
                 Supabase.to_stage := b_stage (body req);
                 Supabase.changed_by_user_id := id u |} db1).2)
      end
    else (forbidden "You can only update requests assigned to you", db).
Proof.
  intros Hu. unfold put_api_requests_id_stage, may_change_stage, forbidden.
  rewrite Hu. run_handler.
  destruct (Js.strict_eq_str (role u) "TECHNICIAN").
  - destruct (select_request_by_id (params_id req) db) as [message|r] eqn:Hsel;
      [reflexivity|].
    destruct (bool_decide (Supabase.technician_id r = Some (id u))); [|reflexivity].
    destruct (Supabase.update_maintenance_requests_single _ _ _ db) as [[message|row] db1];
      [reflexivity|].
    rewrite Hsel.
    destruct (Supabase.insert_request_stage_history _ _ db1); reflexivity.
  - destruct (Supabase.update_maintenance_requests_single _ _ _ db) as [[message|row] db1];
      [reflexivity|].
    destruct (Supabase.insert_request_stage_history _ _ db1); reflexivity.
Qed.

Lemma post_notes_run (u : UserProfile) :
  userProfile req = Some u →
  run (post_api_requests_id_notes req) db =
    if may_add_note u (params_id req) db then
      match Supabase.insert_request_notes Supabase.anon (λ new_id,
              {| Supabase.n_id := new_id;
                 Supabase.n_request_id := Js.json_number (Js.parseInt (path_id req));
                 Supabase.note := b_note (body req);
                 Supabase.n_created_by_user_id := id u |}) db with
      | (inl message, db1) => (res_status_json 400 (message_only message), db1)
      | (inr row, db1) =>
          (res_status_json 200 (message_data "Note added" (note_row row)), db1)
      end
    else (forbidden "You can only add notes to your own requests", db).
Proof.
  intros Hu. unfold post_api_requests_id_notes, may_add_note, forbidden.
  rewrite Hu. run_handler.
  destruct (Js.strict_eq_str (role u) "EMPLOYEE").
  - destruct (select_request_by_id (params_id req) db) as [message|r]; [reflexivity|].
    destruct (bool_decide (Supabase.created_by_user_id r = Some (id u))); [|reflexivity].
    destruct (Supabase.insert_request_notes _ _ db) as [[message|row] db1]; reflexivity.
  - destruct (Supabase.insert_request_notes _ _ db) as [[message|row] db1]; reflexivity.
Qed.

Lemma fr_row_format (rows : list Supabase.RequestRow) :
  fr_row <$>
    (format_request <$>
      ((λ r, (r, Supabase.joined_name db (Supabase.created_by_user_id r),
                 Supabase.joined_profile db (Supabase.technician_id r))) <$> rows))
  = rows.
Proof.
  induction rows as [|r rows IH]; [reflexivity|].
  rewrite !fmap_cons. simpl. f_equal. exact IH.
Qed.

(** With the reads of the table going through, the list handler
    answers the rows its query selects, newest first. *)
Lemma get_requests_run (q : list Supabase.request_filter) :
  requests_query req = Return q →
  Supabase.refuses db Supabase.anon Supabase.SELECT "maintenance_requests" = None →
  ∃ r, run (get_api_requests req) db = (r, db)
       ∧ listed (responded r)
         = Some (Supabase.newest_first Supabase.r_created_at
                   (List.filter (Supabase.matches_all q) (Supabase.maintenance_requests db))).
Proof.
  intros Hq Hread. unfold get_api_requests. rewrite Hq. run_handler.
  unfold select_requests, Supabase.answer. rewrite Hread.
  eexists. split; [reflexivity|].
  simpl. rewrite fr_row_format. reflexivity.
Qed.

End Handlers.

(** *** Lists of rows *)

Lemma filter_bool_decide {A : Type} (P : A → Prop) `{∀ x, Decision (P x)} (l : list A) :
  List.filter (λ x, bool_decide (P x)) l = filter P l.
Proof.
  induction l as [|x l IH]; [reflexivity|].
  simpl. rewrite filter_cons. rewrite IH.
  destruct (decide (P x)) as [HP|HP].
  - by rewrite bool_decide_eq_true_2.
  - by rewrite bool_decide_eq_false_2.
Qed.

Lemma filter_no_condition (rows : list Supabase.RequestRow) :
  List.filter (Supabase.matches_all []) rows = rows.
Proof.
  induction rows as [|r rows IH]; [reflexivity|]. simpl. by rewrite IH.
Qed.

Lemma filter_one_condition (f : Supabase.request_filter) (rows : list Supabase.RequestRow) :
  List.filter (Supabase.matches_all [f]) rows
  = List.filter (λ r, Supabase.matches r f) rows.
Proof.
  induction rows as [|r rows IH]; [reflexivity|].
  simpl. rewrite andb_true_r, IH. reflexivity.
Qed.

Lemma newest_first_perm {A : Type} (created_at : A → Z) (rows : list A) :
  Supabase.newest_first created_at rows ≡ₚ rows.
Proof. apply merge_sort_Permutation. Qed.

(** [select(..).eq('id', key).single()] answers a row only when it is
    the one row of the table under that key. *)
Lemma select_request_by_id_inr (key : Z) (db : Supabase.state) (r : Supabase.RequestRow) :
  Backend.select_request_by_id key db = inr r →
  r ∈ Supabase.maintenance_requests db ∧ Supabase.r_id r = key
  ∧ List.filter (Supabase.matches_all [Supabase.eq_id key])
      (Supabase.maintenance_requests db) = [r].
Proof.
  unfold Backend.select_request_by_id, Backend.select_requests, Supabase.answer.
  destruct (Supabase.refuses db _ _ _); [discriminate|]. simpl.
  destruct (List.filter _ _) as [|r0 [|r1 rest]] eqn:Hrows; try discriminate.
  intros [= ->].
  assert (Hin : In r (List.filter (Supabase.matches_all [Supabase.eq_id key])
                        (Supabase.maintenance_requests db))).
  { rewrite Hrows. by left. }
  apply filter_In in Hin as [Hin Hmatch].
  simpl in Hmatch. rewrite andb_true_r in Hmatch.
  apply bool_decide_eq_true in Hmatch.
  split; [by apply list_elem_of_In | split; [assumption | reflexivity]].
Qed.

(** ** Reading the request collection *)

Lemma requests_query_own (u : UserProfile) (req : Req) :
  Backend.requests_query (set_canViewAll false (set_userProfile u req))
  = Return (if Js.strict_eq_str (role u) "TECHNICIAN"
            then [Supabase.eq_technician_id (id u)]
            else if Js.strict_eq_str (role u) "EMPLOYEE"
            then [Supabase.eq_created_by_user_id (id u)]
            else []).
Proof.
  unfold Backend.requests_query. simpl.
  destruct (Js.strict_eq_str (role u) "TECHNICIAN"); [reflexivity|].
  destruct (Js.strict_eq_str (role u) "EMPLOYEE"); reflexivity.
Qed.

(** C3. A resolved actor reads the request collection as follows (the
    table read going through).  Allowed [view_all_requests]: every row
    of the table, no ownership filter.  Otherwise, allowed
    [view_own_requests]: a TECHNICIAN gets exactly the rows whose
    [technician_id] is their id, an EMPLOYEE exactly the rows whose
    [created_by_user_id] is their id.  Allowed neither: the answer is
    403, not an empty list.  The store is left as it was. *)
Theorem request_visibility (req : Req) (db : Supabase.state) (u : UserProfile) :
  Backend.getUserProfile req db = Some u →
  Supabase.refuses db Supabase.anon Supabase.SELECT "maintenance_requests" = None →
  (Backend.hasPermission (Some u) "view_all_requests" = Return true →
     (Backend.GET_api_requests req db).2 = db
     ∧ ∃ rows, listed (Backend.GET_api_requests req db).1 = Some rows
               ∧ rows ≡ₚ Supabase.maintenance_requests db)
  ∧ (Backend.hasPermission (Some u) "view_all_requests" = Return false →
     Backend.hasPermission (Some u) "view_own_requests" = Return true →
     (Backend.GET_api_requests req db).2 = db
     ∧ (role u = Js.Str "TECHNICIAN" →
          ∃ rows, listed (Backend.GET_api_requests req db).1 = Some rows
                  ∧ rows ≡ₚ filter (λ r, Supabase.technician_id r = Some (id u))
                              (Supabase.maintenance_requests db))
     ∧ (role u = Js.Str "EMPLOYEE" →
          ∃ rows, listed (Backend.GET_api_requests req db).1 = Some rows
                  ∧ rows ≡ₚ filter (λ r, Supabase.created_by_user_id r = Some (id u))
                              (Supabase.maintenance_requests db)))
  ∧ (Backend.hasPermission (Some u) "view_all_requests" = Return false →
     Backend.hasPermission (Some u) "view_own_requests" = Return false →
     Backend.GET_api_requests req db
     = (responded (forbidden "You don't have permission to view requests"), db)).
Proof.
  intros Hu Hread. unfold Backend.GET_api_requests.
  rewrite route_one, (requireRequestAccess_resolved _ _ u Hu).
  split; [|split].
  - intros Hall. rewrite Hall.
    destruct (get_requests_run (set_canViewAll true (set_userProfile u req)) db []
                eq_refl Hread) as (r & Hrun & Hlisted).
    rewrite Hrun. simpl. split; [reflexivity|].
    eexists. split; [exact Hlisted|].
    rewrite filter_no_condition. apply newest_first_perm.
  - intros Hall Hown. rewrite Hall, Hown.
    destruct (get_requests_run _ db _ (requests_query_own u req) Hread) as (r & Hrun & _).
    split; [rewrite Hrun; reflexivity|].
    split; intros Hrole.
    + destruct (get_requests_run (set_canViewAll false (set_userProfile u req)) db
                  [Supabase.eq_technician_id (id u)]) as (r' & Hrun' & Hlisted);
        [ rewrite requests_query_own, Hrole; reflexivity | exact Hread | ].
      rewrite Hrun'. simpl. eexists. split; [exact Hlisted|].
      rewrite filter_one_condition. simpl.
      rewrite (filter_bool_decide (λ r, Supabase.technician_id r = Some (id u))).
      apply newest_first_perm.
    + destruct (get_requests_run (set_canViewAll false (set_userProfile u req)) db
                  [Supabase.eq_created_by_user_id (id u)]) as (r' & Hrun' & Hlisted);
        [ rewrite requests_query_own, Hrole; reflexivity | exact Hread | ].
      rewrite Hrun'. simpl. eexists. split; [exact Hlisted|].
      rewrite filter_one_condition. simpl.
      rewrite (filter_bool_decide (λ r, Supabase.created_by_user_id r = Some (id u))).
      apply newest_first_perm.
  - intros Hall Hown. rewrite Hall, Hown. reflexivity.
Qed.

Lemma request_visibility_witness :
  ∃ rows,
    listed (Backend.GET_api_requests (Sample.call_as "t1" 0 Sample.empty_body)
              Sample.store).1 = Some rows
    ∧ rows ≡ₚ filter (λ r, Supabase.technician_id r = Some "t1")
                (Supabase.maintenance_requests Sample.store).
Proof.
  destruct (request_visibility (Sample.call_as "t1" 0 Sample.empty_body) Sample.store
              {| id := "t1"; role := Js.Str "TECHNICIAN"; name := Js.Str "t1" |})
    as (_ & Hown & _); [vm_compute; reflexivity | vm_compute; reflexivity |].
  destruct Hown as (_ & Htech & _); [vm_compute; reflexivity | vm_compute; reflexivity |].
  apply Htech. reflexivity.
Defined.

(** X5. The middleware sends on to the own-scope branch ([canViewAll]
    false) only an actor whose role is TECHNICIAN or EMPLOYEE. *)
Lemma own_branch_entered_by (req req' : Req) (db : Supabase.state) :
  Backend.requireRequestAccess req db = Backend.next req' →
  canViewAll req' = Some false →
  ∃ u, userProfile req' = Some u
       ∧ (role u = Js.Str "TECHNICIAN" ∨ role u = Js.Str "EMPLOYEE").
Proof.
  unfold Backend.requireRequestAccess.
  destruct (Backend.getUserProfile req db) as [u|]; [|discriminate].
  destruct (Backend.hasPermission (Some u) "view_all_requests") as [[|]|] eqn:Hall;
    try discriminate.
  - intros [= <-]. discriminate.
  - destruct (Backend.hasPermission (Some u) "view_own_requests") as [[|]|] eqn:Hown;
      try discriminate.
    intros [= <-] _. exists u. split; [reflexivity|].
    by apply own_scope_roles.
Qed.

(** C7. An actor whose role is neither TECHNICIAN nor EMPLOYEE never
    gets rows out of the own-scope branch: it is denied.  For every
    resolved actor that is denied [view_all_requests] and has such a
    role, [GET /api/requests] answers 403 and lists nothing.  The
    statement does not ask that the actor be granted
    [view_own_requests], and so covers every actor of the claim; the
    first part says that in fact none of them is granted it, which is
    why the middleware is where they are stopped. *)
Theorem other_roles_stopped_before_own_branch
    (req : Req) (db : Supabase.state) (u : UserProfile) :
  Backend.getUserProfile req db = Some u →
  Backend.hasPermission (Some u) "view_all_requests" = Return false →
  role u ≠ Js.Str "TECHNICIAN" →
  role u ≠ Js.Str "EMPLOYEE" →
  Backend.hasPermission (Some u) "view_own_requests" = Return false
  ∧ Backend.requireRequestAccess req db
    = Backend.stopped (forbidden "You don't have permission to view requests")
  ∧ Backend.GET_api_requests req db
    = (responded (forbidden "You don't have permission to view requests"), db)
  ∧ listed (Backend.GET_api_requests req db).1 = None.
Proof.
  intros Hu Hall Htech Hemp.
  assert (Hown : Backend.hasPermission (Some u) "view_own_requests" = Return false).
  { pose proof (view_own_by_role u) as Hown.
    destruct (Js.includes _ (role u)); [|exact Hown].
    destruct (own_scope_roles u Hall Hown); contradiction. }
  split; [exact Hown|].
  unfold Backend.GET_api_requests.
  rewrite route_one, (requireRequestAccess_resolved _ _ u Hu), Hall, Hown.
  repeat split; reflexivity.
Qed.

Lemma other_roles_stopped_before_own_branch_witness :
  Backend.GET_api_requests (Sample.call_as "g1" 0 Sample.empty_body) Sample.store
  = (responded (forbidden "You don't have permission to view requests"), Sample.store).
Proof.
  apply (other_roles_stopped_before_own_branch
           (Sample.call_as "g1" 0 Sample.empty_body) Sample.store
           {| id := "g1"; role := Js.Str "GUEST"; name := Js.Str "g1" |});
    [ vm_compute; reflexivity | vm_compute; reflexivity | discriminate | discriminate ].
Defined.

(** The denial is the middleware's.  The handler's own branch has no
    [else]: called by itself, on a request of a kind that
    [requireRequestAccess] never passes on, it builds a query without
    an ownership filter. *)
Example own_branch_guest_lists_everything :
  listed (responded (Backend.run (Backend.get_api_requests
            (mkReq None 0 Sample.empty_body (Some (roleOf "GUEST" "g1")) (Some false)))
            Sample.store).1)
  = Some (Supabase.newest_first Supabase.r_created_at
            (Supabase.maintenance_requests Sample.store)).
Proof. vm_compute. reflexivity. Qed.

(** ** Writing to one request *)

Section RecordWrites.

Import Backend.

Variables (req : Req) (db : Supabase.state).

Lemma guarded_resolved (action : string) (handler : Req → Handler Response)
    (u : UserProfile) :
  getUserProfile req db = Some u →
  route [requirePermission action] handler req db =
    match hasPermission (Some u) action with
    | Throw e => (unanswered e, db)
    | Return false =>
        (responded (forbidden "You don't have permission to perform this action"), db)
    | Return true =>
        let '(r, db') := run (handler (set_userProfile u req)) db in (responded r, db')
    end.
Proof.
  intros Hu. rewrite route_one, (requirePermission_resolved _ _ _ u Hu).
  destruct (hasPermission (Some u) action) as [[|]|]; reflexivity.
Qed.

(** A guarded route that answers 200 had a resolved actor who passed
    the action-level check, and its handler answered 200. *)
Lemma guarded_success (action : string) (handler : Req → Handler Response)
    (r : Response) :
  (route [requirePermission action] handler req db).1 = responded r →
  status r = 200 →
  ∃ u, getUserProfile req db = Some u
       ∧ hasPermission (Some u) action = Return true
       ∧ (run (handler (set_userProfile u req)) db).1 = r.
Proof.
  intros Hroute Hcode.
  destruct (getUserProfile req db) as [u|] eqn:Hu.
  - rewrite (guarded_resolved action handler u Hu) in Hroute.
    exists u. split; [reflexivity|].
    destruct (hasPermission (Some u) action) as [[|]|]; simpl in Hroute.
    + destruct (run (handler (set_userProfile u req)) db) as [r' db'].
      simpl in Hroute. injection Hroute as ->. split; reflexivity.
    + injection Hroute as <-. discriminate Hcode.
    + discriminate Hroute.
  - rewrite route_one, requirePermission_unresolved in Hroute by assumption.
    simpl in Hroute. injection Hroute as <-. discriminate Hcode.
Qed.

Lemma may_change_stage_owner (u : UserProfile) (key : Z) :
  role u = Js.Str "TECHNICIAN" →
  may_change_stage u key db = true →
  ∃ row, row ∈ Supabase.maintenance_requests db
         ∧ Supabase.r_id row = key
         ∧ Supabase.technician_id row = Some (id u).
Proof.
  intros Hrole. unfold may_change_stage. rewrite Hrole. simpl.
  destruct (select_request_by_id key db) as [|row] eqn:Hsel; [discriminate|].
  intros Howner%bool_decide_eq_true.
  apply select_request_by_id_inr in Hsel as (Hin & Hkey & _).
  exists row. auto.
Qed.

Lemma may_change_stage_stranger (u : UserProfile) (key : Z) :
  role u = Js.Str "TECHNICIAN" →
  (∀ row, row ∈ Supabase.maintenance_requests db → Supabase.r_id row = key →
          Supabase.technician_id row ≠ Some (id u)) →
  may_change_stage u key db = false.
Proof.
  intros Hrole Hother.
  destruct (may_change_stage u key db) eqn:Hmay; [|reflexivity].
  destruct (may_change_stage_owner u key Hrole Hmay) as (row & Hin & Hkey & Howner).
  destruct (Hother row Hin Hkey Howner).
Qed.

Lemma may_add_note_owner (u : UserProfile) (key : Z) :
  role u = Js.Str "EMPLOYEE" →
  may_add_note u key db = true →
  ∃ row, row ∈ Supabase.maintenance_requests db
         ∧ Supabase.r_id row = key
         ∧ Supabase.created_by_user_id row = Some (id u).
Proof.
  intros Hrole. unfold may_add_note. rewrite Hrole. simpl.
  destruct (select_request_by_id key db) as [|row] eqn:Hsel; [discriminate|].
  intros Howner%bool_decide_eq_true.
  apply select_request_by_id_inr in Hsel as (Hin & Hkey & _).
  exists row. auto.
Qed.

Lemma may_add_note_stranger (u : UserProfile) (key : Z) :
  role u = Js.Str "EMPLOYEE" →
  (∀ row, row ∈ Supabase.maintenance_requests db → Supabase.r_id row = key →
          Supabase.created_by_user_id row ≠ Some (id u)) →
  may_add_note u key db = false.
Proof.
  intros Hrole Hother.
  destruct (may_add_note u key db) eqn:Hmay; [|reflexivity].
  destruct (may_add_note_owner u key Hrole Hmay) as (row & Hin & Hkey & Howner).
  destruct (Hother row Hin Hkey Howner).
Qed.

(** The stage handler answers 200 only past its ownership test and
    with the update applied. *)
Lemma put_stage_success (u : UserProfile) (r : Response) :
  (run (put_api_requests_id_stage (set_userProfile u req)) db).1 = r →
  status r = 200 →
  may_change_stage u (params_id req) db = true
  ∧ ∃ row db1,
      Supabase.update_maintenance_requests_single Supabase.anon
        [Supabase.eq_id (params_id req)] (stage_patch (body req)) db = (inr row, db1).
Proof.
  rewrite (put_stage_run (set_userProfile u req) db u eq_refl). simpl.
  destruct (may_change_stage u (params_id req) db).
  - destruct (Supabase.update_maintenance_requests_single _ _ _ db) as [[message|row] db1].
    + simpl. intros <-. discriminate.
    + intros _ _. split; [reflexivity|]. eauto.
  - simpl. intros <-. discriminate.
Qed.

Lemma post_notes_success (u : UserProfile) (r : Response) :
  (run (post_api_requests_id_notes (set_userProfile u req)) db).1 = r →
  status r = 200 →
  may_add_note u (params_id req) db = true.
Proof.
  rewrite (post_notes_run (set_userProfile u req) db u eq_refl). simpl.
  destruct (may_add_note u (params_id req) db); [reflexivity|].
  simpl. intros <-. discriminate.
Qed.

End RecordWrites.

Lemma technician_may_update_stage (u : UserProfile) :
  role u = Js.Str "TECHNICIAN" →
  Backend.hasPermission (Some u) "update_request_stage" = Return true.
Proof. intros Hrole. unfold Backend.hasPermission. rewrite Hrole. vm_compute. reflexivity. Qed.

Lemma employee_may_add_notes (u : UserProfile) :
  role u = Js.Str "EMPLOYEE" →
  Backend.hasPermission (Some u) "add_notes" = Return true.
Proof. intros Hrole. unfold Backend.hasPermission. rewrite Hrole. vm_compute. reflexivity. Qed.

(** C4. A write to one request passes two checks.  When the stage
    route answers 200, the caller was resolved, is allowed
    [update_request_stage], and, if a TECHNICIAN, the row under the
    given key has their id as [technician_id]; when the notes route
    answers 200, the caller is allowed [add_notes] and, if an EMPLOYEE,
    the row has their id as [created_by_user_id].  A TECHNICIAN who
    targets a row assigned to someone else passes the action-level
    check and is still answered 403, the store untouched; likewise an
    EMPLOYEE who annotates a row somebody else created. *)
Theorem record_writes_need_both_checks (req : Req) (db : Supabase.state) :
  (∀ r, (Backend.PUT_api_requests_id_stage req db).1 = responded r →
        status r = 200 →
        ∃ u, Backend.getUserProfile req db = Some u
             ∧ Backend.hasPermission (Some u) "update_request_stage" = Return true
             ∧ (role u = Js.Str "TECHNICIAN" →
                  ∃ row, row ∈ Supabase.maintenance_requests db
                         ∧ Supabase.r_id row = params_id req
                         ∧ Supabase.technician_id row = Some (id u)))
  ∧ (∀ r, (Backend.POST_api_requests_id_notes req db).1 = responded r →
          status r = 200 →
          ∃ u, Backend.getUserProfile req db = Some u
               ∧ Backend.hasPermission (Some u) "add_notes" = Return true
               ∧ (role u = Js.Str "EMPLOYEE" →
                    ∃ row, row ∈ Supabase.maintenance_requests db
                           ∧ Supabase.r_id row = params_id req
                           ∧ Supabase.created_by_user_id row = Some (id u)))
  ∧ (∀ u, Backend.getUserProfile req db = Some u →
          role u = Js.Str "TECHNICIAN" →
          (∀ row, row ∈ Supabase.maintenance_requests db →
                  Supabase.r_id row = params_id req →
                  Supabase.technician_id row ≠ Some (id u)) →
          Backend.hasPermission (Some u) "update_request_stage" = Return true
          ∧ Backend.PUT_api_requests_id_stage req db
            = (responded (forbidden "You can only update requests assigned to you"), db))
  ∧ (∀ u, Backend.getUserProfile req db = Some u →
          role u = Js.Str "EMPLOYEE" →
          (∀ row, row ∈ Supabase.maintenance_requests db →
                  Supabase.r_id row = params_id req →
                  Supabase.created_by_user_id row ≠ Some (id u)) →
          Backend.hasPermission (Some u) "add_notes" = Return true
          ∧ Backend.POST_api_requests_id_notes req db
            = (responded (forbidden "You can only add notes to your own requests"), db)).
Proof.
  unfold Backend.PUT_api_requests_id_stage, Backend.POST_api_requests_id_notes.
  split; [|split; [|split]].
  - intros r Hroute Hcode.
    destruct (guarded_success req db _ _ r Hroute Hcode) as (u & Hu & Hallowed & Hrun).
    exists u. split; [assumption|]. split; [assumption|].
    intros Hrole.
    destruct (put_stage_success req db u r Hrun Hcode) as (Hmay & _).
    by apply (may_change_stage_owner db u).
  - intros r Hroute Hcode.
    destruct (guarded_success req db _ _ r Hroute Hcode) as (u & Hu & Hallowed & Hrun).
    exists u. split; [assumption|]. split; [assumption|].
    intros Hrole.
    pose proof (post_notes_success req db u r Hrun Hcode) as Hmay.
    by apply (may_add_note_owner db u).
  - intros u Hu Hrole Hother.
    split; [by apply technician_may_update_stage|].
    rewrite (guarded_resolved req db _ _ u Hu), (technician_may_update_stage u Hrole).
    rewrite (put_stage_run (set_userProfile u req) db u eq_refl). simpl.
    by rewrite (may_change_stage_stranger db u (params_id req) Hrole Hother).
  - intros u Hu Hrole Hother.
    split; [by apply employee_may_add_notes|].
    rewrite (guarded_resolved req db _ _ u Hu), (employee_may_add_notes u Hrole).
    rewrite (post_notes_run (set_userProfile u req) db u eq_refl). simpl.
    by rewrite (may_add_note_stranger db u (params_id req) Hrole Hother).
Qed.

Example technician_updates_assigned_request :
  ∃ r, (Backend.PUT_api_requests_id_stage
          (Sample.call_as "t1" 1 (Sample.stage_body "IN_PROGRESS")) Sample.store).1
       = responded r ∧ status r = 200.
Proof. eexists. split; vm_compute; reflexivity. Qed.

Example technician_refused_on_other_request :
  Backend.hasPermission (Some (roleOf "TECHNICIAN" "t1")) "update_request_stage" = Return true
  ∧ Backend.PUT_api_requests_id_stage
      (Sample.call_as "t1" 2 (Sample.stage_body "IN_PROGRESS")) Sample.store
    = (responded (forbidden "You can only update requests assigned to you"), Sample.store).
Proof. split; vm_compute; reflexivity. Qed.

Example employee_refused_on_other_request :
  Backend.POST_api_requests_id_notes
    (Sample.call_as "e1" 2 (Sample.note_body "Still leaking")) Sample.store
  = (responded (forbidden "You can only add notes to your own requests"), Sample.store).
Proof. vm_compute. reflexivity. Qed.

(** ** Unauthenticated and forbidden *)

Section Statuses.

Import Backend.

Variable (db : Supabase.state).

Lemma post_equipment_not_401 (req : Req) :
  status (run (post_api_equipment req) db).1 ≠ 401.
Proof.
  unfold post_api_equipment. run_handler.
  repeat (match goal with
          | |- context [if ?b then _ else _] => destruct b
          | |- context [Supabase.insert_equipment ?c ?f ?d] =>
              destruct (Supabase.insert_equipment c f d) as [[?|?] ?]
          end; simpl); discriminate.
Qed.

Lemma get_requests_not_401 (req : Req) :
  status (run (get_api_requests req) db).1 ≠ 401.
Proof.
  unfold get_api_requests. run_handler.
  destruct (requests_query req) as [q|]; [|simpl; discriminate].
  destruct (select_requests q db); simpl; discriminate.
Qed.

Lemma put_stage_not_401 (req : Req) (u : UserProfile) :
  status (run (put_api_requests_id_stage (set_userProfile u req)) db).1 ≠ 401.
Proof.
  rewrite (put_stage_run (set_userProfile u req) db u eq_refl). simpl.
  destruct (may_change_stage u (params_id req) db); [|simpl; discriminate].
  destruct (Supabase.update_maintenance_requests_single _ _ _ db) as [[?|?] ?];
    simpl; discriminate.
Qed.

Lemma post_notes_not_401 (req : Req) (u : UserProfile) :
  status (run (post_api_requests_id_notes (set_userProfile u req)) db).1 ≠ 401.
Proof.
  rewrite (post_notes_run (set_userProfile u req) db u eq_refl). simpl.
  destruct (may_add_note u (params_id req) db); [|simpl; discriminate].
  destruct (Supabase.insert_request_notes _ _ db) as [[?|?] ?]; simpl; discriminate.
Qed.

(** Behind [requirePermission], a resolved caller is never told 401. *)
Lemma guarded_resolved_not_401 (req : Req) (action : string)
    (handler : Req → Handler Response) (u : UserProfile) (r : Response) :
  getUserProfile req db = Some u →
  status (run (handler (set_userProfile u req)) db).1 ≠ 401 →
  (route [requirePermission action] handler req db).1 = responded r →
  status r ≠ 401.
Proof.
  intros Hu Hhandler. rewrite (guarded_resolved req db action handler u Hu).
  destruct (hasPermission (Some u) action) as [[|]|]; simpl.
  - destruct (run (handler (set_userProfile u req)) db) as [r' db'].
    simpl in *. by intros [= <-].
  - intros [= <-]. discriminate.
  - discriminate.
Qed.

Lemma guarded_routes_resolved_not_401 (req : Req) (op : Route) (u : UserProfile)
    (r : Response) :
  op ∈ guarded_routes →
  getUserProfile req db = Some u →
  (op req db).1 = responded r →
  status r ≠ 401.
Proof.
  intros Hop Hu. unfold guarded_routes in Hop.
  repeat (apply elem_of_cons in Hop as [-> | Hop]);
    [ .. | by apply elem_of_nil in Hop ].
  - apply (guarded_resolved_not_401 _ _ _ u); [assumption|]. apply post_equipment_not_401.
  - unfold GET_api_requests.
    rewrite route_one, (requireRequestAccess_resolved _ _ u Hu).
    assert (Hrun : ∀ req', (let '(r', db') := run (get_api_requests req') db
                            in (responded r', db')).1 = responded r → status r ≠ 401).
    { intros req'. pose proof (get_requests_not_401 req') as Hnot.
      destruct (run (get_api_requests req') db) as [r' db'].
      simpl in *. by intros [= <-]. }
    destruct (hasPermission (Some u) "view_all_requests") as [[|]|];
      [ apply Hrun | | discriminate ].
    destruct (hasPermission (Some u) "view_own_requests") as [[|]|];
      [ apply Hrun | intros [= <-]; discriminate | discriminate ].
  - apply (guarded_resolved_not_401 _ _ _ u); [assumption|]. apply put_stage_not_401.
  - apply (guarded_resolved_not_401 _ _ _ u); [assumption|]. apply post_notes_not_401.
Qed.

End Statuses.

(** C8. The two refusals are kept apart.  Behind [requirePermission],
    whatever the action and the handler, a caller that cannot be
    resolved is answered 401 and a resolved caller who fails the
    action-level check is answered 403, the store untouched either way;
    [requireRequestAccess] does the same.  On the guarded routes a 401
    is only ever sent to an unresolved caller and a 403 only to a
    resolved one, and a resolved caller who passes the action-level
    check but fails the ownership test of the stage or notes route is
    answered 403. *)
Theorem unauthenticated_and_forbidden_apart (req : Req) (db : Supabase.state) :
  (∀ action handler,
     Backend.getUserProfile req db = None →
     Backend.route [Backend.requirePermission action] handler req db
     = (responded Backend.unauthenticated, db))
  ∧ (∀ action handler u,
       Backend.getUserProfile req db = Some u →
       Backend.hasPermission (Some u) action = Return false →
       Backend.route [Backend.requirePermission action] handler req db
       = (responded (forbidden "You don't have permission to perform this action"), db))
  ∧ (Backend.getUserProfile req db = None →
     Backend.GET_api_requests req db = (responded Backend.unauthenticated, db))
  ∧ (∀ u,
       Backend.getUserProfile req db = Some u →
       Backend.hasPermission (Some u) "view_all_requests" = Return false →
       Backend.hasPermission (Some u) "view_own_requests" = Return false →
       Backend.GET_api_requests req db
       = (responded (forbidden "You don't have permission to view requests"), db))
  ∧ (∀ op r, op ∈ Backend.guarded_routes →
             (op req db).1 = responded r →
             status r = 401 → Backend.getUserProfile req db = None)
  ∧ (∀ op r, op ∈ Backend.guarded_routes →
             (op req db).1 = responded r →
             status r = 403 → is_Some (Backend.getUserProfile req db))
  ∧ (∀ u,
       Backend.getUserProfile req db = Some u →
       Backend.hasPermission (Some u) "update_request_stage" = Return true →
       may_change_stage u (params_id req) db = false →
       Backend.PUT_api_requests_id_stage req db
       = (responded (forbidden "You can only update requests assigned to you"), db))
  ∧ (∀ u,
       Backend.getUserProfile req db = Some u →
       Backend.hasPermission (Some u) "add_notes" = Return true →
       may_add_note u (params_id req) db = false →
       Backend.POST_api_requests_id_notes req db
       = (responded (forbidden "You can only add notes to your own requests"), db)).
Proof.
  split; [|split; [|split; [|split; [|split; [|split; [|split]]]]]].
  - intros action handler Hnone.
    by rewrite route_one, requirePermission_unresolved.
  - intros action handler u Hu Hdenied.
    by rewrite (guarded_resolved req db action handler u Hu), Hdenied.
  - intros Hnone. apply guarded_unresolved; [|assumption].
    unfold Backend.guarded_routes. set_solver.
  - intros u Hu Hall Hown. unfold Backend.GET_api_requests.
    by rewrite route_one, (requireRequestAccess_resolved req db u Hu), Hall, Hown.
  - intros op r Hop Hsent Hcode.
    destruct (Backend.getUserProfile req db) as [u|] eqn:Hu; [|reflexivity].
    destruct (guarded_routes_resolved_not_401 db req op u r Hop Hu Hsent Hcode).
  - intros op r Hop Hsent Hcode.
    destruct (Backend.getUserProfile req db) as [u|] eqn:Hu; [by eexists|].
    rewrite (guarded_unresolved req db op Hop Hu) in Hsent.
    simpl in Hsent. injection Hsent as <-. discriminate Hcode.
  - intros u Hu Hallowed Hmay. unfold Backend.PUT_api_requests_id_stage.
    rewrite (guarded_resolved req db _ _ u Hu), Hallowed.
    rewrite (put_stage_run (set_userProfile u req) db u eq_refl). simpl.
    by rewrite Hmay.
  - intros u Hu Hallowed Hmay. unfold Backend.POST_api_requests_id_notes.
    rewrite (guarded_resolved req db _ _ u Hu), Hallowed.
    rewrite (post_notes_run (set_userProfile u req) db u eq_refl). simpl.
    by rewrite Hmay.
Qed.

Example no_token_is_401 :
  Backend.PUT_api_requests_id_stage
    (Sample.anonymous_call 1 (Sample.stage_body "IN_PROGRESS")) Sample.store
  = (responded Backend.unauthenticated, Sample.store).
Proof. vm_compute. reflexivity. Qed.

Example employee_stage_change_is_403 :
  Backend.PUT_api_requests_id_stage
    (Sample.call_as "e1" 1 (Sample.stage_body "IN_PROGRESS")) Sample.store
  = (responded (forbidden "You don't have permission to perform this action"),
     Sample.store).
Proof. vm_compute. reflexivity. Qed.

(** ** Equipment *)

Lemma fe_row_format (db : Supabase.state) (rows : list Supabase.EquipmentRow) :
  fe_row <$>
    (Backend.format_equipment <$>
      ((λ e, (e, Supabase.joined_name db (Supabase.used_by_user_id e))) <$> rows))
  = rows.
Proof.
  induction rows as [|e rows IH]; [reflexivity|].
  rewrite !fmap_cons. simpl. f_equal. exact IH.
Qed.

(** X6. [GET /api/equipment] is registered without a guard: whoever
    calls, resolved or not, is sent every row of the table. *)
Lemma equipment_list_unguarded (req : Req) (db : Supabase.state) :
  Supabase.refuses db Supabase.anon Supabase.SELECT "equipment" = None →
  ∃ l, Backend.GET_api_equipment req db
       = (responded (Backend.res_status_json 200 (data_only (equipment_list l))), db)
       ∧ fe_row <$> l ≡ₚ Supabase.equipment db.
Proof.
  intros Hread. unfold Backend.GET_api_equipment. rewrite route_unguarded.
  unfold Backend.get_api_equipment. run_handler.
  unfold Supabase.answer. rewrite Hread.
  eexists. split; [reflexivity|].
  rewrite fe_row_format. apply newest_first_perm.
Qed.

(** C5. Creating equipment is behind [manage_equipment]; listing it is
    not.  A call without any token, and a call by an EMPLOYEE (who is
    not allowed [manage_equipment]), are both answered 200 with the
    rows of the table, where the create route answers 401 and 403. *)
Theorem equipment_list_not_guarded :
  Backend.getUserProfile (Sample.anonymous_call 0 Sample.empty_body) Sample.store = None
  ∧ Backend.POST_api_equipment (Sample.anonymous_call 0 Sample.empty_body) Sample.store
    = (responded Backend.unauthenticated, Sample.store)
  ∧ (∃ l, Backend.GET_api_equipment (Sample.anonymous_call 0 Sample.empty_body) Sample.store
          = (responded (Backend.res_status_json 200 (data_only (equipment_list l))),
             Sample.store)
          ∧ fe_row <$> l = Supabase.equipment Sample.store)
  ∧ Backend.hasPermission
      (Backend.getUserProfile (Sample.call_as "e1" 0 Sample.empty_body) Sample.store)
      "manage_equipment" = Return false
  ∧ Backend.POST_api_equipment (Sample.call_as "e1" 0 Sample.empty_body) Sample.store
    = (responded (forbidden "You don't have permission to perform this action"),
       Sample.store)
  ∧ (∃ l, Backend.GET_api_equipment (Sample.call_as "e1" 0 Sample.empty_body) Sample.store
          = (responded (Backend.res_status_json 200 (data_only (equipment_list l))),
             Sample.store)
          ∧ fe_row <$> l = Supabase.equipment Sample.store).
Proof.
  repeat split; try (vm_compute; reflexivity);
    (eexists; split; [vm_compute; reflexivity | reflexivity]).
Qed.

(** ** The stage history *)

Section StageHistory.

Import Backend.

Lemma update_single_frame (c : Supabase.client) (q : list Supabase.request_filter)
    (patch : Supabase.RequestRow → Supabase.RequestRow) (db db1 : Supabase.state)
    (answer : string + Supabase.RequestRow) :
  Supabase.update_maintenance_requests_single c q patch db = (answer, db1) →
  Supabase.refuses db1 = Supabase.refuses db
  ∧ Supabase.request_stage_history db1 = Supabase.request_stage_history db.
Proof.
  unfold Supabase.update_maintenance_requests_single.
  destruct (Supabase.refuses db c _ _); [by intros [= _ <-]|].
  destruct (List.filter _ _) as [|r [|r' rest]]; by intros [= _ <-].
Qed.

(** An accepted single-row update changes the row under the filter and
    answers that row patched. *)
Lemma update_single_inr (c : Supabase.client) (key : Z)
    (patch : Supabase.RequestRow → Supabase.RequestRow) (db db1 : Supabase.state)
    (row : Supabase.RequestRow) :
  Supabase.update_maintenance_requests_single c [Supabase.eq_id key] patch db
  = (inr row, db1) →
  ∃ before,
    List.filter (Supabase.matches_all [Supabase.eq_id key])
      (Supabase.maintenance_requests db) = [before]
    ∧ row = patch before
    ∧ Supabase.maintenance_requests db1
      = List.map (λ r, if Supabase.matches_all [Supabase.eq_id key] r then patch r else r)
          (Supabase.maintenance_requests db).
Proof.
  unfold Supabase.update_maintenance_requests_single.
  destruct (Supabase.refuses db c _ _); [discriminate|].
  destruct (List.filter _ _) as [|r [|r' rest]]; try discriminate.
  intros [= <- <-]. exists r. auto.
Qed.

Variables (req : Req) (db : Supabase.state) (u : UserProfile).

Hypothesis resolved : getUserProfile req db = Some u.

(** What the stage route does to the history when it answers 200:
    with the insert accepted one row is appended, carrying the stage
    read before the update, the stage asked for and the caller's id;
    with the insert refused nothing is appended, and the answer is 200
    all the same. *)
Lemma stage_change_history (r : Response) (db' : Supabase.state) :
  PUT_api_requests_id_stage req db = (responded r, db') →
  status r = 200 →
  Supabase.request_stage_history db' =
    match Supabase.refuses db Supabase.anon Supabase.INSERT "request_stage_history" with
    | None =>
        Supabase.request_stage_history db ++
          [ {| Supabase.request_id := Js.json_number (Js.parseInt (path_id req));
               Supabase.from_stage :=
                 stage_or_null (select_request_by_id (params_id req) db);
               Supabase.to_stage := b_stage (body req);
               Supabase.changed_by_user_id := id u |} ]
    | Some _ => Supabase.request_stage_history db
    end.
Proof.
  unfold PUT_api_requests_id_stage.
  rewrite (guarded_resolved req db _ _ u resolved).
  destruct (hasPermission (Some u) "update_request_stage") as [[|]|];
    [ | intros [= <- _]; discriminate | discriminate ].
  rewrite (put_stage_run (set_userProfile u req) db u eq_refl). simpl.
  destruct (may_change_stage u (params_id req) db); [|intros [= <- _]; discriminate].
  destruct (Supabase.update_maintenance_requests_single _ _ _ db) as [[message|row] db1]
    eqn:Hupdate; [intros [= <- _]; discriminate|].
  apply update_single_frame in Hupdate as [Hrefuses Hhistory].
  intros [= _ <-] _.
  unfold Supabase.insert_request_stage_history. rewrite Hrefuses.
  destruct (Supabase.refuses db Supabase.anon Supabase.INSERT "request_stage_history");
    simpl; by rewrite Hhistory.
Qed.

End StageHistory.

(** C6. The history insert is awaited and its answer dropped.  With a
    store that turns the insert down, a MANAGER moving request 1 from
    NEW_REQUEST to IN_PROGRESS is answered 200 "Stage updated", the row
    now reads IN_PROGRESS, and the history holds no row for it. *)
Theorem stage_change_without_history_row :
  Supabase.stage <$> Supabase.maintenance_requests (Sample.store_with Sample.history_closed)
  = ["NEW_REQUEST"; "IN_PROGRESS"; "NEW_REQUEST"]
  ∧ ∃ row db',
      Backend.PUT_api_requests_id_stage
        (Sample.call_as "m1" 1 (Sample.stage_body "IN_PROGRESS"))
        (Sample.store_with Sample.history_closed)
      = (responded (Backend.res_status_json 200
                      (message_data "Stage updated" (request_row row))), db')
      ∧ Supabase.stage <$> Supabase.maintenance_requests db'
        = ["IN_PROGRESS"; "IN_PROGRESS"; "NEW_REQUEST"]
      ∧ Supabase.request_stage_history db' = [].
Proof.
  split; [reflexivity|].
  eexists. eexists. split; [vm_compute; reflexivity|].
  split; reflexivity.
Qed.

Example stage_change_with_history_row :
  Supabase.request_stage_history
    (Backend.PUT_api_requests_id_stage
       (Sample.call_as "m1" 1 (Sample.stage_body "IN_PROGRESS")) Sample.store).2
  = [ {| Supabase.request_id := Some 1;
         Supabase.from_stage := Some "NEW_REQUEST";
         Supabase.to_stage := Some "IN_PROGRESS";
         Supabase.changed_by_user_id := "m1" |} ].
Proof. vm_compute. reflexivity. Qed.

(** ** Sign-up *)

Section SignUp.

Import Backend.

Lemma userRole_valid (s : string) :
  s ∈ validRoles → userRole (Js.Str s) = Js.Str s.
Proof.
  intros Hin. unfold userRole. simpl. by rewrite bool_decide_eq_true_2.
Qed.

Lemma userRole_default (requested : Js.value) :
  (∀ s, s ∈ validRoles → requested ≠ Js.Str s) →
  userRole requested = Js.Str "EMPLOYEE".
Proof.
  intros Hnot. unfold userRole.
  destruct (Js.includes validRoles requested) eqn:Hin; [|reflexivity].
  apply includes_true in Hin as (s & -> & Hin). destruct (Hnot s Hin eq_refl).
Qed.

Lemma auth_signUp_inr (email : string) (meta_name meta_role : Js.value)
    (db db1 : Supabase.state) (user : Supabase.AuthUser) :
  Supabase.auth_signUp email meta_name meta_role db = (inr user, db1) →
  user = Supabase.mkAuthUser (Supabase.next_uuid db) email false meta_name meta_role
  ∧ Supabase.users db1 = Supabase.users db ++ [user]
  ∧ Supabase.profiles db1
    = Supabase.profiles db
      ++ [Supabase.mkProfileRow (Supabase.next_uuid db) meta_name (Js.Str "EMPLOYEE")]
  ∧ Supabase.refuses db1 = Supabase.refuses db.
Proof.
  unfold Supabase.auth_signUp.
  destruct (Supabase.refuses db _ _ _); [discriminate|].
  destruct (existsb _ _); [discriminate|].
  intros [= <- <-]. auto.
Qed.

Lemma update_profiles_role_effect (c : Supabase.client) (uid : string)
    (new_role : Js.value) (db : Supabase.state) :
  Supabase.users (Supabase.update_profiles_role c uid new_role db).2 = Supabase.users db
  ∧ Supabase.refuses (Supabase.update_profiles_role c uid new_role db).2
    = Supabase.refuses db
  ∧ Supabase.profiles (Supabase.update_profiles_role c uid new_role db).2
    = match Supabase.refuses db c Supabase.UPDATE "profiles" with
      | Some _ => Supabase.profiles db
      | None =>
          List.map (λ p, if bool_decide (Supabase.p_id p = uid)
                         then Supabase.mkProfileRow (Supabase.p_id p) (Supabase.p_name p)
                                new_role
                         else p) (Supabase.profiles db)
      end
  ∧ ((Supabase.update_profiles_role c uid new_role db).1 = None
     ↔ Supabase.refuses db c Supabase.UPDATE "profiles" = None).
Proof.
  unfold Supabase.update_profiles_role.
  destruct (Supabase.refuses db c Supabase.UPDATE "profiles"); simpl;
    repeat split; auto; discriminate.
Qed.

Lemma auth_admin_confirm_effect (uid : string) (db : Supabase.state) :
  Supabase.profiles (Supabase.auth_admin_confirm uid db).2 = Supabase.profiles db
  ∧ ∀ user, user ∈ Supabase.users db →
      ∃ user', user' ∈ Supabase.users (Supabase.auth_admin_confirm uid db).2
               ∧ Supabase.au_id user' = Supabase.au_id user
               ∧ Supabase.au_email user' = Supabase.au_email user
               ∧ Supabase.user_metadata_role user' = Supabase.user_metadata_role user.
Proof.
  unfold Supabase.auth_admin_confirm.
  destruct (Supabase.refuses db _ _ _); simpl.
  - split; [reflexivity|]. intros user Hin. exists user. auto.
  - split; [reflexivity|]. intros user Hin.
    eexists. split.
    + apply list_elem_of_In, in_map, list_elem_of_In. exact Hin.
    + simpl. destruct (bool_decide _); auto.
Qed.

Lemma signup_success (supabaseAdmin : bool) (req : Req) (db db' : Supabase.state)
    (r : Response) :
  POST_api_auth_signup supabaseAdmin req db = (responded r, db') →
  status r = 200 →
  (∃ user db1,
     Supabase.auth_signUp (b_email (body req)) (b_name (body req))
       (userRole (b_role (body req))) db = (inr user, db1))
  ∧ (supabaseAdmin = true →
     Supabase.refuses db Supabase.service_role Supabase.UPDATE "profiles" = None)
  ∧ db' = after_signup supabaseAdmin req db.
Proof.
  unfold POST_api_auth_signup. rewrite route_unguarded.
  unfold post_api_auth_signup, after_signup. run_handler.
  destruct (Supabase.auth_signUp _ _ _ db) as [[message|user] db1] eqn:Hsigned.
  - (* the sign-up was turned down: every answer is a 400 *)
    intros Hsent Hcode. exfalso. revert Hsent.
    destruct (already_registered message); [|intros [= <- _]; discriminate].
    destruct supabaseAdmin; [|intros [= <- _]; discriminate].
    destruct (Supabase.auth_admin_listUsers db1) as [|listed];
      [intros [= <- _]; discriminate|].
    destruct (List.find _ listed) as [found|]; [|intros [= <- _]; discriminate].
    destruct (negb (Supabase.email_confirmed_at found));
      [|intros [= <- _]; discriminate].
    destruct (Supabase.auth_admin_confirm _ db1). intros [= <- _]. discriminate.
  - destruct (auth_signUp_inr _ _ _ _ _ _ Hsigned) as (Huser & _ & _ & Hrefuses).
    assert (Hid : Supabase.au_id user = Supabase.next_uuid db) by (by rewrite Huser).
    assert (Hconfirmed : Supabase.email_confirmed_at user = false) by (by rewrite Huser).
    rewrite Hid, Hconfirmed. simpl.
    destruct supabaseAdmin; simpl.
    + pose proof (update_profiles_role_effect Supabase.service_role
                    (Supabase.next_uuid db) (userRole (b_role (body req))) db1)
        as (_ & _ & _ & Hanswer).
      destruct (Supabase.update_profiles_role _ _ _ db1) as [[message|] db2] eqn:Hupdate;
        [intros [= <- _]; discriminate|].
      simpl in *.
      destruct (Supabase.auth_admin_confirm _ db2) as [answer db3] eqn:Hconfirm.
      intros [= _ <-] _. split; [eauto|]. split; [|reflexivity].
      intros _. rewrite <- Hrefuses. by apply Hanswer.
    + destruct (Supabase.update_profiles_role _ _ _ db1) as [answer db2] eqn:Hupdate.
      intros [= _ <-] _. split; [eauto|]. split; [discriminate | reflexivity].
Qed.

End SignUp.

(** C10. [POST /api/auth/signup] has no guard and never looks at the
    caller.  The role it provisions is the requested one when that is
    ADMIN, MANAGER, TECHNICIAN or EMPLOYEE, and EMPLOYEE for anything
    else, a missing role included.  When the route answers 200, the new
    account carries that role in its metadata, and its profile row
    carries it too as soon as the role update is accepted (which a 200
    implies when the service-role client is configured).  So a caller
    without any token who asks for ADMIN gets an ADMIN account. *)
Theorem signup_grants_requested_role
    (supabaseAdmin : bool) (req : Req) (db db' : Supabase.state) (r : Response) :
  Backend.POST_api_auth_signup supabaseAdmin req db = (responded r, db') →
  status r = 200 →
  (∀ header,
     Backend.POST_api_auth_signup supabaseAdmin
       (mkReq header (params_id req) (body req) (userProfile req) (canViewAll req)) db
     = (responded r, db'))
  ∧ (∀ s, s ∈ Backend.validRoles → b_role (body req) = Js.Str s →
          Backend.userRole (b_role (body req)) = Js.Str s)
  ∧ ((∀ s, s ∈ Backend.validRoles → b_role (body req) ≠ Js.Str s) →
     Backend.userRole (b_role (body req)) = Js.Str "EMPLOYEE")
  ∧ (∃ user, user ∈ Supabase.users db'
             ∧ Supabase.au_id user = Supabase.next_uuid db
             ∧ Supabase.au_email user = b_email (body req)
             ∧ Supabase.user_metadata_role user = Backend.userRole (b_role (body req)))
  ∧ (∃ p, p ∈ Supabase.profiles db' ∧ Supabase.p_id p = Supabase.next_uuid db)
  ∧ (supabaseAdmin = true
     ∨ Supabase.refuses db Supabase.anon Supabase.UPDATE "profiles" = None →
     ∀ p, p ∈ Supabase.profiles db' →
          Supabase.p_id p = Supabase.next_uuid db →
          Supabase.p_role p = Backend.userRole (b_role (body req))).
Proof.
  intros Hsent Hcode.
  split; [intros header; exact Hsent|].
  split; [intros s Hin ->; by apply userRole_valid|].
  split; [apply userRole_default|].
  destruct (signup_success _ _ _ _ _ Hsent Hcode) as ((user & db1 & Hsigned) & Hadmin & ->).
  destruct (auth_signUp_inr _ _ _ _ _ _ Hsigned) as (Huser & Husers & Hprofiles & Hrefuses).
  unfold after_signup. rewrite Hsigned. simpl.
  set (granted := Backend.userRole (b_role (body req))) in *.
  set (c := if supabaseAdmin then Supabase.service_role else Supabase.anon).
  destruct (update_profiles_role_effect c (Supabase.next_uuid db) granted db1)
    as (Husers2 & _ & Hprofiles2 & _).
  set (db2 := (Supabase.update_profiles_role c (Supabase.next_uuid db) granted db1).2) in *.
  destruct (auth_admin_confirm_effect (Supabase.next_uuid db) db2) as (Hprofiles3 & Husers3).
  assert (Hnew : user ∈ Supabase.users db2).
  { rewrite Husers2, Husers. apply elem_of_app. right. by apply list_elem_of_singleton. }
  assert (Hstored : Supabase.profiles
                      (if supabaseAdmin
                       then (Supabase.auth_admin_confirm (Supabase.next_uuid db) db2).2
                       else db2) = Supabase.profiles db2)
    by (destruct supabaseAdmin; [exact Hprofiles3 | reflexivity]).
  split; [|split].
  - destruct supabaseAdmin.
    + destruct (Husers3 user Hnew) as (user' & Hin & Hid & Hemail & Hrole).
      exists user'. rewrite Hid, Hemail, Hrole, Huser. auto.
    + exists user. rewrite Huser at 2 3 4. auto.
  - rewrite Hstored, Hprofiles2, Hprofiles.
    destruct (Supabase.refuses db1 c Supabase.UPDATE "profiles").
    + eexists. split; [apply elem_of_app; right; by apply list_elem_of_singleton|].
      reflexivity.
    + eexists. split.
      * apply list_elem_of_In, in_map, list_elem_of_In.
        apply elem_of_app. right. by apply list_elem_of_singleton.
      * simpl. rewrite bool_decide_eq_true_2 by reflexivity. reflexivity.
  - intros Haccepted p. rewrite Hstored, Hprofiles2.
    assert (Hnone : Supabase.refuses db1 c Supabase.UPDATE "profiles" = None).
    { rewrite Hrefuses. subst c. destruct supabaseAdmin.
      - by apply Hadmin.
      - destruct Haccepted as [Habsurd | Hanon]; [discriminate | exact Hanon]. }
    rewrite Hnone. intros Hin%list_elem_of_In Hid.
    apply in_map_iff in Hin as (p0 & Hp & _). subst p.
    destruct (bool_decide (Supabase.p_id p0 = Supabase.next_uuid db)) eqn:Hmatch.
    + reflexivity.
    + apply bool_decide_eq_false in Hmatch. contradiction.
Qed.

Lemma signup_grants_requested_role_witness :
  Backend.getUserProfile
    (Sample.anonymous_call 0 (Sample.signup_body "eve@example.org" (Js.Str "ADMIN")))
    Sample.store = None
  ∧ ∃ p, p ∈ Supabase.profiles
               (Backend.POST_api_auth_signup true
                  (Sample.anonymous_call 0
                     (Sample.signup_body "eve@example.org" (Js.Str "ADMIN")))
                  Sample.store).2
         ∧ Supabase.p_id p = "u100"
         ∧ Supabase.p_role p = Js.Str "ADMIN".
Proof.
  split; [reflexivity|].
  destruct (signup_grants_requested_role true
              (Sample.anonymous_call 0 (Sample.signup_body "eve@example.org" (Js.Str "ADMIN")))
              Sample.store
              (Backend.POST_api_auth_signup true
                 (Sample.anonymous_call 0
                    (Sample.signup_body "eve@example.org" (Js.Str "ADMIN")))
                 Sample.store).2
              (Backend.res_status_json 200
                 (message_email "Signup successful! You can now log in." "eve@example.org")))
    as (_ & _ & _ & _ & (p & Hin & Hid) & Hrole);
    [vm_compute; reflexivity | reflexivity |].
  exists p. split; [exact Hin|]. split; [exact Hid|].
  apply Hrole; [by left | exact Hin | exact Hid].
Defined.

(** ** Further properties of the same code *)

(** X1. The table decides for every role but ADMIN: an action with an
    entry is allowed exactly to the roles in its list, in both tiers. *)
Theorem table_decides_listed_actions
    (u : UserProfile) (action : string) (allowed : list string) :
  role u ≠ Js.Str "ADMIN" →
  Backend.permissions !! action = Some allowed →
  Backend.hasPermission (Some u) action = Return (Js.includes allowed (role u))
  ∧ Frontend.hasPermission (Some u) action = Return (Js.includes allowed (role u)).
Proof.
  intros Hadmin Hentry.
  assert (Hback := hasPermission_listed u action allowed Hadmin Hentry).
  split; [exact Hback|].
  rewrite <- Hback. unfold Frontend.hasPermission, Backend.hasPermission.
  by rewrite permissions_agree.
Qed.

Lemma table_decides_listed_actions_witness :
  Backend.hasPermission (Some (roleOf "EMPLOYEE" "e1")) "add_worksheet" = Return false
  ∧ Frontend.hasPermission (Some (roleOf "EMPLOYEE" "e1")) "add_worksheet" = Return false.
Proof.
  apply (table_decides_listed_actions (roleOf "EMPLOYEE" "e1") "add_worksheet" ["ADMIN"]);
    [discriminate | vm_compute; reflexivity].
Defined.

(** X2. An action that has no entry and is not one of the names
    objects inherit is refused to every role but ADMIN. *)
Theorem unlisted_plain_action_refused (u : UserProfile) (action : string) :
  role u ≠ Js.Str "ADMIN" →
  Backend.permissions !! action = None →
  action ∉ Js.object_prototype_keys →
  Backend.hasPermission (Some u) action = Return false.
Proof. apply hasPermission_unlisted. Qed.

Lemma unlisted_plain_action_refused_witness :
  Backend.hasPermission (Some (roleOf "MANAGER" "m1")) "launch_rockets" = Return false.
Proof.
  apply (unlisted_plain_action_refused (roleOf "MANAGER" "m1") "launch_rockets");
    [discriminate | vm_compute; reflexivity |].
  unfold Js.object_prototype_keys. intros Hin.
  repeat (apply elem_of_cons in Hin as [Hin | Hin]; [discriminate|]).
  by apply elem_of_nil in Hin.
Defined.

(** X3. No default allow: an absent actor, and an actor whose role is
    missing, [null], empty or otherwise falsy, is refused every action,
    also those whose lookup would throw. *)
Theorem absent_actor_or_role_refused (action : string) :
  Backend.hasPermission None action = Return false
  ∧ Frontend.hasPermission None action = Return false
  ∧ ∀ u, Js.truthy (role u) = false →
         Backend.hasPermission (Some u) action = Return false
         ∧ Frontend.hasPermission (Some u) action = Return false.
Proof.
  split; [reflexivity|]. split; [reflexivity|].
  intros u Hfalsy. unfold Backend.hasPermission, Frontend.hasPermission.
  rewrite Hfalsy. split; reflexivity.
Qed.

(** ** [parseInt] on the path segment *)

Section ParseInt.

Lemma digit_pretty_N_char (d : N) :
  (d < 10)%N → Js.digit 10 (pretty_N_char d) = Some (Z.of_N d).
Proof.
  intros Hd.
  assert (d = 0 ∨ d = 1 ∨ d = 2 ∨ d = 3 ∨ d = 4 ∨ d = 5 ∨ d = 6 ∨ d = 7 ∨ d = 8 ∨ d = 9)%N
    as Hcases by lia.
  repeat destruct Hcases as [->|Hcases]; try subst d; reflexivity.
Qed.

(** Reading the numeral of a positive number gives the number back. *)
Lemma digits_pretty_N_go (x : N) (s : string) :
  (0 < x)%N →
  Js.digits 10 (pretty_N_go x s) None = Js.digits 10 s (Some (Z.of_N x)).
Proof.
  revert s. induction (N.lt_wf_0 x) as [x _ IH]. intros s Hpos.
  rewrite pretty_N_go_step by done.
  assert (Hdigit : (x `mod` 10 < 10)%N) by (apply N.mod_lt; lia).
  destruct (decide (x `div` 10 = 0)%N) as [Hzero|Hmore].
  - rewrite Hzero, pretty_N_go_0. simpl.
    rewrite (digit_pretty_N_char _ Hdigit). simpl.
    do 2 f_equal. pose proof (N.div_mod x 10 ltac:(lia)). lia.
  - assert (Hless : (x `div` 10 < x)%N) by (apply N.div_lt; lia).
    assert (Hsome : (0 < x `div` 10)%N) by (apply N.neq_0_lt_0; exact Hmore).
    rewrite (IH _ Hless _ Hsome). simpl.
    rewrite (digit_pretty_N_char _ Hdigit). simpl.
    do 2 f_equal. pose proof (N.div_mod x 10 ltac:(lia)). lia.
Qed.

(** The numeral of a positive number starts with one of [1] to [9]. *)
Lemma pretty_N_go_head (x : N) (s : string) :
  (0 < x)%N →
  ∃ d rest, pretty_N_go x s = String (pretty_N_char d) rest ∧ (0 < d < 10)%N.
Proof.
  revert s. induction (N.lt_wf_0 x) as [x _ IH]. intros s Hpos.
  rewrite pretty_N_go_step by done.
  destruct (decide (x `div` 10 = 0)%N) as [Hzero|Hmore].
  - rewrite Hzero, pretty_N_go_0. exists (x `mod` 10)%N, s. split; [reflexivity|].
    pose proof (N.div_mod x 10 ltac:(lia)). pose proof (N.mod_lt x 10 ltac:(lia)). lia.
  - apply IH; [apply N.div_lt; lia|apply N.neq_0_lt_0; exact Hmore].
Qed.

Lemma parseInt_from_digit (d : N) (rest : string) :
  (0 < d < 10)%N →
  Js.parseInt (String (pretty_N_char d) rest)
  = match Js.digits 10 (String (pretty_N_char d) rest) None with
    | None => Js.NotANumber
    | Some mathInt =>
        match Js.double_of mathInt with
        | Some n => Js.Finite n
        | None => Js.Infinite false
        end
    end.
Proof.
  intros Hd.
  assert (d = 1 ∨ d = 2 ∨ d = 3 ∨ d = 4 ∨ d = 5 ∨ d = 6 ∨ d = 7 ∨ d = 8 ∨ d = 9)%N
    as Hcases by lia.
  repeat destruct Hcases as [->|Hcases]; try subst d;
    (destruct rest as [|b [|c rest]]; reflexivity).
Qed.

Lemma parseInt_from_minus_digit (d : N) (rest : string) :
  (0 < d < 10)%N →
  Js.parseInt (String "-" (String (pretty_N_char d) rest))
  = match Js.digits 10 (String (pretty_N_char d) rest) None with
    | None => Js.NotANumber
    | Some mathInt =>
        match Js.double_of mathInt with
        | Some n => Js.Finite (- n)
        | None => Js.Infinite true
        end
    end.
Proof.
  intros Hd.
  assert (d = 1 ∨ d = 2 ∨ d = 3 ∨ d = 4 ∨ d = 5 ∨ d = 6 ∨ d = 7 ∨ d = 8 ∨ d = 9)%N
    as Hcases by lia.
  repeat destruct Hcases as [->|Hcases]; try subst d;
    (destruct rest as [|b [|c rest]]; reflexivity).
Qed.

(** [parseInt] on the decimal numeral of an integer: the integer,
    rounded to a double. *)
Lemma parseInt_pretty (k : Z) :
  Js.parseInt (pretty k)
  = match Js.double_of (Z.abs k) with
    | Some n => Js.Finite (if k <? 0 then - n else n)
    | None => Js.Infinite (k <? 0)
    end.
Proof.
  destruct k as [|p|p].
  - reflexivity.
  - change (pretty (Z.pos p)) with (pretty_N_go (N.pos p) "").
    destruct (pretty_N_go_head (N.pos p) "") as (d & rest & Hhead & Hd); [lia|].
    rewrite Hhead, (parseInt_from_digit d rest Hd), <- Hhead.
    rewrite digits_pretty_N_go by lia. reflexivity.
  - change (pretty (Z.neg p)) with (String "-" (pretty_N_go (N.pos p) "")).
    destruct (pretty_N_go_head (N.pos p) "") as (d & rest & Hhead & Hd); [lia|].
    rewrite Hhead, (parseInt_from_minus_digit d rest Hd), <- Hhead.
    rewrite digits_pretty_N_go by lia. reflexivity.
Qed.

(** Up to [2^53] every integer is a double. *)
Lemma double_of_safe (m : Z) :
  0 ≤ m ≤ 2 ^ 53 → Js.double_of m = Some m.
Proof.
  intros Hm. destruct (decide (m = 2 ^ 53)) as [->|Hne]; [vm_compute; reflexivity|].
  unfold Js.double_of.
  assert (Hbits : Z.log2 m + 1 ≤ 53).
  { destruct (decide (m = 0)) as [->|Hpos]; [vm_compute; discriminate|].
    assert (Z.log2 m < 53) by (apply Z.log2_lt_pow2; lia). lia. }
  destruct (Z.leb_spec (Z.log2 m + 1) 53); [|lia].
  destruct (Z.ltb_spec m (2 ^ 1024)); [reflexivity|].
  assert (2 ^ 53 < 2 ^ 1024) by (apply Z.pow_lt_mono_r; lia). lia.
Qed.

Lemma parseInt_pretty_safe (k : Z) :
  Z.abs k ≤ 2 ^ 53 → Js.json_number (Js.parseInt (pretty k)) = Some k.
Proof.
  intros Hk. rewrite parseInt_pretty, (double_of_safe (Z.abs k)) by lia. simpl.
  f_equal. destruct (Z.ltb_spec k 0); lia.
Qed.

End ParseInt.

(** X4. A stage change that is answered 200, on a store that accepts the
    read of the current row and the history insert, appends exactly one
    history row: the stage the row had before, the stage asked for, the
    caller's id, and as [request_id] what [parseInt] makes of the path
    segment.  For a key of at most [2^53] in size that is the key of
    the row that was changed. *)
Theorem stage_change_appends_history
    (req : Req) (db db' : Supabase.state) (u : UserProfile) (r : Response) (s : string) :
  Backend.getUserProfile req db = Some u →
  b_stage (body req) = Some s →
  Supabase.refuses db Supabase.anon Supabase.SELECT "maintenance_requests" = None →
  Supabase.refuses db Supabase.anon Supabase.INSERT "request_stage_history" = None →
  Backend.PUT_api_requests_id_stage req db = (responded r, db') →
  status r = 200 →
  ∃ before,
    before ∈ Supabase.maintenance_requests db
    ∧ Supabase.r_id before = params_id req
    ∧ Supabase.request_stage_history db'
      = Supabase.request_stage_history db
        ++ [ {| Supabase.request_id := Js.json_number (Js.parseInt (path_id req));
                Supabase.from_stage := Backend.nonempty (Some (Supabase.stage before));
                Supabase.to_stage := Some s;
                Supabase.changed_by_user_id := id u |} ]
    ∧ (Z.abs (params_id req) ≤ 2 ^ 53 →
       Supabase.request_stage_history db'
       = Supabase.request_stage_history db
         ++ [ {| Supabase.request_id := Some (Supabase.r_id before);
                 Supabase.from_stage := Backend.nonempty (Some (Supabase.stage before));
                 Supabase.to_stage := Some s;
                 Supabase.changed_by_user_id := id u |} ]).
Proof.
  intros Hu Hstage Hread Hinsert Hsent Hcode.
  pose proof (stage_change_history req db u Hu r db' Hsent Hcode) as Hhistory.
  rewrite Hinsert, Hstage in Hhistory.
  assert (Hroute : (Backend.PUT_api_requests_id_stage req db).1 = responded r)
    by (by rewrite Hsent).
  destruct (guarded_success req db _ _ r Hroute Hcode) as (u' & Hu' & _ & Hrun).
  assert (u' = u) as -> by congruence.
  destruct (put_stage_success req db u r Hrun Hcode) as (_ & row & db1 & Hupdate).
  destruct (update_single_inr _ _ _ _ _ _ Hupdate) as (before & Hrows & _ & _).
  assert (Hselect : Backend.select_request_by_id (params_id req) db = inr before).
  { unfold Backend.select_request_by_id, Backend.select_requests, Supabase.answer.
    by rewrite Hread, Hrows. }
  destruct (select_request_by_id_inr _ _ _ Hselect) as (Hin & Hkey & _).
  exists before. rewrite Hhistory, Hselect.
  split; [exact Hin|]. split; [exact Hkey|]. split; [reflexivity|].
  intros Hsafe. unfold path_id. by rewrite (parseInt_pretty_safe _ Hsafe), Hkey.
Qed.

Lemma stage_change_appends_history_witness :
  ∃ before,
    before ∈ Supabase.maintenance_requests Sample.store
    ∧ Supabase.r_id before = 1
    ∧ Supabase.request_stage_history
        (Backend.PUT_api_requests_id_stage
           (Sample.call_as "m1" 1 (Sample.stage_body "IN_PROGRESS")) Sample.store).2
      = [ {| Supabase.request_id := Some 1;
             Supabase.from_stage := Backend.nonempty (Some (Supabase.stage before));
             Supabase.to_stage := Some "IN_PROGRESS";
             Supabase.changed_by_user_id := "m1" |} ].
Proof.
  destruct (stage_change_appends_history
           (Sample.call_as "m1" 1 (Sample.stage_body "IN_PROGRESS")) Sample.store
           (Backend.PUT_api_requests_id_stage
              (Sample.call_as "m1" 1 (Sample.stage_body "IN_PROGRESS")) Sample.store).2
           {| id := "m1"; role := Js.Str "MANAGER"; name := Js.Str "m1" |}
           (Backend.res_status_json 200
              (message_data "Stage updated"
                 (request_row (Supabase.mkRequestRow 1 "Conveyor belt slips"
                                 (Some "e1") (Some "t1") "IN_PROGRESS" false 10))))
           "IN_PROGRESS"
           ltac:(vm_compute; reflexivity) ltac:(reflexivity)
           ltac:(reflexivity) ltac:(reflexivity)
           ltac:(vm_compute; reflexivity) ltac:(reflexivity))
    as (before & Hin & Hkey & Hrow & _).
  exists before. split; [exact Hin|]. split; [exact Hkey|]. exact Hrow.
Defined.

(** Beyond [2^53] the two part.  A request under the key
    9007199254740993 is changed, and its history row is filed under
    9007199254740992. *)
Example stage_history_under_a_rounded_key :
  let db := Supabase.with_maintenance_requests
              (λ rows, rows ++ [Supabase.mkRequestRow 9007199254740993 "Fan rattles"
                                  (Some "e1") None "NEW_REQUEST" false 40])
              Sample.store in
  let after := (Backend.PUT_api_requests_id_stage
                  (Sample.call_as "m1" 9007199254740993 (Sample.stage_body "REPAIRED"))
                  db).2 in
  Supabase.stage <$> Supabase.maintenance_requests after
  = ["NEW_REQUEST"; "IN_PROGRESS"; "NEW_REQUEST"; "REPAIRED"]
  ∧ Supabase.request_stage_history after
    = [ {| Supabase.request_id := Some 9007199254740992;
           Supabase.from_stage := Some "NEW_REQUEST";
           Supabase.to_stage := Some "REPAIRED";
           Supabase.changed_by_user_id := "m1" |} ].
Proof. vm_compute. split; reflexivity. Qed.

Lemma own_branch_entered_by_witness :
  ∃ u, userProfile
         (set_canViewAll false
            (set_userProfile {| id := "e1"; role := Js.Str "EMPLOYEE"; name := Js.Str "e1" |}
               (Sample.call_as "e1" 0 Sample.empty_body))) = Some u
       ∧ (role u = Js.Str "TECHNICIAN" ∨ role u = Js.Str "EMPLOYEE").
Proof.
  apply (own_branch_entered_by (Sample.call_as "e1" 0 Sample.empty_body) _ Sample.store);
    [vm_compute; reflexivity | reflexivity].
Defined.

Lemma equipment_list_unguarded_witness :
  Backend.getUserProfile (Sample.anonymous_call 0 Sample.empty_body) Sample.store = None
  ∧ ∃ l, Backend.GET_api_equipment (Sample.anonymous_call 0 Sample.empty_body) Sample.store
         = (responded (Backend.res_status_json 200 (data_only (equipment_list l))),
            Sample.store)
         ∧ fe_row <$> l ≡ₚ Supabase.equipment Sample.store.
Proof.
  split; [reflexivity|].
  apply (equipment_list_unguarded (Sample.anonymous_call 0 Sample.empty_body) Sample.store).
  reflexivity.
Defined.

(** * More of the code *)

(** ** Resolving a token *)

Lemma before_without_separator (sep t : string) :
  Js.str_includes sep t = false → Backend.before sep t = t.
Proof.
  induction t as [|c t IH]; simpl.
  - intros _. by destruct sep.
  - intros Hnone. apply orb_false_iff in Hnone as [Hhere Hlater].
    rewrite Hhere. f_equal. by apply IH.
Qed.

Lemma bearer_token_round_trip (t : string) :
  Js.str_includes "Bearer " t = false →
  String.prefix "Bearer " ("Bearer " +:+ t) = true
  ∧ Backend.bearer_token ("Bearer " +:+ t) = t.
Proof.
  intros Hnone. split; [by destruct t|].
  unfold Backend.bearer_token. simpl. by apply before_without_separator.
Qed.

(** What resolving the actor reads of the store. *)
Lemma getUserProfile_frame (req : Req) (db db' : Supabase.state) :
  Supabase.sessions db' = Supabase.sessions db →
  Supabase.users db' = Supabase.users db →
  Supabase.profiles db' = Supabase.profiles db →
  Supabase.refuses db' = Supabase.refuses db →
  Backend.getUserProfile req db' = Backend.getUserProfile req db.
Proof.
  intros Hsessions Husers Hprofiles Hrefuses.
  unfold Backend.getUserProfile, Backend.getUserFromRequest, Backend.auth_getUser,
    Supabase.answer.
  by rewrite Hsessions, Husers, Hprofiles, Hrefuses.
Qed.

(** X7. A header ["Bearer " + t], with a token [t] that does not itself
    contain ["Bearer "], resolves to the profile of the account the
    session of [t] belongs to: the actor has that account's id and the
    role and name of its one profile row, whatever role the account's
    own metadata names. *)
Theorem token_resolves_to_profile
    (req : Req) (db : Supabase.state) (t uid : string)
    (user : Supabase.AuthUser) (profile : Supabase.ProfileRow) :
  authorization req = Some ("Bearer " +:+ t) →
  Js.str_includes "Bearer " t = false →
  Supabase.sessions db !! t = Some uid →
  user ∈ Supabase.users db →
  Supabase.au_id user = uid →
  Supabase.refuses db Supabase.anon Supabase.SELECT "profiles" = None →
  List.filter (λ p, bool_decide (Supabase.p_id p = uid)) (Supabase.profiles db) = [profile] →
  Backend.getUserProfile req db
  = Some {| id := uid; role := Supabase.p_role profile; name := Supabase.p_name profile |}.
Proof.
  intros Hheader Htoken Hsession Huser Hid Hread Hrows.
  destruct (bearer_token_round_trip t Htoken) as [Hprefix Hsplit].
  unfold Backend.getUserProfile, Backend.getUserFromRequest.
  rewrite Hheader, Hprefix, Hsplit. simpl.
  unfold Backend.auth_getUser. rewrite Hsession. simpl.
  destruct (List.find _ (Supabase.users db)) as [found|] eqn:Hfind.
  - apply find_some in Hfind as [_ Hfound%bool_decide_eq_true].
    rewrite Hfound, Hrows. unfold Supabase.answer. rewrite Hread. reflexivity.
  - exfalso. apply list_elem_of_In in Huser.
    pose proof (find_none _ _ Hfind user Huser) as Hno. simpl in Hno.
    by rewrite bool_decide_eq_true_2 in Hno.
Qed.

Lemma token_resolves_to_profile_witness :
  Backend.getUserProfile (Sample.call_as "t1" 0 Sample.empty_body) Sample.store
  = Some {| id := "t1"; role := Js.Str "TECHNICIAN"; name := Js.Str "t1" |}.
Proof.
  apply (token_resolves_to_profile
           (Sample.call_as "t1" 0 Sample.empty_body) Sample.store "token-t1" "t1"
           (Sample.account "t1" "TECHNICIAN").1 (Sample.account "t1" "TECHNICIAN").2);
    try (vm_compute; reflexivity).
  unfold Sample.store, Sample.store_with, Sample.accounts. simpl.
  rewrite !elem_of_cons. auto.
Defined.

(** ** Signing up with an address that is taken *)

Lemma auth_admin_confirm_keeps (uid : string) (db : Supabase.state) :
  Supabase.profiles (Supabase.auth_admin_confirm uid db).2 = Supabase.profiles db
  ∧ identity_of <$> Supabase.users (Supabase.auth_admin_confirm uid db).2
    = identity_of <$> Supabase.users db.
Proof.
  unfold Supabase.auth_admin_confirm.
  destruct (Supabase.refuses db _ _ _); simpl; [auto|].
  split; [reflexivity|].
  induction (Supabase.users db) as [|u l IH]; [reflexivity|].
  rewrite !fmap_cons. simpl. rewrite <- IH. f_equal.
  by destruct (bool_decide (Supabase.au_id u = uid)).
Qed.

Lemma auth_admin_confirm_confirms (uid : string) (db : Supabase.state) :
  Supabase.refuses db Supabase.service_role Supabase.UPDATE "auth.users" = None →
  ∀ u, u ∈ Supabase.users (Supabase.auth_admin_confirm uid db).2 →
       Supabase.au_id u = uid → Supabase.email_confirmed_at u = true.
Proof.
  intros Haccepted u. unfold Supabase.auth_admin_confirm. rewrite Haccepted. simpl.
  intros Hin%list_elem_of_In Hid. apply in_map_iff in Hin as (u0 & <- & _).
  destruct (bool_decide (Supabase.au_id u0 = uid)) eqn:Hmatch; [reflexivity|].
  apply bool_decide_eq_false in Hmatch. simpl in Hid. contradiction.
Qed.

Lemma auth_signUp_taken (email : string) (meta_name meta_role : Js.value)
    (db : Supabase.state) :
  existsb (λ u, String.eqb (Supabase.au_email u) email) (Supabase.users db) = true →
  Supabase.refuses db Supabase.anon Supabase.SIGNUP "auth.users" = None →
  Supabase.auth_signUp email meta_name meta_role db = (inl "User already registered", db).
Proof.
  intros Htaken Haccepted. unfold Supabase.auth_signUp. by rewrite Haccepted, Htaken.
Qed.

(** X8. Signing up with an address that already has an account is
    answered 400 and provisions nothing: no account is added, no
    account's id, address or role metadata changes, and the profile
    rows, roles included, stay as they were, whatever role the caller
    asked for. *)
Theorem signup_taken_address_keeps_roles
    (supabaseAdmin : bool) (req : Req) (db : Supabase.state) :
  existsb (λ u, String.eqb (Supabase.au_email u) (b_email (body req)))
    (Supabase.users db) = true →
  Supabase.refuses db Supabase.anon Supabase.SIGNUP "auth.users" = None →
  ∃ r db',
    Backend.POST_api_auth_signup supabaseAdmin req db = (responded r, db')
    ∧ status r = 400
    ∧ Supabase.profiles db' = Supabase.profiles db
    ∧ identity_of <$> Supabase.users db' = identity_of <$> Supabase.users db.
Proof.
  intros Htaken Haccepted.
  unfold Backend.POST_api_auth_signup. rewrite route_unguarded.
  unfold Backend.post_api_auth_signup. run_handler.
  rewrite (auth_signUp_taken _ _ _ _ Htaken Haccepted).
  change (Backend.already_registered "User already registered") with true.
  cbv iota.
  destruct supabaseAdmin; [|eauto 10].
  destruct (Supabase.auth_admin_listUsers db) as [|listed]; [eauto 10|].
  destruct (List.find _ listed) as [found|]; [|eauto 10].
  destruct (negb (Supabase.email_confirmed_at found)); [|eauto 10].
  destruct (auth_admin_confirm_keeps (Supabase.au_id found) db) as [Hprofiles Husers].
  destruct (Supabase.auth_admin_confirm (Supabase.au_id found) db) as [answer db'].
  simpl in *. eauto 10.
Qed.

Lemma signup_taken_address_keeps_roles_witness :
  ∃ r db',
    Backend.POST_api_auth_signup true
      (Sample.anonymous_call 0 (Sample.signup_body "m1@gearguard.test" (Js.Str "ADMIN")))
      Sample.store = (responded r, db')
    ∧ status r = 400
    ∧ Supabase.profiles db' = Supabase.profiles Sample.store
    ∧ identity_of <$> Supabase.users db' = identity_of <$> Supabase.users Sample.store.
Proof.
  apply (signup_taken_address_keeps_roles true
           (Sample.anonymous_call 0 (Sample.signup_body "m1@gearguard.test" (Js.Str "ADMIN")))
           Sample.store); vm_compute; reflexivity.
Defined.

(** X9. With the service-role client configured, a sign-up attempt for
    a taken address confirms the account it belongs to, when that
    account is on the first page of the user listing and has not
    confirmed its address: the answer is the 400 that says the account
    was activated, and afterwards every account under that id counts as
    confirmed.  The caller needs nothing but the address.  When no
    account on the first page has the address, the answer is the plain
    400 and the store stays as it was. *)
Theorem signup_attempt_confirms_pending_account (req : Req) (db : Supabase.state) :
  existsb (λ u, String.eqb (Supabase.au_email u) (b_email (body req)))
    (Supabase.users db) = true →
  Supabase.refuses db Supabase.anon Supabase.SIGNUP "auth.users" = None →
  Supabase.refuses db Supabase.service_role Supabase.SELECT "auth.users" = None →
  Supabase.refuses db Supabase.service_role Supabase.UPDATE "auth.users" = None →
  (∀ user,
     List.find (λ u, String.eqb (Supabase.au_email u) (b_email (body req)))
       (take Supabase.listUsers_perPage (Supabase.users db)) = Some user →
     Supabase.email_confirmed_at user = false →
     ∃ db',
       Backend.POST_api_auth_signup true req db
       = (responded (Backend.res_status_json 400 (message_only
            "User already exists. Your account has been activated. Please try logging in.")),
          db')
       ∧ ∀ u, u ∈ Supabase.users db' →
              Supabase.au_id u = Supabase.au_id user →
              Supabase.email_confirmed_at u = true)
  ∧ (List.find (λ u, String.eqb (Supabase.au_email u) (b_email (body req)))
       (take Supabase.listUsers_perPage (Supabase.users db)) = None →
     Backend.POST_api_auth_signup true req db
     = (responded (Backend.res_status_json 400 (message_only
          "User already exists. Please try logging in instead.")),
        db)).
Proof.
  intros Htaken Hsignup Hlist Hconfirm.
  unfold Backend.POST_api_auth_signup. rewrite route_unguarded.
  unfold Backend.post_api_auth_signup. run_handler.
  rewrite (auth_signUp_taken _ _ _ _ Htaken Hsignup).
  change (Backend.already_registered "User already registered") with true.
  cbv iota.
  unfold Supabase.auth_admin_listUsers, Supabase.answer. rewrite Hlist.
  split.
  - intros user Hfind Hpending. rewrite Hfind, Hpending. simpl.
    pose proof (auth_admin_confirm_confirms (Supabase.au_id user) db Hconfirm) as Hdone.
    destruct (Supabase.auth_admin_confirm (Supabase.au_id user) db) as [answer db'].
    simpl in *. eauto.
  - intros Hfind. rewrite Hfind. reflexivity.
Qed.

Lemma signup_attempt_confirms_pending_account_witness :
  ∃ db',
    Backend.POST_api_auth_signup true
      (Sample.anonymous_call 0 (Sample.signup_body "pat@gearguard.test" Js.Undefined))
      Scenario.store_with_pending
    = (responded (Backend.res_status_json 400 (message_only
         "User already exists. Your account has been activated. Please try logging in.")),
       db')
    ∧ ∀ u, u ∈ Supabase.users db' →
           Supabase.au_id u = "p1" → Supabase.email_confirmed_at u = true.
Proof.
  destruct (signup_attempt_confirms_pending_account
              (Sample.anonymous_call 0 (Sample.signup_body "pat@gearguard.test" Js.Undefined))
              Scenario.store_with_pending
              ltac:(vm_compute; reflexivity) ltac:(reflexivity)
              ltac:(reflexivity) ltac:(reflexivity)) as [Hpage _].
  apply (Hpage Scenario.pending); vm_compute; reflexivity.
Defined.

(** The pending account as the 51st in the listing: the same call
    leaves it unconfirmed. *)
Example pending_account_beyond_the_first_page :
  Backend.POST_api_auth_signup true
    (Sample.anonymous_call 0 (Sample.signup_body "pat@gearguard.test" Js.Undefined))
    Scenario.crowded_store
  = (responded (Backend.res_status_json 400 (message_only
       "User already exists. Please try logging in instead.")),
     Scenario.crowded_store)
  ∧ Supabase.users Scenario.crowded_store !! 50%nat = Some Scenario.pending
  ∧ Supabase.email_confirmed_at Scenario.pending = false.
Proof. repeat split; vm_compute; reflexivity. Qed.

(** ** Writes that are turned down *)

Section Frames.

Import Backend.

Variable (db : Supabase.state).

Lemma update_single_inl (c : Supabase.client) (q : list Supabase.request_filter)
    (patch : Supabase.RequestRow → Supabase.RequestRow) (message : string)
    (db1 : Supabase.state) :
  Supabase.update_maintenance_requests_single c q patch db = (inl message, db1) →
  db1 = db.
Proof.
  unfold Supabase.update_maintenance_requests_single.
  destruct (Supabase.refuses db c _ _); [by intros [= _ <-]|].
  destruct (List.filter _ _) as [|r [|r' rest]]; by intros [= _ <-].
Qed.

Lemma put_stage_failure_frame (req : Req) :
  status (run (put_api_requests_id_stage req) db).1 ≠ 200 →
  (run (put_api_requests_id_stage req) db).2 = db.
Proof.
  destruct (userProfile req) as [u|] eqn:Hu.
  - rewrite (put_stage_run req db u Hu).
    destruct (may_change_stage u (params_id req) db); [|reflexivity].
    destruct (Supabase.update_maintenance_requests_single _ _ _ db)
      as [[message|row] db1] eqn:Hupdate.
    + intros _. simpl. by apply update_single_inl in Hupdate.
    + simpl. intros Hcode. by destruct Hcode.
  - unfold put_api_requests_id_stage. rewrite Hu. reflexivity.
Qed.

Lemma post_notes_failure_frame (req : Req) :
  status (run (post_api_requests_id_notes req) db).1 ≠ 200 →
  (run (post_api_requests_id_notes req) db).2 = db.
Proof.
  destruct (userProfile req) as [u|] eqn:Hu.
  - rewrite (post_notes_run req db u Hu).
    destruct (may_add_note u (params_id req) db); [|reflexivity].
    unfold Supabase.insert_request_notes.
    destruct (Supabase.refuses db _ _ _); simpl; [reflexivity|].
    intros Hcode. by destruct Hcode.
  - unfold post_api_requests_id_notes. rewrite Hu. reflexivity.
Qed.

Lemma post_equipment_failure_frame (req : Req) :
  status (run (post_api_equipment req) db).1 ≠ 200 →
  (run (post_api_equipment req) db).2 = db.
Proof.
  unfold post_api_equipment. run_handler.
  destruct (_ && _); [reflexivity|].
  destruct (_ && _); [reflexivity|].
  unfold Supabase.insert_equipment.
  destruct (Supabase.refuses db _ _ _); simpl; [reflexivity|].
  intros Hcode. by destruct Hcode.
Qed.

Lemma post_requests_failure_frame (fields : Wider.NewRequest) (req : Req) :
  status (run (Wider.post_api_requests fields req) db).1 ≠ 200 →
  (run (Wider.post_api_requests fields req) db).2 = db.
Proof.
  unfold Wider.post_api_requests.
  destruct (Wider.scheduled_at_column _); [reflexivity|].
  destruct (Wider.creator fields req); [|reflexivity].
  run_handler. unfold Wider.insert_maintenance_requests.
  destruct (Supabase.refuses db _ _ _); simpl; [reflexivity|].
  intros Hcode. by destruct Hcode.
Qed.

Lemma guarded_failure_frame (action : string) (handler : Req → Handler Response)
    (req : Req) :
  (∀ req', status (run (handler req') db).1 ≠ 200 → (run (handler req') db).2 = db) →
  (∀ r, (route [requirePermission action] handler req db).1 = responded r →
        status r ≠ 200) →
  (route [requirePermission action] handler req db).2 = db.
Proof.
  intros Hhandler. rewrite route_one.
  destruct (requirePermission action req db) as [req'| |]; [|reflexivity..].
  specialize (Hhandler req').
  destruct (run (handler req') db) as [r' db']. simpl in *.
  intros Hcode. apply Hhandler. by apply Hcode.
Qed.

End Frames.

(** X10. The routes that write to [equipment], [maintenance_requests]
    and [request_notes] change the store only when they answer 200: on
    any other outcome (401, 403, 400, 500, or no answer) the store is
    exactly as it was.  In particular the stage route writes no history
    row for a change that was refused. *)
Theorem refused_write_changes_nothing
    (fields : Wider.NewRequest) (op : Backend.Route) (req : Req) (db : Supabase.state) :
  op ∈ [ Backend.POST_api_equipment; Wider.POST_api_requests fields;
         Backend.PUT_api_requests_id_stage; Backend.POST_api_requests_id_notes ] →
  (∀ r, (op req db).1 = responded r → status r ≠ 200) →
  (op req db).2 = db.
Proof.
  intros Hop.
  repeat (apply elem_of_cons in Hop as [-> | Hop]); [ .. | by apply elem_of_nil in Hop ];
    apply guarded_failure_frame; intros req'.
  - apply post_equipment_failure_frame.
  - apply post_requests_failure_frame.
  - apply put_stage_failure_frame.
  - apply post_notes_failure_frame.
Qed.

Lemma refused_write_changes_nothing_witness :
  (Backend.PUT_api_requests_id_stage
     (Sample.call_as "t1" 2 (Sample.stage_body "REPAIRED")) Sample.store).2
  = Sample.store.
Proof.
  apply (refused_write_changes_nothing Scenario.filed_by_caller
           Backend.PUT_api_requests_id_stage).
  - rewrite !elem_of_cons. auto.
  - intros r Hsent. vm_compute in Hsent. injection Hsent as <-. discriminate.
Defined.

(** ** What a stage change leaves alone *)

Lemma stage_change_store (req : Req) (db db' : Supabase.state) (r : Response) :
  Backend.PUT_api_requests_id_stage req db = (responded r, db') →
  status r = 200 →
  ∃ u row db1,
    Backend.getUserProfile req db = Some u
    ∧ Supabase.update_maintenance_requests_single Supabase.anon
        [Supabase.eq_id (params_id req)] (Backend.stage_patch (body req)) db = (inr row, db1)
    ∧ db' = (Supabase.insert_request_stage_history Supabase.anon
               {| Supabase.request_id := Js.json_number (Js.parseInt (path_id req));
                  Supabase.from_stage :=
                    Backend.stage_or_null (Backend.select_request_by_id (params_id req) db);
                  Supabase.to_stage := b_stage (body req);
                  Supabase.changed_by_user_id := id u |} db1).2.
Proof.
  intros Hsent Hcode. unfold Backend.PUT_api_requests_id_stage in Hsent.
  destruct (Backend.getUserProfile req db) as [u|] eqn:Hu.
  - rewrite (guarded_resolved req db _ _ u Hu) in Hsent.
    destruct (Backend.hasPermission (Some u) "update_request_stage") as [[|]|];
      [ | injection Hsent as <- _; discriminate | discriminate ].
    rewrite (put_stage_run (set_userProfile u req) db u eq_refl) in Hsent. simpl in Hsent.
    destruct (may_change_stage u (params_id req) db);
      [|injection Hsent as <- _; discriminate].
    destruct (Supabase.update_maintenance_requests_single _ _ _ db) as [[message|row] db1];
      [injection Hsent as <- _; discriminate|].
    injection Hsent as _ <-. eauto 10.
  - rewrite route_one, requirePermission_unresolved in Hsent by assumption.
    injection Hsent as <- _. discriminate.
Qed.

(** X11. A stage change that is answered 200 touches one row and two
    of its columns.  Exactly one row has the given id; afterwards every
    row still has its id, subject, creator, technician and creation
    time (so the route can never reassign or re-attribute a request),
    rows under other ids are unchanged, and accounts, profiles,
    equipment and notes are as before. *)
Theorem stage_change_touches_one_row
    (req : Req) (db db' : Supabase.state) (r : Response) :
  Backend.PUT_api_requests_id_stage req db = (responded r, db') →
  status r = 200 →
  (∃ before,
     List.filter (λ row, bool_decide (Supabase.r_id row = params_id req))
       (Supabase.maintenance_requests db) = [before])
  ∧ kept_columns <$> Supabase.maintenance_requests db'
    = kept_columns <$> Supabase.maintenance_requests db
  ∧ Supabase.maintenance_requests db'
    = List.map (λ row, if bool_decide (Supabase.r_id row = params_id req)
                       then Backend.stage_patch (body req) row else row)
        (Supabase.maintenance_requests db)
  ∧ Supabase.users db' = Supabase.users db
  ∧ Supabase.profiles db' = Supabase.profiles db
  ∧ Supabase.equipment db' = Supabase.equipment db
  ∧ Supabase.request_notes db' = Supabase.request_notes db.
Proof.
  intros Hsent Hcode.
  destruct (stage_change_store req db db' r Hsent Hcode)
    as (u & row & db1 & _ & Hupdate & ->).
  destruct (update_single_inr _ _ _ _ _ _ Hupdate) as (before & Hone & _ & Hrows).
  assert (Hsame : ∀ rows : list Supabase.RequestRow,
            List.filter (Supabase.matches_all [Supabase.eq_id (params_id req)]) rows
            = List.filter (λ row, bool_decide (Supabase.r_id row = params_id req)) rows).
  { intros rows. rewrite filter_one_condition. reflexivity. }
  assert (Hmap : Supabase.maintenance_requests db1
                 = List.map (λ row, if bool_decide (Supabase.r_id row = params_id req)
                                    then Backend.stage_patch (body req) row else row)
                     (Supabase.maintenance_requests db)).
  { rewrite Hrows. apply map_ext. intros x. simpl. by rewrite andb_true_r. }
  assert (Hrest : Supabase.users db1 = Supabase.users db
                  ∧ Supabase.profiles db1 = Supabase.profiles db
                  ∧ Supabase.equipment db1 = Supabase.equipment db
                  ∧ Supabase.request_notes db1 = Supabase.request_notes db).
  { revert Hupdate. unfold Supabase.update_maintenance_requests_single.
    destruct (Supabase.refuses db _ _ _); [discriminate|].
    destruct (List.filter _ _) as [|r0 [|r1 rest]]; try discriminate.
    by intros [= _ <-]. }
  unfold Supabase.insert_request_stage_history.
  destruct (Supabase.refuses db1 _ _ _); simpl;
    (split; [exists before; by rewrite <- Hsame|]);
    (split; [|split; [exact Hmap | exact Hrest]]);
    rewrite Hmap; clear;
    (induction (Supabase.maintenance_requests db) as [|x xs IH]; [reflexivity|]);
    rewrite !fmap_cons; simpl; rewrite <- IH; f_equal;
    by destruct (bool_decide (Supabase.r_id x = params_id req)).
Qed.

Lemma stage_change_touches_one_row_witness :
  kept_columns <$> Supabase.maintenance_requests
                     (Backend.PUT_api_requests_id_stage
                        (Sample.call_as "t1" 1 (Sample.stage_body "REPAIRED")) Sample.store).2
  = kept_columns <$> Supabase.maintenance_requests Sample.store.
Proof.
  destruct (stage_change_touches_one_row
              (Sample.call_as "t1" 1 (Sample.stage_body "REPAIRED")) Sample.store
              (Backend.PUT_api_requests_id_stage
                 (Sample.call_as "t1" 1 (Sample.stage_body "REPAIRED")) Sample.store).2
              (Backend.res_status_json 200
                 (message_data "Stage updated"
                    (request_row (Supabase.mkRequestRow 1 "Conveyor belt slips"
                                    (Some "e1") (Some "t1") "REPAIRED" false 10)))))
    as (_ & Hkept & _); [vm_compute; reflexivity | reflexivity | exact Hkept].
Defined.

(** ** Filing a request *)

Lemma allowed_roles (u : UserProfile) (action : string) (allowed : list string) :
  Backend.permissions !! action = Some allowed →
  Backend.hasPermission (Some u) action = Return true →
  ∃ s, role u = Js.Str s ∧ (s = "ADMIN" ∨ s ∈ allowed).
Proof.
  intros Hentry Hallowed.
  destruct (decide (role u = Js.Str "ADMIN")) as [Hadmin | Hadmin]; [eauto|].
  rewrite (hasPermission_listed u action allowed Hadmin Hentry) in Hallowed.
  injection Hallowed as Hin. apply includes_true in Hin as (s & Hs & Hin). eauto.
Qed.

(** What [GET /api/requests] lists to a resolved actor who is let in,
    when the read is accepted. *)
Lemma requests_listed (req : Req) (db : Supabase.state) (u : UserProfile) :
  Backend.getUserProfile req db = Some u →
  Supabase.refuses db Supabase.anon Supabase.SELECT "maintenance_requests" = None →
  (Backend.hasPermission (Some u) "view_all_requests" = Return true →
     ∃ rows, listed (Backend.GET_api_requests req db).1 = Some rows
             ∧ ∀ row, row ∈ rows ↔ row ∈ Supabase.maintenance_requests db)
  ∧ (role u = Js.Str "EMPLOYEE" →
     ∃ rows, listed (Backend.GET_api_requests req db).1 = Some rows
             ∧ ∀ row, row ∈ rows
                      ↔ row ∈ Supabase.maintenance_requests db
                        ∧ Supabase.created_by_user_id row = Some (id u)).
Proof.
  intros Hu Hread. unfold Backend.GET_api_requests.
  rewrite route_one, (requireRequestAccess_resolved _ _ u Hu).
  split.
  - intros Hall. rewrite Hall.
    destruct (get_requests_run (set_canViewAll true (set_userProfile u req)) db []
                eq_refl Hread) as (r & Hrun & Hlisted).
    rewrite Hrun. simpl. eexists. split; [exact Hlisted|].
    intros row. rewrite newest_first_perm, filter_no_condition. reflexivity.
  - intros Hrole. rewrite view_all_by_role, view_own_by_role, Hrole. simpl.
    destruct (get_requests_run (set_canViewAll false (set_userProfile u req)) db
                [Supabase.eq_created_by_user_id (id u)]) as (r & Hrun & Hlisted);
      [ rewrite requests_query_own, Hrole; reflexivity | exact Hread | ].
    rewrite Hrun. simpl. eexists. split; [exact Hlisted|].
    intros row. rewrite newest_first_perm, filter_one_condition. simpl.
    rewrite (filter_bool_decide (λ r, Supabase.created_by_user_id r = Some (id u))).
    rewrite list_elem_of_filter. tauto.
Qed.

(** When the rewrite of [scheduled_at] throws, the caller is told so
    with a 500 and nothing is written. *)
Lemma post_requests_schedule_throws (fields : Wider.NewRequest) (req : Req)
    (db : Supabase.state) (u : UserProfile) (message : string) :
  Backend.getUserProfile req db = Some u →
  Backend.hasPermission (Some u) "create_request" = Return true →
  Wider.scheduled_at_column (Wider.nr_scheduled_at fields) = inl message →
  Wider.POST_api_requests fields req db = (responded (Backend.caught message), db).
Proof.
  intros Hu Hallowed Hthrown. unfold Wider.POST_api_requests.
  rewrite (guarded_resolved req db _ _ u Hu), Hallowed.
  unfold Wider.post_api_requests. by rewrite Hthrown.
Qed.

(** The values of [scheduled_at] on which the rewrite does not throw. *)
Lemma scheduled_at_column_goes_through (given : Wider.Scheduled) :
  (∃ kept, Wider.scheduled_at_column given = inr kept)
  ↔ match given with
    | Wider.value_of (Js.Str _) => True
    | Wider.value_of v => Js.truthy v = false
    | Wider.array_of items => existsb (λ v, Js.strict_eq_str v "T") items = true
    end.
Proof.
  destruct given as [v|items]; simpl.
  - destruct v as [| |b|n| |s|]; simpl; try (split; [done|eauto]);
      try (split; [by intros [? [=]]|done]).
    + destruct b; split; eauto; try done. by intros [? [=]].
    + destruct (n =? 0); simpl; split; eauto; try done. by intros [? [=]].
  - destruct (existsb _ items); split; eauto; try done. by intros [? [=]].
Qed.

Example number_as_schedule_is_a_500 :
  Wider.POST_api_requests
    (Wider.mkNewRequest "Drill overheats" None None None None
       (Wider.value_of (Js.Number 5)))
    (Sample.call_as "e2" 0 Sample.empty_body) Sample.store
  = (responded (Backend.res_status_json 500
       (message_only "scheduledAt.includes is not a function")), Sample.store).
Proof. vm_compute. reflexivity. Qed.

Lemma post_requests_accepted (fields : Wider.NewRequest) (req : Req)
    (db : Supabase.state) (u : UserProfile) (kept : Wider.Scheduled) :
  Backend.getUserProfile req db = Some u →
  Backend.hasPermission (Some u) "create_request" = Return true →
  Wider.scheduled_at_column (Wider.nr_scheduled_at fields) = inr kept →
  Supabase.refuses db Supabase.anon Supabase.INSERT "maintenance_requests" = None →
  Wider.POST_api_requests fields req db
  = (responded (Backend.res_status_json 200
       (message_data "Request created"
          (request_row
             {| Supabase.r_id := Supabase.next_id db;
                Supabase.subject := Wider.nr_subject fields;
                Supabase.created_by_user_id :=
                  Some (default (id u) (Backend.nonempty (Wider.nr_created_by_user_id fields)));
                Supabase.technician_id := Backend.nonempty (Wider.nr_technician_id fields);
                Supabase.stage :=
                  default "NEW_REQUEST" (Backend.nonempty (Wider.nr_stage fields));
                Supabase.blocked := default false (Wider.nr_blocked fields);
                Supabase.r_created_at := Supabase.now db |}))),
     Supabase.bump_id
       (Supabase.with_maintenance_requests
          (λ rows, rows ++
             [ {| Supabase.r_id := Supabase.next_id db;
                  Supabase.subject := Wider.nr_subject fields;
                  Supabase.created_by_user_id :=
                    Some (default (id u)
                            (Backend.nonempty (Wider.nr_created_by_user_id fields)));
                  Supabase.technician_id := Backend.nonempty (Wider.nr_technician_id fields);
                  Supabase.stage :=
                    default "NEW_REQUEST" (Backend.nonempty (Wider.nr_stage fields));
                  Supabase.blocked := default false (Wider.nr_blocked fields);
                  Supabase.r_created_at := Supabase.now db |} ]) db)).
Proof.
  intros Hu Hallowed Hkept Hinsert. unfold Wider.POST_api_requests.
  rewrite (guarded_resolved req db _ _ u Hu), Hallowed.
  unfold Wider.post_api_requests, Wider.creator. rewrite Hkept. simpl.
  destruct (Backend.nonempty (Wider.nr_created_by_user_id fields)) as [named|];
    run_handler; unfold Wider.insert_maintenance_requests; rewrite Hinsert; reflexivity.
Qed.

(** X12. Whoever files a request without naming a creator becomes its
    creator and finds it in their own list afterwards.  For a resolved
    actor allowed [create_request], a [scheduled_at] whose rewrite does
    not throw (nothing or a falsy value, a string, or an array holding
    ['T']), and with the insert and the read accepted: the answer is
    200 with the new row, the row is appended with the caller's id as
    [created_by_user_id] and, when the body gives none, the stage
    NEW_REQUEST, and the caller's next [GET /api/requests] lists it. *)
Theorem filed_request_is_listed_to_its_creator
    (fields : Wider.NewRequest) (req : Req) (db : Supabase.state) (u : UserProfile)
    (kept : Wider.Scheduled) :
  Backend.getUserProfile req db = Some u →
  Backend.hasPermission (Some u) "create_request" = Return true →
  Wider.scheduled_at_column (Wider.nr_scheduled_at fields) = inr kept →
  Backend.nonempty (Wider.nr_created_by_user_id fields) = None →
  Supabase.refuses db Supabase.anon Supabase.INSERT "maintenance_requests" = None →
  Supabase.refuses db Supabase.anon Supabase.SELECT "maintenance_requests" = None →
  ∃ row db',
    Wider.POST_api_requests fields req db
    = (responded (Backend.res_status_json 200
         (message_data "Request created" (request_row row))), db')
    ∧ Supabase.created_by_user_id row = Some (id u)
    ∧ (Backend.nonempty (Wider.nr_stage fields) = None → Supabase.stage row = "NEW_REQUEST")
    ∧ Supabase.maintenance_requests db' = Supabase.maintenance_requests db ++ [row]
    ∧ ∃ rows, listed (Backend.GET_api_requests req db').1 = Some rows ∧ row ∈ rows.
Proof.
  intros Hu Hallowed Hkept Hnobody Hinsert Hread.
  rewrite (post_requests_accepted fields req db u kept Hu Hallowed Hkept Hinsert), Hnobody.
  eexists. eexists. split; [reflexivity|]. simpl.
  split; [reflexivity|]. split; [by intros ->|]. split; [reflexivity|].
  set (db' := Supabase.bump_id _).
  assert (Hu' : Backend.getUserProfile req db' = Some u)
    by (rewrite <- Hu; by apply getUserProfile_frame).
  destruct (requests_listed req db' u Hu' Hread) as [Hall Hown].
  destruct (allowed_roles u "create_request" ["ADMIN"; "MANAGER"; "EMPLOYEE"]
              ltac:(vm_compute; reflexivity) Hallowed) as (s & Hs & Hin).
  assert (Hcases : Backend.hasPermission (Some u) "view_all_requests" = Return true
                   ∨ role u = Js.Str "EMPLOYEE").
  { rewrite view_all_by_role, Hs.
    destruct Hin as [-> | Hin]; [by left|].
    repeat (apply elem_of_cons in Hin as [-> | Hin]);
      [by left | by left | by right | by apply elem_of_nil in Hin]. }
  destruct Hcases as [Hview | Hemployee].
  - destruct (Hall Hview) as (rows & Hlisted & Hrows).
    exists rows. split; [exact Hlisted|]. apply Hrows. simpl.
    apply elem_of_app. right. by apply list_elem_of_singleton.
  - destruct (Hown Hemployee) as (rows & Hlisted & Hrows).
    exists rows. split; [exact Hlisted|]. apply Hrows. simpl.
    split; [|reflexivity]. apply elem_of_app. right. by apply list_elem_of_singleton.
Qed.

Lemma filed_request_is_listed_to_its_creator_witness :
  ∃ row db',
    Wider.POST_api_requests Scenario.filed_by_caller
      (Sample.call_as "e2" 0 Sample.empty_body) Sample.store
    = (responded (Backend.res_status_json 200
         (message_data "Request created" (request_row row))), db')
    ∧ Supabase.created_by_user_id row = Some "e2"
    ∧ (Backend.nonempty (Wider.nr_stage Scenario.filed_by_caller) = None →
       Supabase.stage row = "NEW_REQUEST")
    ∧ Supabase.maintenance_requests db'
      = Supabase.maintenance_requests Sample.store ++ [row]
    ∧ ∃ rows, listed (Backend.GET_api_requests
                        (Sample.call_as "e2" 0 Sample.empty_body) db').1 = Some rows
              ∧ row ∈ rows.
Proof.
  apply (filed_request_is_listed_to_its_creator Scenario.filed_by_caller
           (Sample.call_as "e2" 0 Sample.empty_body) Sample.store
           {| id := "e2"; role := Js.Str "EMPLOYEE"; name := Js.Str "e2" |}
           (Wider.value_of (Js.Str "2025-03-01T08:30Z")));
    vm_compute; reflexivity.
Defined.

Lemma getUserProfile_header (req req' : Req) (db : Supabase.state) :
  authorization req' = authorization req →
  Backend.getUserProfile req' db = Backend.getUserProfile req db.
Proof.
  intros Hheader. unfold Backend.getUserProfile, Backend.getUserFromRequest.
  by rewrite Hheader.
Qed.

(** X13. The creator is whoever the body names.  An EMPLOYEE who files
    a request under another user's id, with a [scheduled_at] whose
    rewrite does not throw and the insert and the read accepted, gets
    200, and the row carries that other id: it is missing from the
    caller's own list, and the caller's notes on it are answered 403. *)
Theorem request_filed_for_another_is_not_the_callers
    (fields : Wider.NewRequest) (req : Req) (db : Supabase.state) (u : UserProfile)
    (other : string) (kept : Wider.Scheduled) :
  Backend.getUserProfile req db = Some u →
  role u = Js.Str "EMPLOYEE" →
  Wider.scheduled_at_column (Wider.nr_scheduled_at fields) = inr kept →
  Backend.nonempty (Wider.nr_created_by_user_id fields) = Some other →
  other ≠ id u →
  Supabase.refuses db Supabase.anon Supabase.INSERT "maintenance_requests" = None →
  Supabase.refuses db Supabase.anon Supabase.SELECT "maintenance_requests" = None →
  ∃ row db',
    Wider.POST_api_requests fields req db
    = (responded (Backend.res_status_json 200
         (message_data "Request created" (request_row row))), db')
    ∧ Supabase.created_by_user_id row = Some other
    ∧ row ∈ Supabase.maintenance_requests db'
    ∧ (∃ rows, listed (Backend.GET_api_requests req db').1 = Some rows ∧ row ∉ rows)
    ∧ ∀ b, Backend.POST_api_requests_id_notes
             (mkReq (authorization req) (Supabase.r_id row) b None None) db'
           = (responded (forbidden "You can only add notes to your own requests"), db').
Proof.
  intros Hu Hrole Hkept Hnamed Hother Hinsert Hread.
  pose proof (employee_may_add_notes u Hrole) as Hnotes.
  assert (Hcreate : Backend.hasPermission (Some u) "create_request" = Return true).
  { unfold Backend.hasPermission. rewrite Hrole. vm_compute. reflexivity. }
  rewrite (post_requests_accepted fields req db u kept Hu Hcreate Hkept Hinsert), Hnamed.
  eexists. eexists. split; [reflexivity|]. simpl.
  set (row := Supabase.mkRequestRow _ _ _ _ _ _ _).
  set (db' := Supabase.bump_id _).
  assert (Hu' : Backend.getUserProfile req db' = Some u)
    by (rewrite <- Hu; by apply getUserProfile_frame).
  assert (Hnew : row ∈ Supabase.maintenance_requests db').
  { simpl. apply elem_of_app. right. by apply list_elem_of_singleton. }
  split; [reflexivity|]. split; [exact Hnew|]. split.
  - destruct (requests_listed req db' u Hu' Hread) as [_ Hown].
    destruct (Hown Hrole) as (rows & Hlisted & Hrows).
    exists rows. split; [exact Hlisted|].
    rewrite Hrows. intros [_ Hmine]. subst row. simpl in Hmine.
    injection Hmine as Hmine. contradiction.
  - intros b.
    set (req' := mkReq (authorization req) (Supabase.r_id row) b None None).
    assert (Hu'' : Backend.getUserProfile req' db' = Some u)
      by (rewrite <- Hu'; by apply getUserProfile_header).
    unfold Backend.POST_api_requests_id_notes.
    rewrite (guarded_resolved req' db' _ _ u Hu''), Hnotes.
    rewrite (post_notes_run (set_userProfile u req') db' u eq_refl). simpl.
    assert (Hmay : may_add_note u (Supabase.next_id db) db' = false).
    { unfold may_add_note. rewrite Hrole. simpl.
      destruct (Backend.select_request_by_id (Supabase.next_id db) db') as [|found] eqn:Hsel;
        [reflexivity|].
      apply select_request_by_id_inr in Hsel as (_ & _ & Hone).
      assert (Hin : In row (List.filter
                              (Supabase.matches_all [Supabase.eq_id (Supabase.next_id db)])
                              (Supabase.maintenance_requests db'))).
      { apply filter_In. split; [by apply list_elem_of_In|].
        simpl. by rewrite bool_decide_eq_true_2. }
      rewrite Hone in Hin. destruct Hin as [Hfound | []].
      apply bool_decide_eq_false. rewrite Hfound. simpl.
      intros [= Hsame]. contradiction. }
    by rewrite Hmay.
Qed.

Lemma request_filed_for_another_is_not_the_callers_witness :
  ∃ row db',
    Wider.POST_api_requests (Scenario.filed_for "e2")
      (Sample.call_as "e1" 0 Sample.empty_body) Sample.store
    = (responded (Backend.res_status_json 200
         (message_data "Request created" (request_row row))), db')
    ∧ Supabase.created_by_user_id row = Some "e2"
    ∧ row ∈ Supabase.maintenance_requests db'
    ∧ (∃ rows, listed (Backend.GET_api_requests
                         (Sample.call_as "e1" 0 Sample.empty_body) db').1 = Some rows
               ∧ row ∉ rows)
    ∧ ∀ b, Backend.POST_api_requests_id_notes
             (mkReq (authorization (Sample.call_as "e1" 0 Sample.empty_body))
                (Supabase.r_id row) b None None) db'
           = (responded (forbidden "You can only add notes to your own requests"), db').
Proof.
  apply (request_filed_for_another_is_not_the_callers (Scenario.filed_for "e2")
           (Sample.call_as "e1" 0 Sample.empty_body) Sample.store
           {| id := "e1"; role := Js.Str "EMPLOYEE"; name := Js.Str "e1" |} "e2"
           (Wider.value_of Js.Null));
    try (vm_compute; reflexivity).
  discriminate.
Defined.

(** ** The scheduled time of a new request *)

Section ScheduledAt.

Import Wider.

Lemma prefix_empty (s : string) : String.prefix "" s = true.
Proof. by destruct s. Qed.

Lemma str_includes_char_cons (c x : Ascii.ascii) (s : string) :
  Js.str_includes (String c "") (String x s)
  = (if Ascii.ascii_dec c x then true else false) || Js.str_includes (String c "") s.
Proof.
  simpl. destruct (Ascii.ascii_dec c x); [by rewrite prefix_empty | reflexivity].
Qed.

Lemma str_includes_char_app (c : Ascii.ascii) (s t : string) :
  Js.str_includes (String c "") (s +:+ t)
  = Js.str_includes (String c "") s || Js.str_includes (String c "") t.
Proof.
  induction s as [|x s IH].
  - simpl. by destruct t.
  - change (String x s +:+ t) with (String x (s +:+ t)).
    rewrite !str_includes_char_cons, IH. by rewrite orb_assoc.
Qed.

Lemma str_includes_char_nil (c : Ascii.ascii) : Js.str_includes (String c "") "" = false.
Proof. reflexivity. Qed.

Lemma append_assoc (s t v : string) : (s +:+ t) +:+ v = s +:+ t +:+ v.
Proof.
  induction s as [|x s IH]; [reflexivity|].
  change (String x ((s +:+ t) +:+ v) = String x (s +:+ t +:+ v)). by f_equal.
Qed.

Lemma replace_first_absent (from to : Ascii.ascii) (s : string) :
  Js.str_includes (String from "") s = false → replace_first from to s = s.
Proof.
  induction s as [|x s IH]; [reflexivity|].
  rewrite str_includes_char_cons. intros [Hhere Hlater]%orb_false_iff.
  simpl. destruct (Ascii.eqb_spec x from) as [->|_].
  - by destruct (Ascii.ascii_dec from from).
  - by rewrite IH.
Qed.

Lemma replace_first_found (from to : Ascii.ascii) (s t : string) :
  Js.str_includes (String from "") s = false →
  replace_first from to (s +:+ String from t) = s +:+ String to t.
Proof.
  induction s as [|x s IH].
  - intros _. simpl. by rewrite Ascii.eqb_refl.
  - rewrite str_includes_char_cons. intros [Hhere Hlater]%orb_false_iff.
    simpl. destruct (Ascii.eqb_spec x from) as [->|_].
    + by destruct (Ascii.ascii_dec from from).
    + by rewrite IH.
Qed.

Lemma scheduledAt_rewritten (s : string) :
  s ≠ "" →
  Js.str_includes "T" s = false →
  scheduledAt (Some s) = Some (replace_first " " "T" s +:+ "Z").
Proof.
  intros Hnonempty HnoT. unfold scheduledAt.
  destruct (String.eqb_spec s "") as [->|_]; [done|].
  rewrite HnoT. simpl.
  by destruct (replace_first " " "T" s).
Qed.

(** X14. How [POST /api/requests] rewrites [scheduled_at].  An absent
    or empty value is stored as [null]; a value that contains a [T] is
    stored as it is; otherwise the first space becomes [T] and a [Z] is
    appended, which gives a value that a second pass leaves alone.  A
    value with neither a space nor a [T] (a bare date) only gets the
    [Z], and would get another one on every further pass. *)
Theorem scheduledAt_cases :
  scheduledAt None = None
  ∧ scheduledAt (Some "") = None
  ∧ (∀ s, Js.str_includes "T" s = true → scheduledAt (Some s) = Some s)
  ∧ (∀ day time,
       Js.str_includes " " day = false →
       Js.str_includes "T" day = false →
       Js.str_includes "T" time = false →
       scheduledAt (Some (day +:+ " " +:+ time)) = Some (day +:+ "T" +:+ time +:+ "Z")
       ∧ scheduledAt (Some (day +:+ "T" +:+ time +:+ "Z"))
         = Some (day +:+ "T" +:+ time +:+ "Z"))
  ∧ (∀ day,
       day ≠ "" →
       Js.str_includes " " day = false →
       Js.str_includes "T" day = false →
       scheduledAt (Some day) = Some (day +:+ "Z")
       ∧ scheduledAt (Some (day +:+ "Z")) = Some (day +:+ "Z" +:+ "Z")).
Proof.
  assert (Hkept : ∀ s, Js.str_includes "T" s = true → scheduledAt (Some s) = Some s).
  { intros s HT. unfold scheduledAt. rewrite HT, andb_false_r. simpl.
    destruct (String.eqb_spec s "") as [->|_]; [discriminate HT | reflexivity]. }
  split; [reflexivity|]. split; [reflexivity|]. split; [exact Hkept|]. split.
  - intros day time Hspace HdayT HtimeT. split.
    + rewrite scheduledAt_rewritten.
      * change (" " +:+ time) with (String " " time).
        rewrite (replace_first_found " " "T" day time Hspace).
        by rewrite append_assoc.
      * by destruct day.
      * rewrite str_includes_char_app, HdayT.
        change (" " +:+ time) with (String " " time).
        by rewrite str_includes_char_cons, HtimeT.
    + apply Hkept. rewrite str_includes_char_app.
      change ("T" +:+ time +:+ "Z") with (String "T" (time +:+ "Z")).
      rewrite str_includes_char_cons. simpl. by rewrite orb_true_r.
  - intros day Hnonempty Hspace HT. split.
    + rewrite scheduledAt_rewritten by assumption.
      by rewrite replace_first_absent.
    + rewrite scheduledAt_rewritten.
      * rewrite replace_first_absent; [by rewrite append_assoc|].
        by rewrite str_includes_char_app, Hspace.
      * by destruct day.
      * by rewrite str_includes_char_app, HT.
Qed.

End ScheduledAt.

Example scheduledAt_date_and_time :
  Wider.scheduledAt (Some "2025-03-01 08:30") = Some "2025-03-01T08:30Z"
  ∧ Wider.scheduledAt (Some "2025-03-01") = Some "2025-03-01Z"
  ∧ Wider.scheduledAt (Some "2025-03-01Z") = Some "2025-03-01ZZ".
Proof. repeat split; vm_compute; reflexivity. Qed.

(** ** Changing a user's role *)

Section RoleChange.

Import Backend Wider.

Lemma wroute_one (guard : Middleware) (handler : Req → WHandler Reply)
    (req : Req) (db : store) :
  wroute [guard] handler req db =
    match guard req (core db) with
    | next req' => let '(r, db') := wrun (handler req') db in (replied r, db')
    | stopped r => (replied (widen r), db)
    | thrown e => (failed e, db)
    end.
Proof. reflexivity. Qed.

Lemma wguarded_resolved (action : string) (handler : Req → WHandler Reply)
    (req : Req) (db : store) (u : UserProfile) :
  getUserProfile req (core db) = Some u →
  wroute [requirePermission action] handler req db =
    match hasPermission (Some u) action with
    | Throw e => (failed e, db)
    | Return false =>
        (replied (widen (forbidden "You don't have permission to perform this action")),
         db)
    | Return true =>
        let '(r, db') := wrun (handler (set_userProfile u req)) db in (replied r, db')
    end.
Proof.
  intros Hu. rewrite wroute_one, (requirePermission_resolved _ _ _ u Hu).
  destruct (hasPermission (Some u) action) as [[|]|]; reflexivity.
Qed.

(** A guarded route of this kind that answers 200 had a resolved
    caller who passed the action-level check. *)
Lemma wguarded_success (action : string) (handler : Req → WHandler Reply)
    (req : Req) (db db' : store) (r : Reply) :
  wroute [requirePermission action] handler req db = (replied r, db') →
  code r = 200 →
  ∃ u, getUserProfile req (core db) = Some u
       ∧ hasPermission (Some u) action = Return true
       ∧ wrun (handler (set_userProfile u req)) db = (r, db').
Proof.
  intros Hsent Hcode.
  destruct (getUserProfile req (core db)) as [u|] eqn:Hu.
  - rewrite (wguarded_resolved action handler req db u Hu) in Hsent.
    exists u. split; [reflexivity|].
    destruct (hasPermission (Some u) action) as [[|]|].
    + destruct (wrun (handler (set_userProfile u req)) db) as [r' db1].
      injection Hsent as -> ->. auto.
    + injection Hsent as <- _. discriminate Hcode.
    + discriminate Hsent.
  - rewrite wroute_one, requirePermission_unresolved in Hsent by assumption.
    injection Hsent as <- _. discriminate Hcode.
Qed.

Lemma update_profiles_single_inr (c : Supabase.client) (uid : string)
    (new_role : Js.value) (db db1 : Supabase.state) (row : Supabase.ProfileRow) :
  update_profiles_single c uid new_role db = (inr row, db1) →
  ∃ before,
    List.filter (λ p, bool_decide (Supabase.p_id p = uid)) (Supabase.profiles db) = [before]
    ∧ Supabase.p_id before = uid
    ∧ row = Supabase.mkProfileRow uid (Supabase.p_name before) new_role
    ∧ Supabase.profiles db1 = List.map (with_role uid new_role) (Supabase.profiles db)
    ∧ Supabase.sessions db1 = Supabase.sessions db
    ∧ Supabase.users db1 = Supabase.users db
    ∧ Supabase.refuses db1 = Supabase.refuses db
    ∧ Supabase.maintenance_requests db1 = Supabase.maintenance_requests db.
Proof.
  unfold update_profiles_single.
  destruct (Supabase.refuses db c _ _); [discriminate|].
  destruct (List.filter _ _) as [|before [|p' rest]] eqn:Hrows; try discriminate.
  intros [= <- <-]. exists before.
  assert (Hid : Supabase.p_id before = uid).
  { assert (Hin : In before (List.filter (λ p, bool_decide (Supabase.p_id p = uid))
                               (Supabase.profiles db))) by (rewrite Hrows; by left).
    apply filter_In in Hin as [_ Hid]. by apply bool_decide_eq_true in Hid. }
  rewrite Hid. repeat split; reflexivity.
Qed.

Lemma update_profiles_single_inl (c : Supabase.client) (uid : string)
    (new_role : Js.value) (db db1 : Supabase.state) (message : string) :
  update_profiles_single c uid new_role db = (inl message, db1) → db1 = db.
Proof.
  unfold update_profiles_single.
  destruct (Supabase.refuses db c _ _); [by intros [= _ <-]|].
  destruct (List.filter _ _) as [|before [|p' rest]]; by intros [= _ <-].
Qed.

Lemma filter_with_role (uid x : string) (new_role : Js.value)
    (rows : list Supabase.ProfileRow) :
  List.filter (λ p, bool_decide (Supabase.p_id p = x)) (List.map (with_role uid new_role) rows)
  = List.map (with_role uid new_role)
      (List.filter (λ p, bool_decide (Supabase.p_id p = x)) rows).
Proof.
  induction rows as [|p rows IH]; [reflexivity|].
  simpl. rewrite IH.
  assert (Hid : Supabase.p_id (with_role uid new_role p) = Supabase.p_id p)
    by (unfold with_role; by destruct (bool_decide _)).
  rewrite Hid. by destruct (bool_decide (Supabase.p_id p = x)).
Qed.

Lemma map_with_role_other (uid x : string) (new_role : Js.value)
    (rows : list Supabase.ProfileRow) :
  x ≠ uid →
  List.map (with_role uid new_role)
    (List.filter (λ p, bool_decide (Supabase.p_id p = x)) rows)
  = List.filter (λ p, bool_decide (Supabase.p_id p = x)) rows.
Proof.
  intros Hother. induction rows as [|p rows IH]; [reflexivity|].
  simpl. destruct (bool_decide (Supabase.p_id p = x)) eqn:Hx; [|exact IH].
  simpl. rewrite IH. f_equal. unfold with_role.
  apply bool_decide_eq_true in Hx.
  rewrite bool_decide_eq_false_2; [reflexivity | congruence].
Qed.

(** How the actor behind a token resolves after a role change. *)
Lemma resolved_after_role_change (uid : string) (new_role : Js.value)
    (db db1 : Supabase.state) (row : Supabase.ProfileRow) (req2 : Req) :
  update_profiles_single Supabase.anon uid new_role db = (inr row, db1) →
  getUserFromRequest req2 db1 = getUserFromRequest req2 db
  ∧ (∀ user2, getUserFromRequest req2 db = Some user2 →
       Supabase.au_id user2 = uid →
       Supabase.refuses db Supabase.anon Supabase.SELECT "profiles" = None →
       getUserProfile req2 db1
       = Some {| id := uid; role := new_role; name := Supabase.p_name row |})
  ∧ (∀ user2, getUserFromRequest req2 db = Some user2 →
       Supabase.au_id user2 ≠ uid →
       getUserProfile req2 db1 = getUserProfile req2 db).
Proof.
  intros Hupdate.
  destruct (update_profiles_single_inr _ _ _ _ _ _ Hupdate)
    as (before & Hone & Hid & -> & Hprofiles & Hsessions & Husers & Hrefuses & _).
  assert (Huser : getUserFromRequest req2 db1 = getUserFromRequest req2 db).
  { unfold getUserFromRequest, auth_getUser. by rewrite Hsessions, Husers. }
  split; [exact Huser|]. split.
  - intros user2 Huser2 Hsame Hread. unfold getUserProfile.
    rewrite Huser, Huser2, Hsame, Hprofiles, filter_with_role, Hone.
    unfold Supabase.answer. rewrite Hrefuses, Hread. simpl.
    unfold with_role. by rewrite bool_decide_eq_true_2, Hid.
  - intros user2 Huser2 Hother. unfold getUserProfile.
    rewrite Huser, Huser2, Hprofiles, filter_with_role, map_with_role_other by assumption.
    unfold Supabase.answer. by rewrite Hrefuses.
Qed.

Lemma put_role_success (userId : string) (req : Req) (db db' : store) (r : Reply) :
  PUT_api_users_id_role userId req db = (replied r, db') →
  code r = 200 →
  ∃ u row c',
    getUserProfile req (core db) = Some u
    ∧ hasPermission (Some u) "change_user_roles" = Return true
    ∧ Js.includes validRoles (b_role (body req)) = true
    ∧ update_profiles_single Supabase.anon userId (b_role (body req)) (core db)
      = (inr row, c')
    ∧ r = mkReply 200 (message_profile "User role updated" row)
    ∧ db' = with_core (λ _, c') db.
Proof.
  intros Hsent Hcode.
  destruct (wguarded_success _ _ _ _ _ _ Hsent Hcode) as (u & Hu & Hallowed & Hrun).
  exists u. revert Hrun. unfold put_api_users_id_role.
  cbv [wrun mbind whandler_bind mret whandler_ret on_core reply_with reply_json].
  simpl.
  destruct (Js.includes validRoles (b_role (body req)));
    [|intros [= <- _]; discriminate Hcode].
  simpl.
  destruct (update_profiles_single _ _ _ (core db)) as [[message|row] c'];
    [intros [= <- _]; discriminate Hcode|].
  intros [= <- <-]. eauto 10.
Qed.

End RoleChange.

(** X15. Only an ADMIN changes a role, and only to one of the four
    roles.  When [PUT /api/users/:id/role] answers 200, the caller was
    resolved with role ADMIN, the requested role is ADMIN, MANAGER,
    TECHNICIAN or EMPLOYEE, exactly one profile row has the given id,
    that row now carries the requested role, and every other profile
    row, every account and every request is as before.  A request by
    an ADMIN for any other role value is answered 400 without touching
    the store. *)
Theorem role_change_is_admin_only (userId : string) (req : Req) (db : Wider.store) :
  (∀ r db',
     Wider.PUT_api_users_id_role userId req db = (Wider.replied r, db') →
     Wider.code r = 200 →
     (∃ u, Backend.getUserProfile req (Wider.core db) = Some u ∧ role u = Js.Str "ADMIN")
     ∧ (∃ s, s ∈ Backend.validRoles ∧ b_role (body req) = Js.Str s)
     ∧ (∃ before,
          List.filter (λ p, bool_decide (Supabase.p_id p = userId))
            (Supabase.profiles (Wider.core db)) = [before])
     ∧ Supabase.profiles (Wider.core db')
       = List.map (with_role userId (b_role (body req)))
           (Supabase.profiles (Wider.core db))
     ∧ Supabase.users (Wider.core db') = Supabase.users (Wider.core db)
     ∧ Supabase.maintenance_requests (Wider.core db')
       = Supabase.maintenance_requests (Wider.core db))
  ∧ (Js.includes Backend.validRoles (b_role (body req)) = false →
     ∀ u, Backend.getUserProfile req (Wider.core db) = Some u →
          role u = Js.Str "ADMIN" →
          Wider.PUT_api_users_id_role userId req db
          = (Wider.replied (Wider.mkReply 400 (Wider.narrow (message_only
               "Invalid role. Must be one of: ADMIN, MANAGER, TECHNICIAN, EMPLOYEE"))),
             db)).
Proof.
  split.
  - intros r db' Hsent Hcode.
    destruct (put_role_success userId req db db' r Hsent Hcode)
      as (u & row & c' & Hu & Hallowed & Hvalid & Hupdate & _ & ->).
    destruct (update_profiles_single_inr _ _ _ _ _ _ Hupdate)
      as (before & Hone & _ & _ & Hprofiles & _ & Husers & _ & Hrequests).
    split.
    { exists u. split; [exact Hu|].
      destruct (allowed_roles u "change_user_roles" ["ADMIN"]
                  ltac:(vm_compute; reflexivity) Hallowed) as (s & Hs & [-> | Hin]);
        [exact Hs|].
      apply list_elem_of_singleton in Hin as ->. exact Hs. }
    split.
    { apply includes_true in Hvalid as (s & Hs & Hin). eauto. }
    split; [eauto|]. simpl. auto.
  - intros Hinvalid u Hu Hadmin. unfold Wider.PUT_api_users_id_role.
    rewrite (wguarded_resolved _ _ req db u Hu).
    unfold Backend.hasPermission. rewrite Hadmin. simpl.
    unfold Wider.put_api_users_id_role. simpl. by rewrite Hinvalid.
Qed.

Example admin_promotes_technician :
  ∃ r db',
    Wider.PUT_api_users_id_role "t1"
      (Sample.call_as "a1" 0 (Scenario.role_body (Js.Str "MANAGER"))) Scenario.store
    = (Wider.replied r, db')
    ∧ Wider.code r = 200
    ∧ Backend.getUserProfile (Sample.call_as "t1" 0 Sample.empty_body) (Wider.core db')
      = Some {| id := "t1"; role := Js.Str "MANAGER"; name := Js.Str "t1" |}.
Proof. eexists. eexists. split; [vm_compute; reflexivity|]. split; reflexivity. Qed.

Example manager_cannot_change_roles :
  Wider.PUT_api_users_id_role "t1"
    (Sample.call_as "m1" 0 (Scenario.role_body (Js.Str "MANAGER"))) Scenario.store
  = (Wider.replied
       (Wider.widen (forbidden "You don't have permission to perform this action")),
     Scenario.store).
Proof. vm_compute. reflexivity. Qed.

(** X16. A role change takes effect on the target's very next call.
    After a 200, a token of the target account resolves to an actor
    with the new role (the profile read being accepted), while a token
    of any other account resolves exactly as before. *)
Theorem role_change_takes_effect
    (userId : string) (req req2 : Req) (db db' : Wider.store) (r : Wider.Reply)
    (user2 : Supabase.AuthUser) :
  Wider.PUT_api_users_id_role userId req db = (Wider.replied r, db') →
  Wider.code r = 200 →
  Backend.getUserFromRequest req2 (Wider.core db) = Some user2 →
  (Supabase.au_id user2 = userId →
   Supabase.refuses (Wider.core db) Supabase.anon Supabase.SELECT "profiles" = None →
   ∃ u2, Backend.getUserProfile req2 (Wider.core db') = Some u2
         ∧ id u2 = userId ∧ role u2 = b_role (body req))
  ∧ (Supabase.au_id user2 ≠ userId →
     Backend.getUserProfile req2 (Wider.core db')
     = Backend.getUserProfile req2 (Wider.core db)).
Proof.
  intros Hsent Hcode Huser2.
  destruct (put_role_success userId req db db' r Hsent Hcode)
    as (u & row & c' & _ & _ & _ & Hupdate & _ & ->).
  destruct (resolved_after_role_change _ _ _ _ _ req2 Hupdate) as (_ & Hsame & Hother).
  simpl. split.
  - intros Hid Hread. rewrite (Hsame user2 Huser2 Hid Hread). eauto.
  - intros Hid. by apply (Hother user2).
Qed.

Lemma role_change_takes_effect_witness :
  ∃ u2, Backend.getUserProfile (Sample.call_as "t1" 0 Sample.empty_body)
          (Wider.core (Wider.PUT_api_users_id_role "t1"
                         (Sample.call_as "a1" 0 (Scenario.role_body (Js.Str "MANAGER")))
                         Scenario.store).2) = Some u2
        ∧ id u2 = "t1" ∧ role u2 = Js.Str "MANAGER".
Proof.
  destruct (role_change_takes_effect "t1"
              (Sample.call_as "a1" 0 (Scenario.role_body (Js.Str "MANAGER")))
              (Sample.call_as "t1" 0 Sample.empty_body)
              Scenario.store
              (Wider.PUT_api_users_id_role "t1"
                 (Sample.call_as "a1" 0 (Scenario.role_body (Js.Str "MANAGER")))
                 Scenario.store).2
              (Wider.mkReply 200
                 (Wider.message_profile "User role updated"
                    (Supabase.mkProfileRow "t1" (Js.Str "t1") (Js.Str "MANAGER"))))
              (Sample.account "t1" "TECHNICIAN").1) as [Hnew _];
    [vm_compute; reflexivity | reflexivity | vm_compute; reflexivity |].
  apply Hnew; reflexivity.
Defined.

(** X17. Nothing keeps an ADMIN from changing their own role.  After
    an ADMIN has set their own role to anything but ADMIN, every
    further role change they ask for with the same token is answered
    403 and changes nothing. *)
Theorem self_demotion_locks_out
    (req : Req) (db db' : Wider.store) (r : Wider.Reply) (u : UserProfile) :
  Backend.getUserProfile req (Wider.core db) = Some u →
  Wider.PUT_api_users_id_role (id u) req db = (Wider.replied r, db') →
  Wider.code r = 200 →
  b_role (body req) ≠ Js.Str "ADMIN" →
  ∀ target req2,
    authorization req2 = authorization req →
    Wider.PUT_api_users_id_role target req2 db'
    = (Wider.replied
         (Wider.widen (forbidden "You don't have permission to perform this action")),
       db').
Proof.
  intros Hu Hsent Hcode Hdemoted target req2 Hheader.
  destruct (put_role_success (id u) req db db' r Hsent Hcode)
    as (u' & row & c' & Hu' & _ & Hvalid & Hupdate & _ & ->).
  assert (u' = u) as -> by congruence.
  destruct (resolved_after_role_change _ _ _ _ _ req Hupdate) as (_ & Hsame & _).
  assert (Hresolved : ∃ user, Backend.getUserFromRequest req (Wider.core db) = Some user
                              ∧ Supabase.au_id user = id u
                              ∧ Supabase.refuses (Wider.core db) Supabase.anon
                                  Supabase.SELECT "profiles" = None).
  { revert Hu. unfold Backend.getUserProfile, Supabase.answer.
    destruct (Backend.getUserFromRequest req (Wider.core db)) as [user|]; [|discriminate].
    destruct (Supabase.refuses (Wider.core db) Supabase.anon Supabase.SELECT "profiles");
      [discriminate|].
    simpl. destruct (List.filter _ _) as [|p [|p' rest]]; try discriminate.
    intros [= <-]. eauto. }
  destruct Hresolved as (user & Huser & Hid & Hread).
  specialize (Hsame user Huser Hid Hread).
  assert (Hu2 : Backend.getUserProfile req2 c'
                = Some {| id := id u; role := b_role (body req);
                          name := Supabase.p_name row |})
    by (rewrite <- Hsame; by apply getUserProfile_header).
  unfold Wider.PUT_api_users_id_role.
  rewrite (wguarded_resolved _ _ req2 (Wider.with_core (λ _, c') db) _ Hu2).
  apply includes_true in Hvalid as (s & Hs & Hin).
  assert (Hdenied : Backend.hasPermission
                      (Some {| id := id u; role := b_role (body req);
                               name := Supabase.p_name row |}) "change_user_roles"
                    = Return false).
  { rewrite hasPermission_listed with (allowed := ["ADMIN"]);
      [ | exact Hdemoted | vm_compute; reflexivity ].
    simpl. rewrite Hs. simpl. f_equal. apply bool_decide_eq_false.
    intros Hadmin%list_elem_of_singleton. subst s. contradiction. }
  by rewrite Hdenied.
Qed.

Lemma self_demotion_locks_out_witness :
  Wider.PUT_api_users_id_role "a1"
    (Sample.call_as "a1" 0 (Scenario.role_body (Js.Str "ADMIN")))
    (Wider.PUT_api_users_id_role "a1"
       (Sample.call_as "a1" 0 (Scenario.role_body (Js.Str "EMPLOYEE"))) Scenario.store).2
  = (Wider.replied
       (Wider.widen (forbidden "You don't have permission to perform this action")),
     (Wider.PUT_api_users_id_role "a1"
        (Sample.call_as "a1" 0 (Scenario.role_body (Js.Str "EMPLOYEE"))) Scenario.store).2).
Proof.
  apply (self_demotion_locks_out
           (Sample.call_as "a1" 0 (Scenario.role_body (Js.Str "EMPLOYEE")))
           Scenario.store _
           (Wider.mkReply 200
              (Wider.message_profile "User role updated"
                 (Supabase.mkProfileRow "a1" (Js.Str "a1") (Js.Str "EMPLOYEE"))))
           {| id := "a1"; role := Js.Str "ADMIN"; name := Js.Str "a1" |});
    try (vm_compute; reflexivity).
  discriminate.
Defined.

(** ** Deleting a request *)

Lemma delete_run (req : Req) (db : Wider.store) :
  Wider.wrun (Wider.delete_api_requests_id req) db =
    match Wider.refuses_delete db Supabase.anon "maintenance_requests" with
    | Some message => (Wider.mkReply 400 (Wider.narrow (message_only message)), db)
    | None =>
        (Wider.mkReply 200 (Wider.narrow (message_only "Request deleted")),
         Wider.with_core
           (Supabase.with_maintenance_requests
              (List.filter (λ r, negb (bool_decide (Supabase.r_id r = params_id req))))) db)
    end.
Proof.
  unfold Wider.delete_api_requests_id, Wider.delete_maintenance_requests.
  cbv [Wider.wrun mbind Wider.whandler_bind mret Wider.whandler_ret Wider.call
         Wider.reply_with Wider.reply_json].
  by destruct (Wider.refuses_delete db Supabase.anon "maintenance_requests").
Qed.

(** X18. [DELETE /api/requests/:id] answers 200 only to a resolved
    ADMIN or MANAGER, and then the table holds exactly the rows it held
    under other ids, in the same order.  It does not look whether the
    id exists: for an id without a row the answer is still 200 and the
    table is unchanged, so deleting twice is the same as deleting
    once. *)
Theorem request_deletion
    (req : Req) (db db' : Wider.store) (r : Wider.Reply) :
  Wider.DELETE_api_requests_id req db = (Wider.replied r, db') →
  Wider.code r = 200 →
  (∃ u, Backend.getUserProfile req (Wider.core db) = Some u
        ∧ (role u = Js.Str "ADMIN" ∨ role u = Js.Str "MANAGER"))
  ∧ Supabase.maintenance_requests (Wider.core db')
    = filter (λ row, Supabase.r_id row ≠ params_id req)
        (Supabase.maintenance_requests (Wider.core db))
  ∧ ((∀ row, row ∈ Supabase.maintenance_requests (Wider.core db) →
             Supabase.r_id row ≠ params_id req) →
     Supabase.maintenance_requests (Wider.core db')
     = Supabase.maintenance_requests (Wider.core db))
  ∧ Wider.DELETE_api_requests_id req db' = (Wider.replied r, db').
Proof.
  intros Hsent Hcode.
  destruct (wguarded_success _ _ _ _ _ _ Hsent Hcode) as (u & Hu & Hallowed & Hrun).
  rewrite delete_run in Hrun.
  destruct (Wider.refuses_delete db Supabase.anon "maintenance_requests") eqn:Haccepted;
    [injection Hrun as <- _; discriminate Hcode|].
  injection Hrun as <- <-.
  assert (Hfilter : ∀ rows : list Supabase.RequestRow,
            List.filter (λ r, negb (bool_decide (Supabase.r_id r = params_id req))) rows
            = filter (λ row, Supabase.r_id row ≠ params_id req) rows).
  { intros rows. rewrite <- filter_bool_decide. apply List.filter_ext.
    intros row. destruct (decide (Supabase.r_id row = params_id req)) as [Heq|Hne].
    - by rewrite bool_decide_eq_true_2, bool_decide_eq_false_2 by auto.
    - by rewrite bool_decide_eq_false_2, bool_decide_eq_true_2 by auto. }
  split; [|split; [|split]].
  - exists u. split; [exact Hu|].
    destruct (allowed_roles u "delete_request" ["ADMIN"; "MANAGER"]
                ltac:(vm_compute; reflexivity) Hallowed) as (s & Hs & [-> | Hin]);
      [by left|].
    repeat (apply elem_of_cons in Hin as [-> | Hin]);
      [by left | by right | by apply elem_of_nil in Hin].
  - simpl. apply Hfilter.
  - intros Habsent. simpl. rewrite Hfilter.
    induction (Supabase.maintenance_requests (Wider.core db)) as [|row rows IH];
      [reflexivity|].
    rewrite filter_cons_True.
    + f_equal. apply IH. intros row' Hin. apply Habsent. apply elem_of_cons. by right.
    + apply Habsent. apply elem_of_cons. by left.
  - set (db' := Wider.with_core _ db).
    assert (Hu' : Backend.getUserProfile req (Wider.core db') = Some u)
      by (rewrite <- Hu; by apply getUserProfile_frame).
    unfold Wider.DELETE_api_requests_id.
    rewrite (wguarded_resolved _ _ req db' u Hu'), Hallowed, delete_run.
    change (Wider.refuses_delete db') with (Wider.refuses_delete db).
    rewrite Haccepted. f_equal.
    unfold db', Wider.with_core, Supabase.with_maintenance_requests. simpl.
    assert (Htwice : ∀ rows : list Supabase.RequestRow,
              List.filter (λ r, negb (bool_decide (Supabase.r_id r = params_id req)))
                (List.filter (λ r, negb (bool_decide (Supabase.r_id r = params_id req))) rows)
              = List.filter (λ r, negb (bool_decide (Supabase.r_id r = params_id req))) rows).
    { induction rows as [|row rows IH]; [reflexivity|].
      simpl. destruct (negb (bool_decide (Supabase.r_id row = params_id req))) eqn:Hkeep;
        [|exact IH].
      simpl. rewrite Hkeep. by f_equal. }
    by rewrite Htwice.
Qed.

Lemma request_deletion_witness :
  Supabase.maintenance_requests
    (Wider.core (Wider.DELETE_api_requests_id
                   (Sample.call_as "m1" 2 Sample.empty_body) Scenario.store).2)
  = filter (λ row, Supabase.r_id row ≠ 2) (Supabase.maintenance_requests Sample.store).
Proof.
  destruct (request_deletion (Sample.call_as "m1" 2 Sample.empty_body) Scenario.store
              (Wider.DELETE_api_requests_id
                 (Sample.call_as "m1" 2 Sample.empty_body) Scenario.store).2
              (Wider.mkReply 200 (Wider.narrow (message_only "Request deleted"))))
    as (_ & Hrows & _); [vm_compute; reflexivity | reflexivity | exact Hrows].
Defined.

(** ** Instructions and worksheet comments *)

Lemma worksheet_run (path : string) (text : Js.value) (req : Req) (db : Wider.store)
    (u : UserProfile) :
  userProfile req = Some u →
  Wider.wrun (Wider.post_api_requests_id_worksheet path text req) db =
    match Supabase.refuses (Wider.core db) Supabase.anon Supabase.INSERT
            "request_worksheet_comments" with
    | Some message => (Wider.mkReply 400 (Wider.narrow (message_only message)), db)
    | None =>
        (Wider.mkReply 200
           (Wider.message_worksheet "Worksheet comment added"
              (Wider.mkWorksheetRow (Supabase.next_id (Wider.core db))
                 (Js.json_number (Js.parseInt path)) text (id u))),
         Wider.mkStore (Supabase.bump_id (Wider.core db)) (Wider.request_instructions db)
           (Wider.request_worksheet_comments db
              ++ [Wider.mkWorksheetRow (Supabase.next_id (Wider.core db))
                    (Js.json_number (Js.parseInt path)) text (id u)])
           (Wider.refuses_delete db))
    end.
Proof.
  intros Hu. unfold Wider.post_api_requests_id_worksheet. rewrite Hu.
  unfold Wider.insert_request_worksheet_comments.
  cbv [Wider.wrun mbind Wider.whandler_bind mret Wider.whandler_ret Wider.call
         Wider.reply_with Wider.reply_json].
  by destruct (Supabase.refuses (Wider.core db) Supabase.anon Supabase.INSERT
                 "request_worksheet_comments").
Qed.

Lemma instructions_run (path : string) (text : Js.value) (req : Req) (db : Wider.store)
    (u : UserProfile) :
  userProfile req = Some u →
  Wider.wrun (Wider.post_api_requests_id_instructions path text req) db =
    match Supabase.refuses (Wider.core db) Supabase.anon Supabase.INSERT
            "request_instructions" with
    | Some message => (Wider.mkReply 400 (Wider.narrow (message_only message)), db)
    | None =>
        (Wider.mkReply 200
           (Wider.message_instruction "Instruction added"
              (Wider.mkInstructionRow (Supabase.next_id (Wider.core db))
                 (Js.json_number (Js.parseInt path)) text (id u))),
         Wider.mkStore (Supabase.bump_id (Wider.core db))
           (Wider.request_instructions db
              ++ [Wider.mkInstructionRow (Supabase.next_id (Wider.core db))
                    (Js.json_number (Js.parseInt path)) text (id u)])
           (Wider.request_worksheet_comments db)
           (Wider.refuses_delete db))
    end.
Proof.
  intros Hu. unfold Wider.post_api_requests_id_instructions. rewrite Hu.
  unfold Wider.insert_request_instructions.
  cbv [Wider.wrun mbind Wider.whandler_bind mret Wider.whandler_ret Wider.call
         Wider.reply_with Wider.reply_json].
  by destruct (Supabase.refuses (Wider.core db) Supabase.anon Supabase.INSERT
                 "request_instructions").
Qed.

(** X19. Worksheet comments are written by an ADMIN only, instructions
    by an ADMIN or a MANAGER only, and always in the caller's own name.
    When either route answers 200, exactly one row is appended to its
    table: it carries the text from the body, the resolved caller's id
    as [created_by_user_id], and as [request_id] what [parseInt] makes
    of the path segment, whatever string that is; the other of the two
    tables and the requests are untouched.  Whether a request with that
    id exists is not looked at.  For a path that is the decimal numeral
    of a key of at most [2^53] in size, the [request_id] is that key. *)
Theorem comments_are_signed_by_the_caller
    (path : string) (text : Js.value) (req : Req) (db db' : Wider.store)
    (r : Wider.Reply) :
  Wider.code r = 200 →
  (Wider.POST_api_requests_id_worksheet path text req db = (Wider.replied r, db') →
   ∃ u, Backend.getUserProfile req (Wider.core db) = Some u
        ∧ role u = Js.Str "ADMIN"
        ∧ Wider.request_worksheet_comments db'
          = Wider.request_worksheet_comments db
            ++ [Wider.mkWorksheetRow (Supabase.next_id (Wider.core db))
                  (Js.json_number (Js.parseInt path)) text (id u)]
        ∧ Wider.request_instructions db' = Wider.request_instructions db
        ∧ Supabase.maintenance_requests (Wider.core db')
          = Supabase.maintenance_requests (Wider.core db))
  ∧ (Wider.POST_api_requests_id_instructions path text req db = (Wider.replied r, db') →
     ∃ u, Backend.getUserProfile req (Wider.core db) = Some u
          ∧ (role u = Js.Str "ADMIN" ∨ role u = Js.Str "MANAGER")
          ∧ Wider.request_instructions db'
            = Wider.request_instructions db
              ++ [Wider.mkInstructionRow (Supabase.next_id (Wider.core db))
                    (Js.json_number (Js.parseInt path)) text (id u)]
          ∧ Wider.request_worksheet_comments db' = Wider.request_worksheet_comments db
          ∧ Supabase.maintenance_requests (Wider.core db')
            = Supabase.maintenance_requests (Wider.core db))
  ∧ (∀ key : Z, path = pretty key → Z.abs key ≤ 2 ^ 53 →
       Js.json_number (Js.parseInt path) = Some key).
Proof.
  intros Hcode. split; [|split]; [intros Hsent|intros Hsent|].
  - destruct (wguarded_success _ _ _ _ _ _ Hsent Hcode) as (u & Hu & Hallowed & Hrun).
    rewrite (worksheet_run path text (set_userProfile u req) db u eq_refl) in Hrun.
    simpl in Hrun.
    destruct (Supabase.refuses (Wider.core db) _ _ _);
      [injection Hrun as <- _; discriminate Hcode|].
    injection Hrun as _ <-. exists u. split; [exact Hu|]. split; [|by simpl].
    destruct (allowed_roles u "add_worksheet" ["ADMIN"]
                ltac:(vm_compute; reflexivity) Hallowed) as (s & Hs & [-> | Hin]);
      [exact Hs|].
    apply list_elem_of_singleton in Hin as ->. exact Hs.
  - destruct (wguarded_success _ _ _ _ _ _ Hsent Hcode) as (u & Hu & Hallowed & Hrun).
    rewrite (instructions_run path text (set_userProfile u req) db u eq_refl) in Hrun.
    simpl in Hrun.
    destruct (Supabase.refuses (Wider.core db) _ _ _);
      [injection Hrun as <- _; discriminate Hcode|].
    injection Hrun as _ <-. exists u. split; [exact Hu|]. split; [|by simpl].
    destruct (allowed_roles u "add_instructions" ["ADMIN"; "MANAGER"]
                ltac:(vm_compute; reflexivity) Hallowed) as (s & Hs & [-> | Hin]);
      [by left|].
    repeat (apply elem_of_cons in Hin as [-> | Hin]);
      [by left | by right | by apply elem_of_nil in Hin].
  - intros key -> Hsafe. by apply parseInt_pretty_safe.
Qed.

Lemma comments_are_signed_by_the_caller_witness :
  Wider.request_worksheet_comments
    (Wider.POST_api_requests_id_worksheet "999" (Js.Str "Bearing replaced")
       (Sample.call_as "a1" 999 Sample.empty_body) Scenario.store).2
  = [Wider.mkWorksheetRow 100 (Some 999) (Js.Str "Bearing replaced") "a1"].
Proof.
  destruct (comments_are_signed_by_the_caller "999" (Js.Str "Bearing replaced")
              (Sample.call_as "a1" 999 Sample.empty_body) Scenario.store
              (Wider.POST_api_requests_id_worksheet "999" (Js.Str "Bearing replaced")
                 (Sample.call_as "a1" 999 Sample.empty_body) Scenario.store).2
              (Wider.mkReply 200
                 (Wider.message_worksheet "Worksheet comment added"
                    (Wider.mkWorksheetRow 100 (Some 999) (Js.Str "Bearing replaced") "a1"))))
    as [Hworksheet _]; [reflexivity|].
  destruct Hworksheet as (u & Hu & _ & Hrows & _); [vm_compute; reflexivity|].
  rewrite Hrows. vm_compute in Hu. injection Hu as <-. vm_compute. reflexivity.
Defined.

(** What ends up as [request_id] for three other paths: a key beyond
    [2^53], a numeral followed by letters, and no numeral at all. *)
Example worksheet_request_id_by_path :
  let stored path :=
    Wider.w_request_id <$>
      Wider.request_worksheet_comments
        (Wider.POST_api_requests_id_worksheet path (Js.Str "Bearing replaced")
           (Sample.call_as "a1" 0 Sample.empty_body) Scenario.store).2 in
  stored "9007199254740993" = [Some 9007199254740992]
  ∧ stored "12abc" = [Some 12]
  ∧ stored "abc" = [None].
Proof. repeat split; vm_compute; reflexivity. Qed.

Example manager_cannot_add_worksheet :
  Wider.POST_api_requests_id_worksheet "1" (Js.Str "Bearing replaced")
    (Sample.call_as "m1" 1 Sample.empty_body) Scenario.store
  = (Wider.replied
       (Wider.widen (forbidden "You don't have permission to perform this action")),
     Scenario.store).
Proof. vm_compute. reflexivity. Qed.

(** ** The member check boxes of the Teams page *)

(** X20. Ticking a member's box flips that member and nobody else.
    After [handleMemberToggle(userId)] the id is selected exactly when
    it was not before, every other id is selected exactly when it was,
    a selection without repeats stays without repeats, name and company
    of the form are kept, and toggling an unselected id twice gives the
    form back as it was. *)
Theorem member_toggle_flips_one (userId : string) (prev : TeamsPage.Form) :
  (userId ∈ TeamsPage.member_ids (TeamsPage.handleMemberToggle userId prev)
   ↔ userId ∉ TeamsPage.member_ids prev)
  ∧ (∀ other, other ≠ userId →
       (other ∈ TeamsPage.member_ids (TeamsPage.handleMemberToggle userId prev)
        ↔ other ∈ TeamsPage.member_ids prev))
  ∧ (NoDup (TeamsPage.member_ids prev) →
     NoDup (TeamsPage.member_ids (TeamsPage.handleMemberToggle userId prev)))
  ∧ TeamsPage.f_name (TeamsPage.handleMemberToggle userId prev) = TeamsPage.f_name prev
  ∧ TeamsPage.company (TeamsPage.handleMemberToggle userId prev) = TeamsPage.company prev
  ∧ (userId ∉ TeamsPage.member_ids prev →
     TeamsPage.handleMemberToggle userId (TeamsPage.handleMemberToggle userId prev) = prev).
Proof.
  destruct prev as [form_name form_company ids]. unfold TeamsPage.handleMemberToggle. simpl.
  assert (Hremoved : ∀ (l : list string) (x : string),
            x ∈ List.filter (λ i, negb (String.eqb i userId)) l ↔ x ∈ l ∧ x ≠ userId).
  { intros l x. rewrite !list_elem_of_In, filter_In.
    destruct (String.eqb_spec x userId); simpl; intuition congruence. }
  destruct (decide (userId ∈ ids)) as [Hin | Hout].
  - rewrite (bool_decide_eq_true_2 _ Hin).
    split; [rewrite Hremoved; tauto|].
    split; [intros other Hother; rewrite Hremoved; tauto|].
    split.
    { intros Hnodup. clear Hin. induction Hnodup as [|x l Hx Hnodup IH]; simpl.
      - constructor.
      - destruct (negb (String.eqb x userId)); [|exact IH].
        constructor; [|exact IH]. rewrite Hremoved. tauto. }
    split; [reflexivity|]. split; [reflexivity|]. intros Hnot. contradiction.
  - rewrite (bool_decide_eq_false_2 _ Hout).
    split; [rewrite elem_of_app, list_elem_of_singleton; tauto|].
    split; [intros other Hother; rewrite elem_of_app, list_elem_of_singleton; tauto|].
    split.
    { intros Hnodup. apply NoDup_app. split; [exact Hnodup|].
      split; [|apply NoDup_singleton].
      intros x Hx Hsame%list_elem_of_singleton. by subst x. }
    split; [reflexivity|]. split; [reflexivity|]. intros _. simpl.
    rewrite bool_decide_eq_true_2
      by (apply elem_of_app; right; by apply list_elem_of_singleton).
    f_equal. clear Hremoved.
    induction ids as [|x l IH]; simpl.
    + by rewrite String.eqb_refl.
    + destruct (String.eqb_spec x userId) as [->|_]; simpl.
      * exfalso. apply Hout. apply elem_of_cons. by left.
      * f_equal. apply IH. intros Hl. apply Hout. apply elem_of_cons. by right.
Qed.

Example toggle_selected_member :
  TeamsPage.member_ids
    (TeamsPage.handleMemberToggle "t1" (TeamsPage.mkForm "Night shift" "My Company"
                                          ["t1"; "t2"]))
  = ["t2"]
  ∧ TeamsPage.member_ids
      (TeamsPage.handleMemberToggle "t1"
         (TeamsPage.handleMemberToggle "t1" (TeamsPage.mkForm "Night shift" "My Company"
                                               ["t1"; "t2"])))
    = ["t2"; "t1"].
Proof. split; vm_compute; reflexivity. Qed.

(** ** What the pages offer and what the API lets through *)

Lemma listed_action_returns (u : UserProfile) (action : string) (allowed : list string) :
  Backend.permissions !! action = Some allowed →
  ∃ b, Backend.hasPermission (Some u) action = Return b.
Proof.
  intros Hentry.
  destruct (decide (role u = Js.Str "ADMIN")) as [Hadmin | Hadmin].
  - exists true. unfold Backend.hasPermission. by rewrite Hadmin.
  - rewrite (hasPermission_listed u action allowed Hadmin Hentry). eauto.
Qed.

Lemma frontend_is_backend (actor : option UserProfile) (action : string) :
  Frontend.hasPermission actor action = Backend.hasPermission actor action.
Proof.
  unfold Frontend.hasPermission, Backend.hasPermission. by rewrite permissions_agree.
Qed.

Lemma post_equipment_not_403 (req : Req) (db : Supabase.state) :
  status (Backend.run (Backend.post_api_equipment req) db).1 ≠ 403.
Proof.
  unfold Backend.post_api_equipment. run_handler.
  destruct (_ && _); [simpl; discriminate|].
  destruct (_ && _); [simpl; discriminate|].
  destruct (Supabase.insert_equipment _ _ db) as [[?|?] ?]; simpl; discriminate.
Qed.

Lemma put_role_not_403 (userId : string) (req : Req) (db : Wider.store) :
  Wider.code (Wider.wrun (Wider.put_api_users_id_role userId req) db).1 ≠ 403.
Proof.
  unfold Wider.put_api_users_id_role.
  cbv [Wider.wrun mbind Wider.whandler_bind mret Wider.whandler_ret Wider.on_core
         Wider.reply_with Wider.reply_json].
  destruct (negb _); [simpl; discriminate|].
  destruct (Wider.update_profiles_single _ _ _ (Wider.core db)) as [[?|?] ?];
    simpl; discriminate.
Qed.

(** X21. For one and the same actor, the pages offer what the API lets
    through.  [canManageEquipment] is true exactly when
    [POST /api/equipment] does not answer 403, [canChangeUserRoles]
    exactly when [PUT /api/users/:id/role] does not, and
    [canViewAllRequests] exactly when the request list is sent on
    unfiltered. *)
Theorem pages_offer_what_the_api_allows
    (req : Req) (db : Wider.store) (u : UserProfile) :
  Backend.getUserProfile req (Wider.core db) = Some u →
  (Frontend.canManageEquipment (Some u) = Return true
   ↔ ∀ r, (Backend.POST_api_equipment req (Wider.core db)).1 = responded r →
          status r ≠ 403)
  ∧ (Frontend.canChangeUserRoles (Some u) = Return true
     ↔ ∀ userId r, (Wider.PUT_api_users_id_role userId req db).1 = Wider.replied r →
                   Wider.code r ≠ 403)
  ∧ (Frontend.canViewAllRequests (Some u) = Return true
     ↔ Backend.requireRequestAccess req (Wider.core db)
       = Backend.next (set_canViewAll true (set_userProfile u req))).
Proof.
  intros Hu.
  unfold Frontend.canManageEquipment, Frontend.canChangeUserRoles,
    Frontend.canViewAllRequests.
  rewrite (frontend_is_backend (Some u) "manage_equipment").
  rewrite (frontend_is_backend (Some u) "change_user_roles").
  rewrite (frontend_is_backend (Some u) "view_all_requests").
  split; [|split].
  - unfold Backend.POST_api_equipment.
    rewrite (guarded_resolved req (Wider.core db) _ _ u Hu).
    destruct (listed_action_returns u "manage_equipment" ["ADMIN"; "MANAGER"]
                ltac:(vm_compute; reflexivity)) as ([|] & ->).
    + split; [|reflexivity]. intros _ r.
      pose proof (post_equipment_not_403 (set_userProfile u req) (Wider.core db)) as Hnot.
      destruct (Backend.run _ (Wider.core db)) as [r' db']. simpl in *. by intros [= <-].
    + split; [discriminate|]. intros Hnever. exfalso.
      by apply (Hnever (forbidden "You don't have permission to perform this action")).
  - unfold Wider.PUT_api_users_id_role.
    destruct (listed_action_returns u "change_user_roles" ["ADMIN"]
                ltac:(vm_compute; reflexivity)) as ([|] & Hallowed).
    + split; [|by rewrite Hallowed]. intros _ userId r.
      rewrite (wguarded_resolved _ _ req db u Hu), Hallowed.
      pose proof (put_role_not_403 userId (set_userProfile u req) db) as Hnot.
      destruct (Wider.wrun _ db) as [r' db']. simpl in *. by intros [= <-].
    + rewrite Hallowed. split; [discriminate|]. intros Hnever. exfalso.
      apply (Hnever "" (Wider.widen
               (forbidden "You don't have permission to perform this action")));
        [|reflexivity].
      by rewrite (wguarded_resolved _ _ req db u Hu), Hallowed.
  - rewrite (requireRequestAccess_resolved req (Wider.core db) u Hu).
    destruct (listed_action_returns u "view_all_requests" ["ADMIN"; "MANAGER"]
                ltac:(vm_compute; reflexivity)) as ([|] & ->); [done|].
    split; [discriminate|].
    destruct (Backend.hasPermission (Some u) "view_own_requests") as [[|]|];
      discriminate.
Qed.

Lemma pages_offer_what_the_api_allows_witness :
  Frontend.canManageEquipment
    (Some {| id := "e1"; role := Js.Str "EMPLOYEE"; name := Js.Str "e1" |}) = Return true
  ↔ ∀ r, (Backend.POST_api_equipment (Sample.call_as "e1" 0 Sample.empty_body)
            (Wider.core Scenario.store)).1 = responded r → status r ≠ 403.
Proof.
  apply (pages_offer_what_the_api_allows (Sample.call_as "e1" 0 Sample.empty_body)
           Scenario.store
           {| id := "e1"; role := Js.Str "EMPLOYEE"; name := Js.Str "e1" |}).
  vm_compute. reflexivity.
Defined.
